(** * Traffic map front end (static/map.js): frame building and timeline

    A shallow embedding of the data transforms and of the refresh and
    timeline handlers of [static/map.js], with the properties of its
    design description proved or refuted on that embedding.

    Modelling choices, fixed once for the whole development:

    - A JavaScript number is [NaN], [+Infinity], [-Infinity] or a finite
      number; finite numbers are exact rationals ([Qc]).  Rounding and
      overflow of binary64 arithmetic and the sign of zero are outside
      this model.
    - A JavaScript value is what [JSON.parse] can produce, plus
      [undefined] (the result of reading a missing property).
    - Reading a property of [undefined] or [null] raises a [TypeError];
      functions that can raise return a [completion].
    - Functions of the host (string to number conversion, number
      printing, date parsing, square root, URI encoding, locale time
      formatting) are operations of the class [Host]; nothing is assumed
      about them.
    - The slider is the range input of the page.  The element is not
      part of [static/map.js]: what it does with a value stored in it
      is modelled from the design description ([storeSliderValue]). *)

From Stdlib Require Import ZArith QArith Qcanon Qround Bool List String Ascii Lia Lqa.
From Stdlib Require Import DecimalString.
Import ListNotations.

Local Open Scope string_scope.
Local Open Scope Z_scope.

Set Warnings "-register-all".

(* ================================================================= *)
(** ** Numbers *)

Inductive num : Type :=
| NaN
| PInf
| NInf
| Fin (q : Qc).

Module Num.

Definition ofQ (q : Q) : num := Fin (Q2Qc q).
Definition ofZ (z : Z) : num := Fin (Q2Qc (inject_Z z)).

Definition Qcltb (a b : Qc) : bool :=
  match Qccompare a b with Lt => true | _ => false end.

Definition Qceqb (a b : Qc) : bool :=
  match Qccompare a b with Eq => true | _ => false end.

Definition Qcleb (a b : Qc) : bool :=
  match Qccompare a b with Gt => false | _ => true end.

(** [Number.isFinite] on a value already known to be a number. *)
Definition isFinite (x : num) : bool :=
  match x with Fin _ => true | _ => false end.

Definition isNaN (x : num) : bool :=
  match x with NaN => true | _ => false end.

Definition opp (x : num) : num :=
  match x with
  | NaN => NaN
  | PInf => NInf
  | NInf => PInf
  | Fin a => Fin (- a)%Qc
  end.

Definition add (x y : num) : num :=
  match x, y with
  | NaN, _ | _, NaN => NaN
  | PInf, NInf | NInf, PInf => NaN
  | PInf, _ | _, PInf => PInf
  | NInf, _ | _, NInf => NInf
  | Fin a, Fin b => Fin (a + b)%Qc
  end.

Definition sub (x y : num) : num := add x (opp y).

(** Sign of a number: [None] for [NaN], otherwise the comparison of the
    number with zero. *)
Definition sign (x : num) : option comparison :=
  match x with
  | NaN => None
  | PInf => Some Gt
  | NInf => Some Lt
  | Fin a => Some (Qccompare a 0%Qc)
  end.

Definition mul (x y : num) : num :=
  match x, y with
  | Fin a, Fin b => Fin (a * b)%Qc
  | _, _ =>
      match sign x, sign y with
      | Some Eq, Some _ | Some _, Some Eq => NaN
      | Some Gt, Some Gt | Some Lt, Some Lt => PInf
      | Some Gt, Some Lt | Some Lt, Some Gt => NInf
      | _, _ => NaN
      end
  end.

(** Division.  A zero divisor is the positive zero of this model: a
    positive dividend gives [+Infinity], a negative one [-Infinity] and
    zero gives [NaN]. *)
Definition div (x y : num) : num :=
  match x, y with
  | NaN, _ | _, NaN => NaN
  | (PInf | NInf), (PInf | NInf) => NaN
  | PInf, Fin b => if Qcltb b 0%Qc then NInf else PInf
  | NInf, Fin b => if Qcltb b 0%Qc then PInf else NInf
  | Fin _, (PInf | NInf) => Fin 0%Qc
  | Fin a, Fin b =>
      if Qceqb b 0%Qc then
        match Qccompare a 0%Qc with
        | Eq => NaN
        | Gt => PInf
        | Lt => NInf
        end
      else Fin (a / b)%Qc
  end.

(** [x < y]; every comparison with [NaN] is false. *)
Definition ltb (x y : num) : bool :=
  match x, y with
  | NaN, _ | _, NaN => false
  | _, NInf => false
  | NInf, _ => true
  | PInf, _ => false
  | Fin _, PInf => true
  | Fin a, Fin b => Qcltb a b
  end.

Definition gtb (x y : num) : bool := ltb y x.

(** [x <= y]. *)
Definition leb (x y : num) : bool :=
  match x, y with
  | NaN, _ | _, NaN => false
  | NInf, _ => true
  | _, PInf => true
  | _, NInf => false
  | PInf, _ => false
  | Fin a, Fin b => Qcleb a b
  end.

Definition geb (x y : num) : bool := leb y x.

(** [Math.max] and [Math.min] of two arguments. *)
Definition max (x y : num) : num :=
  match x, y with
  | NaN, _ | _, NaN => NaN
  | _, _ => if ltb x y then y else x
  end.

Definition min (x y : num) : num :=
  match x, y with
  | NaN, _ | _, NaN => NaN
  | _, _ => if ltb y x then y else x
  end.

(** [Math.floor]. *)
Definition floor (x : num) : num :=
  match x with
  | Fin a => ofZ (Qfloor a)
  | _ => x
  end.

(** [Math.round]: the integer nearest to [x], halves rounded up. *)
Definition round (x : num) : num :=
  match x with
  | Fin a => ofZ (Qfloor (a + Q2Qc (1 # 2))%Qc)
  | _ => x
  end.

(** Truthiness of a number: [0] and [NaN] are falsy. *)
Definition truthy (x : num) : bool :=
  match x with
  | NaN => false
  | Fin a => negb (Qceqb a 0%Qc)
  | _ => true
  end.

(** An integer in the mathematical sense. *)
Definition isInteger (x : num) : Prop := exists z : Z, x = ofZ z.

End Num.

(* ================================================================= *)
(** ** Values, errors and the host *)

(** An object is the list of its properties in order; where a name
    occurs twice the first entry is the property. *)
Inductive JsVal : Type :=
| JUndefined
| JNull
| JBool (b : bool)
| JNum (n : num)
| JStr (s : string)
| JArr (items : list JsVal)
| JObj (props : list (string * JsVal)).

Inductive JsError : Type :=
| TypeError (msg : string)
| Rejected (msg : string).

(** The result of evaluating code that can raise. *)
Inductive completion (A : Type) : Type :=
| Normal (a : A)
| Throw (e : JsError).

Arguments Normal {A} a.
Arguments Throw {A} e.

Definition bind {A B : Type} (c : completion A) (k : A -> completion B)
  : completion B :=
  match c with
  | Normal a => k a
  | Throw e => Throw e
  end.

Notation "x <- c ;; k" := (bind c (fun x => k))
  (at level 61, c at next level, right associativity).

(** What the code takes from the JavaScript host. *)
Class Host : Type := {
  (** [Number(s)] for a string [s] *)
  StringToNumber : string -> num;
  (** [String(n)] for a number [n] *)
  NumberToString : num -> string;
  (** the time value of [new Date(s)] for a string [s]: an integral
      number of milliseconds, or [NaN] *)
  DateParse : string -> num;
  (** [Math.sqrt] *)
  Math_sqrt : num -> num;
  encodeURIComponent : string -> string;
  (** [toLocaleDateString('it-IT')] and [toLocaleTimeString('it-IT', ...)]
      of the date with a given time value *)
  toLocaleDateString : num -> string;
  toLocaleTimeString : num -> string
}.

Definition natToString (n : nat) : string :=
  NilZero.string_of_uint (Nat.to_uint n).

Fixpoint lookup (k : string) (props : list (string * JsVal)) : option JsVal :=
  match props with
  | [] => None
  | (k', v) :: rest => if String.eqb k k' then Some v else lookup k rest
  end.

Definition charAt (i : nat) (s : string) : JsVal :=
  match String.get i s with
  | Some c => JStr (String c EmptyString)
  | None => JUndefined
  end.

Fixpoint chars (s : string) : list JsVal :=
  match s with
  | EmptyString => []
  | String c rest => JStr (String c EmptyString) :: chars rest
  end.

Definition nullish (v : JsVal) : bool :=
  match v with
  | JUndefined | JNull => true
  | _ => false
  end.

(** [v.k] for a property name [k] that is not an array index. *)
Definition get (v : JsVal) (k : string) : completion JsVal :=
  match v with
  | JUndefined | JNull =>
      Throw (TypeError ("Cannot read properties of null or undefined: " ++ k))
  | JObj props =>
      match lookup k props with
      | Some x => Normal x
      | None => Normal JUndefined
      end
  | JArr items =>
      if String.eqb k "length" then Normal (JNum (Num.ofZ (Z.of_nat (List.length items))))
      else Normal JUndefined
  | JStr s =>
      if String.eqb k "length" then Normal (JNum (Num.ofZ (Z.of_nat (String.length s))))
      else Normal JUndefined
  | JBool _ | JNum _ => Normal JUndefined
  end.

(** [v[i]] for an array index [i]. *)
Definition getIndex (v : JsVal) (i : nat) : completion JsVal :=
  match v with
  | JUndefined | JNull =>
      Throw (TypeError ("Cannot read properties of null or undefined: " ++ natToString i))
  | JObj props =>
      match lookup (natToString i) props with
      | Some x => Normal x
      | None => Normal JUndefined
      end
  | JArr items => Normal (nth i items JUndefined)
  | JStr s => Normal (charAt i s)
  | JBool _ | JNum _ => Normal JUndefined
  end.

(** [v?.k] *)
Definition getOpt (v : JsVal) (k : string) : completion JsVal :=
  if nullish v then Normal JUndefined else get v k.

(** The values a [for ... of] loop visits. *)
Definition iterate (v : JsVal) : completion (list JsVal) :=
  match v with
  | JArr items => Normal items
  | JStr s => Normal (chars s)
  | _ => Throw (TypeError "value is not iterable")
  end.

Definition truthy (v : JsVal) : bool :=
  match v with
  | JUndefined | JNull => false
  | JBool b => b
  | JNum n => Num.truthy n
  | JStr s => negb (String.eqb s "")
  | JArr _ | JObj _ => true
  end.

Definition isArray (v : JsVal) : bool :=
  match v with
  | JArr _ => true
  | _ => false
  end.

(** [v === s] for a string literal [s]. *)
Definition isString (v : JsVal) (s : string) : bool :=
  match v with
  | JStr s' => String.eqb s' s
  | _ => false
  end.

(** [Number.isFinite(v)]: no conversion, only a number can be finite. *)
Definition Number_isFinite (v : JsVal) : bool :=
  match v with
  | JNum n => Num.isFinite n
  | _ => false
  end.

(** [a || b] and [a ?? b] (with [b] already evaluated: in every use of
    this file [b] is a literal). *)
Definition js_or (a b : JsVal) : JsVal := if truthy a then a else b.
Definition js_coalesce (a b : JsVal) : JsVal := if nullish a then b else a.

Section Conversions.
Context {host : Host}.

Fixpoint ToString (v : JsVal) : string :=
  match v with
  | JUndefined => "undefined"
  | JNull => "null"
  | JBool true => "true"
  | JBool false => "false"
  | JNum n => NumberToString n
  | JStr s => s
  | JArr items =>
      (fix join (l : list JsVal) : string :=
         match l with
         | [] => ""
         | x :: rest =>
             let e := match x with
                      | JUndefined | JNull => ""
                      | _ => ToString x
                      end in
             match rest with
             | [] => e
             | _ :: _ => e ++ "," ++ join rest
             end
         end) items
  | JObj _ => "[object Object]"
  end.

(** [Number(v)] *)
Definition ToNumber (v : JsVal) : num :=
  match v with
  | JUndefined => NaN
  | JNull => Num.ofZ 0
  | JBool true => Num.ofZ 1
  | JBool false => Num.ofZ 0
  | JNum n => n
  | JStr s => StringToNumber s
  | JArr _ | JObj _ => StringToNumber (ToString v)
  end.

(** [a < b] on arbitrary values: two strings are compared as
    strings, anything else as numbers. *)
Definition ToPrimitive (v : JsVal) : JsVal :=
  match v with
  | JArr _ | JObj _ => JStr (ToString v)
  | _ => v
  end.

Definition js_lt (a b : JsVal) : bool :=
  match ToPrimitive a, ToPrimitive b with
  | JStr s, JStr t => String.ltb s t
  | pa, pb => Num.ltb (ToNumber pa) (ToNumber pb)
  end.

Definition js_gt (a b : JsVal) : bool := js_lt b a.

(** [a + b], [a - b] and [a / b] on arbitrary values. *)
Definition js_add (a b : JsVal) : JsVal :=
  match ToPrimitive a, ToPrimitive b with
  | JStr s, pb => JStr (s ++ ToString pb)
  | pa, JStr t => JStr (ToString pa ++ t)
  | pa, pb => JNum (Num.add (ToNumber pa) (ToNumber pb))
  end.

Definition js_sub (a b : JsVal) : num := Num.sub (ToNumber a) (ToNumber b).
Definition js_div (a b : JsVal) : num := Num.div (ToNumber a) (ToNumber b).

End Conversions.

(* ================================================================= *)
(** ** Simple helpers (map.js, lines 1-118) *)

Definition emptyFeatureCollection : JsVal :=
  JObj [("type", JStr "FeatureCollection"); ("features", JArr [])].

(** [toFixed(2)] of a number: the sign, then the integer [n] nearest to
    a hundred times the magnitude (the larger one on a tie) written with
    a point before its last two digits.  From [1e21] upwards, and for a
    number that is not finite, the host prints the number. *)
Definition digits (n : Z) : string :=
  NilZero.string_of_uint (N.to_uint (Z.to_N n)).

Definition padLeft3 (s : string) : string :=
  match String.length s with
  | 0%nat => "000" ++ s
  | 1%nat => "00" ++ s
  | 2%nat => "0" ++ s
  | _ => s
  end.

Definition pointBeforeLastTwo (s : string) : string :=
  let k := String.length s in
  substring 0 (k - 2) s ++ "." ++ substring (k - 2) 2 s.

Section Helpers.
Context {host : Host}.

Definition toFixed2 (x : num) : string :=
  match x with
  | Fin q =>
      let neg := Num.Qcltb q 0%Qc in
      let a := if neg then (- q)%Qc else q in
      let s := if neg then "-" else "" in
      if Num.Qcleb (Q2Qc (inject_Z (10 ^ 21))) a
      then s ++ NumberToString (Fin a)
      else s ++ pointBeforeLastTwo
                  (padLeft3 (digits (Qfloor (a * Q2Qc 100 + Q2Qc (1 # 2))%Qc)))
  | _ => NumberToString x
  end.

(** Time value of a date: not a number outside the range of dates,
    truncated to an integer inside it. *)
Definition TimeClip (t : num) : num :=
  match t with
  | Fin q =>
      if Num.Qcltb (Q2Qc (inject_Z 8640000000000000)) (if Num.Qcltb q 0%Qc then (- q)%Qc else q)
      then NaN
      else Num.ofZ (if Num.Qcltb q 0%Qc then Qceiling q else Qfloor q)
  | _ => NaN
  end.

(** [new Date(value).getTime()] *)
Definition Date_getTime (value : JsVal) : num :=
  match ToPrimitive value with
  | JStr s => DateParse s
  | p => TimeClip (ToNumber p)
  end.

(** Lines 10-19. *)
Definition toEpochSeconds (value : JsVal) : num :=
  match value with
  | JNum n =>
      if Num.ltb n (Num.ofZ 10000000000) then n
      else Num.floor (Num.div n (Num.ofZ 1000))
  | _ =>
      let t := Date_getTime value in
      if negb (Num.isFinite t) then NaN
      else Num.floor (Num.div t (Num.ofZ 1000))
  end.

(** Lines 26-35. *)
Definition formatEpoch (epoch : num) : string * string :=
  let d := TimeClip (Num.mul epoch (Num.ofZ 1000)) in
  (toLocaleDateString d, toLocaleTimeString d).

(** Lines 42-47. *)
Definition normalizeFeatureCollection (fc : JsVal) : completion JsVal :=
  if truthy fc then
    type <- get fc "type" ;;
    if isString type "FeatureCollection" then
      features <- get fc "features" ;;
      if isArray features then Normal fc
      else Normal emptyFeatureCollection
    else Normal emptyFeatureCollection
  else Normal emptyFeatureCollection.

(** Lines 108-118. *)
Definition getLineMiddlePoint (coords : JsVal) : completion JsVal :=
  match coords with
  | JArr items =>
      if (List.length items <? 2)%nat then Normal JNull
      else
        first <- getIndex coords 0 ;;
        last <- getIndex coords (List.length items - 1) ;;
        first0 <- getIndex first 0 ;;
        last0 <- getIndex last 0 ;;
        first1 <- getIndex first 1 ;;
        last1 <- getIndex last 1 ;;
        Normal (JArr [JNum (js_div (js_add first0 last0) (JNum (Num.ofZ 2)));
                      JNum (js_div (js_add first1 last1) (JNum (Num.ofZ 2)))])
  | _ => Normal JNull
  end.

End Helpers.

(* ================================================================= *)
(** ** Peak and per-road values (map.js, lines 120-216, 282-301) *)

(** A [for ... of] loop whose body updates the loop state [s] and can
    raise. *)
Fixpoint forOf {S : Type} (body : S -> JsVal -> completion S)
         (items : list JsVal) (s : S) : completion S :=
  match items with
  | [] => Normal s
  | x :: rest => s' <- body s x ;; forOf body rest s'
  end.

Definition rgba (r g b a : Z) : JsVal :=
  JArr [JNum (Num.ofZ r); JNum (Num.ofZ g); JNum (Num.ofZ b); JNum (Num.ofZ a)].

(** Lines 163-172: the colour of the peak marker. *)
Definition peakColor (ratio : num) : JsVal :=
  if Num.ltb ratio (Num.ofQ (33 # 100)) then rgba 46 127 255 255
  else if Num.ltb ratio (Num.ofQ (66 # 100)) then rgba 39 209 124 255
  else if Num.ltb ratio (Num.ofQ (9 # 10)) then rgba 255 212 77 255
  else rgba 255 59 59 255.

(** Lines 297-300: the colour of a traffic line. *)
Definition lineColor (ratio : num) : JsVal :=
  if Num.ltb ratio (Num.ofQ (33 # 100)) then rgba 46 127 255 210
  else if Num.ltb ratio (Num.ofQ (66 # 100)) then rgba 39 209 124 210
  else if Num.ltb ratio (Num.ofQ (9 # 10)) then rgba 255 212 77 210
  else rgba 255 59 59 220.

Section Frame.
Context {host : Host}.

(** Lines 157-161 and 291-295: the same text in both functions.  The
    arithmetic is exact here: the overflow of binary64, for bounds near
    the largest number, is not modelled. *)
Definition encodeRatio (value : num) (minValue maxValue : JsVal) : num :=
  let ratio :=
    if Num.isFinite value && js_gt maxValue minValue
    then Num.div (js_sub (JNum value) minValue) (js_sub maxValue minValue)
    else Num.ofZ 0 in
  Num.max (Num.ofZ 0) (Num.min (Num.ofZ 1) ratio).

(** Lines 154-155: the bounds the peak marker is coloured with. *)
Definition peakMin (stats : JsVal) : completion JsVal :=
  if truthy stats then
    m <- get stats "min" ;;
    if Number_isFinite m then Normal m else Normal (JNum (Num.ofZ 0))
  else Normal (JNum (Num.ofZ 0)).

Definition peakMax (stats : JsVal) : completion JsVal :=
  if truthy stats then
    m <- get stats "max" ;;
    if Number_isFinite m then Normal m else Normal (JNum (Num.ofZ 1))
  else Normal (JNum (Num.ofZ 1)).

(** Lines 175-178. *)
Definition markerSize (vehicles : num) : num :=
  Num.max (Num.ofZ 22)
    (Num.min (Num.ofZ 56)
       (Num.add (Num.ofZ 14)
          (Num.mul (Math_sqrt (Num.max vehicles (Num.ofZ 0))) (Num.ofZ 6)))).

(** Lines 136-143: the body of the scan, on the pair of the best
    feature and the best value so far. *)
Definition peakStep (best : JsVal * num) (feature : JsVal)
  : completion (JsVal * num) :=
  if negb (truthy feature) then Normal best
  else
    properties <- get feature "properties" ;;
    if negb (truthy properties) then Normal best
    else
      v <- get properties "value" ;;
      let value := ToNumber v in
      if negb (Num.isFinite value) then Normal best
      else if Num.gtb value (snd best) then Normal (feature, value)
      else Normal best.

(** Lines 146-186: what is built from the result of the scan. *)
Definition peakMarker (bestFeature : JsVal) (bestValue : num) (stats : JsVal)
  : completion JsVal :=
  if negb (truthy bestFeature) then Normal JNull
  else
    geometry <- get bestFeature "geometry" ;;
    if negb (truthy geometry) then Normal JNull
    else
      type <- get geometry "type" ;;
      if negb (isString type "LineString") then Normal JNull
      else
        coordinates <- get geometry "coordinates" ;;
        middle <- getLineMiddlePoint coordinates ;;
        if negb (truthy middle) then Normal JNull
        else
          minValue <- peakMin stats ;;
          maxValue <- peakMax stats ;;
          let ratio := encodeRatio bestValue minValue maxValue in
          let color := peakColor ratio in
          properties <- get bestFeature "properties" ;;
          vehicles <- get properties "vehicles" ;;
          let size := markerSize (ToNumber (js_or vehicles (JNum (Num.ofZ 0)))) in
          Normal (JObj [("position", middle);
                        ("color", color);
                        ("size", JNum size);
                        ("icon", JStr "marker");
                        ("value", JNum bestValue)]).

(** Lines 129-187. *)
Definition getPeakPoint (fc stats : JsVal) : completion JsVal :=
  if negb (truthy fc) then Normal JNull
  else
    features <- get fc "features" ;;
    if negb (truthy features) then Normal JNull
    else
      len <- get features "length" ;;
      if negb (truthy len) then Normal JNull
      else
        items <- iterate features ;;
        best <- forOf peakStep items (JNull, NInf) ;;
        let bestFeature := fst best in
        let bestValue := snd best in
        peakMarker bestFeature bestValue stats.

(** Lines 198-213: the body of the loop, on the labels pushed so
    far (in order). *)
Definition labelStep (results : list JsVal) (feature : JsVal)
  : completion (list JsVal) :=
  geometry <- get feature "geometry" ;;
  if negb (truthy geometry) then Normal results
  else
    type <- get geometry "type" ;;
    if negb (isString type "LineString") then Normal results
    else
      coordinates <- get geometry "coordinates" ;;
      middle <- getLineMiddlePoint coordinates ;;
      if negb (truthy middle) then Normal results
      else
        properties <- get feature "properties" ;;
        v <- (if truthy properties then get properties "value"
              else Normal properties) ;;
        let value := ToNumber v in
        let labelText := if Num.isFinite value then toFixed2 value else "" in
        Normal (results ++ [JObj [("position", middle); ("text", JStr labelText)]])%list.

(** Lines 194-216. *)
Definition buildValuesLabels (fc : JsVal) : completion JsVal :=
  if negb (truthy fc) then Normal (JArr [])
  else
    features <- get fc "features" ;;
    if negb (truthy features) then Normal (JArr [])
    else
      items <- iterate features ;;
      results <- forOf labelStep items [] ;;
      Normal (JArr results).

(** Lines 286-301: [getLineColor] of the traffic layer, with the
    stats the layer object holds at the time of the call. *)
Definition getLineColor (currentStats feature : JsVal) : completion JsVal :=
  properties <- get feature "properties" ;;
  v <- getOpt properties "value" ;;
  let value := ToNumber (js_coalesce v (JNum (Num.ofZ 0))) in
  minValue <- get currentStats "min" ;;
  maxValue <- get currentStats "max" ;;
  let ratio := encodeRatio value minValue maxValue in
  Normal (lineColor ratio).

End Frame.

(* ================================================================= *)
(** ** Timeline and page state (map.js, lines 353-542, 656-709) *)

(** The part of the page the timeline and the refresh read and write:
    the module variables [timeMin] and [timeMax], the slider (its
    [value] and [max], read as numbers), the check boxes and selectors,
    the text of the labels, the [--played] style property, the state of
    the layers ([currentStats] and the [data] of the traffic, peak and
    value label layers), and the URLs fetched so far, latest first. *)
Record Page : Type := mkPage {
  timeMin : JsVal;
  timeMax : JsVal;
  sliderValue : num;
  sliderMax : num;
  chkTraffic : bool;
  chkValues : bool;
  classSelect : string;
  metricSelect : string;
  legendMinLabel : string;
  legendMaxLabel : string;
  timeStartLabel : string;
  played : string;
  currentStats : JsVal;
  trafficData : JsVal;
  peakData : JsVal;
  valuesData : JsVal;
  fetched : list string
}.

Definition set_sliderValue (v : num) (pg : Page) : Page :=
  mkPage (timeMin pg) (timeMax pg) v (sliderMax pg) (chkTraffic pg)
    (chkValues pg) (classSelect pg) (metricSelect pg) (legendMinLabel pg)
    (legendMaxLabel pg) (timeStartLabel pg) (played pg) (currentStats pg)
    (trafficData pg) (peakData pg) (valuesData pg) (fetched pg).

Definition set_legendMinLabel (s : string) (pg : Page) : Page :=
  mkPage (timeMin pg) (timeMax pg) (sliderValue pg) (sliderMax pg) (chkTraffic pg)
    (chkValues pg) (classSelect pg) (metricSelect pg) s
    (legendMaxLabel pg) (timeStartLabel pg) (played pg) (currentStats pg)
    (trafficData pg) (peakData pg) (valuesData pg) (fetched pg).

Definition set_legendMaxLabel (s : string) (pg : Page) : Page :=
  mkPage (timeMin pg) (timeMax pg) (sliderValue pg) (sliderMax pg) (chkTraffic pg)
    (chkValues pg) (classSelect pg) (metricSelect pg) (legendMinLabel pg)
    s (timeStartLabel pg) (played pg) (currentStats pg)
    (trafficData pg) (peakData pg) (valuesData pg) (fetched pg).

Definition set_timeStartLabel (s : string) (pg : Page) : Page :=
  mkPage (timeMin pg) (timeMax pg) (sliderValue pg) (sliderMax pg) (chkTraffic pg)
    (chkValues pg) (classSelect pg) (metricSelect pg) (legendMinLabel pg)
    (legendMaxLabel pg) s (played pg) (currentStats pg)
    (trafficData pg) (peakData pg) (valuesData pg) (fetched pg).

Definition set_played (s : string) (pg : Page) : Page :=
  mkPage (timeMin pg) (timeMax pg) (sliderValue pg) (sliderMax pg) (chkTraffic pg)
    (chkValues pg) (classSelect pg) (metricSelect pg) (legendMinLabel pg)
    (legendMaxLabel pg) (timeStartLabel pg) s (currentStats pg)
    (trafficData pg) (peakData pg) (valuesData pg) (fetched pg).

Definition set_currentStats (v : JsVal) (pg : Page) : Page :=
  mkPage (timeMin pg) (timeMax pg) (sliderValue pg) (sliderMax pg) (chkTraffic pg)
    (chkValues pg) (classSelect pg) (metricSelect pg) (legendMinLabel pg)
    (legendMaxLabel pg) (timeStartLabel pg) (played pg) v
    (trafficData pg) (peakData pg) (valuesData pg) (fetched pg).

Definition set_trafficData (v : JsVal) (pg : Page) : Page :=
  mkPage (timeMin pg) (timeMax pg) (sliderValue pg) (sliderMax pg) (chkTraffic pg)
    (chkValues pg) (classSelect pg) (metricSelect pg) (legendMinLabel pg)
    (legendMaxLabel pg) (timeStartLabel pg) (played pg) (currentStats pg)
    v (peakData pg) (valuesData pg) (fetched pg).

Definition set_peakData (v : JsVal) (pg : Page) : Page :=
  mkPage (timeMin pg) (timeMax pg) (sliderValue pg) (sliderMax pg) (chkTraffic pg)
    (chkValues pg) (classSelect pg) (metricSelect pg) (legendMinLabel pg)
    (legendMaxLabel pg) (timeStartLabel pg) (played pg) (currentStats pg)
    (trafficData pg) v (valuesData pg) (fetched pg).

Definition set_valuesData (v : JsVal) (pg : Page) : Page :=
  mkPage (timeMin pg) (timeMax pg) (sliderValue pg) (sliderMax pg) (chkTraffic pg)
    (chkValues pg) (classSelect pg) (metricSelect pg) (legendMinLabel pg)
    (legendMaxLabel pg) (timeStartLabel pg) (played pg) (currentStats pg)
    (trafficData pg) (peakData pg) v (fetched pg).

Definition log_fetch (url : string) (pg : Page) : Page :=
  mkPage (timeMin pg) (timeMax pg) (sliderValue pg) (sliderMax pg) (chkTraffic pg)
    (chkValues pg) (classSelect pg) (metricSelect pg) (legendMinLabel pg)
    (legendMaxLabel pg) (timeStartLabel pg) (played pg) (currentStats pg)
    (trafficData pg) (peakData pg) (valuesData pg) (url :: fetched pg).

(** Code that reads and writes the page and can raise: the page at the
    point of raising is kept. *)
Definition Act (A : Type) : Type := Page -> completion A * Page.

Definition aret {A : Type} (a : A) : Act A := fun pg => (Normal a, pg).

Definition abind {A B : Type} (m : Act A) (k : A -> Act B) : Act B :=
  fun pg =>
    match m pg with
    | (Normal a, pg') => k a pg'
    | (Throw e, pg') => (Throw e, pg')
    end.

Definition lift {A : Type} (c : completion A) : Act A := fun pg => (c, pg).
Definition read {A : Type} (f : Page -> A) : Act A := fun pg => (Normal (f pg), pg).
Definition modify (f : Page -> Page) : Act unit := fun pg => (Normal tt, f pg).

Notation "x <~ m ;; k" := (abind m (fun x => k))
  (at level 61, m at next level, right associativity).
Notation "m ;;; k" := (abind m (fun _ => k))
  (at level 61, right associativity).

(** Lines 463-466. *)
Definition getWindowFromEpoch (centerEpoch minutesRange : num) : num * num :=
  let seconds := Num.mul minutesRange (Num.ofZ 60) in
  (Num.sub centerEpoch seconds, Num.add centerEpoch seconds).

Definition defaultStats : JsVal :=
  JObj [("min", JNum (Num.ofZ 0)); ("max", JNum (Num.ofZ 1))].

Section Timeline.
Context {host : Host}.

(** What [fetchJson] resolves to for each URL: the parsed body, or a
    rejection (no answer, or a body that is not JSON). *)
Variable fetchJson : string -> completion JsVal.

(** Lines 449-456.  The arithmetic is exact here: where the page rounds
    the quotient or the product to binary64, its result can be the
    neighbouring second. *)
Definition getSliderEpoch (pg : Page) : JsVal :=
  if negb (Number_isFinite (timeMin pg)) || negb (Number_isFinite (timeMax pg))
  then JNull
  else
    let position := Num.div (sliderValue pg) (sliderMax pg) in
    let epoch :=
      js_add (timeMin pg)
             (JNum (Num.mul position (js_sub (timeMax pg) (timeMin pg)))) in
    JNum (Num.round (ToNumber epoch)).

(** Lines 473-477. *)
Definition paintSliderFill (pg : Page) : Page :=
  let percent := Num.mul (Num.div (sliderValue pg) (sliderMax pg)) (Num.ofZ 100) in
  set_played (NumberToString percent ++ "%") pg.

(** Lines 484-489. *)
Definition updateLiveTimeLabel (pg : Page) : Page :=
  let epoch := getSliderEpoch pg in
  if nullish epoch then pg
  else set_timeStartLabel (snd (formatEpoch (ToNumber epoch))) pg.

Definition trafficUrl (fromEpoch toEpoch : num) (vehicleClass metric : string)
  : string :=
  "/api/map/traffic?fr=" ++ NumberToString fromEpoch ++
  "&to=" ++ NumberToString toEpoch ++
  "&veh_class=" ++ encodeURIComponent vehicleClass ++
  "&metric=" ++ encodeURIComponent metric.

(** Lines 531-541: the layers are given the frame. *)
Definition drawLayers (featureCollection : JsVal) : Act unit :=
  modify (set_trafficData featureCollection) ;;;
  stats3 <~ read currentStats ;;
  peak <~ lift (getPeakPoint featureCollection stats3) ;;
  modify (set_peakData (if truthy peak then JArr [peak] else JArr [])) ;;;
  values <~ read chkValues ;;
  if values then
    labels <~ lift (buildValuesLabels featureCollection) ;;
    modify (set_valuesData labels)
  else modify (set_valuesData (JArr [])).

(** Lines 515-541: what the refresh does with the answer. *)
Definition showTraffic (response : JsVal) : Act unit :=
  featureCollection <~ lift (normalizeFeatureCollection response) ;;
  stats <~ lift (get response "stats") ;;
  modify (set_currentStats (js_or stats defaultStats)) ;;;
  stats1 <~ read currentStats ;;
  min1 <~ lift (get stats1 "min") ;;
  (if Number_isFinite min1
   then modify (set_legendMinLabel (toFixed2 (ToNumber min1)))
   else modify (set_legendMinLabel "min")) ;;;
  stats2 <~ read currentStats ;;
  max2 <~ lift (get stats2 "max") ;;
  (if Number_isFinite max2
   then modify (set_legendMaxLabel (toFixed2 (ToNumber max2)))
   else modify (set_legendMaxLabel "max")) ;;;
  drawLayers featureCollection.

(** Lines 496-542.  The answer of the service is taken at once: what
    other handlers do between the request and its answer is not
    modelled. *)
Definition loadTrafficForCurrentSlider : Act unit :=
  checked <~ read chkTraffic ;;
  if negb checked then aret tt
  else
    epoch <~ read getSliderEpoch ;;
    if nullish epoch then aret tt
    else
      let (fromEpoch, toEpoch) := getWindowFromEpoch (ToNumber epoch) (Num.ofZ 5) in
      vehicleClass <~ read classSelect ;;
      metric <~ read metricSelect ;;
      let url := trafficUrl fromEpoch toEpoch vehicleClass metric in
      modify (log_fetch url) ;;;
      response <~ lift (fetchJson url) ;;
      showTraffic response.

(** A handler calls the refresh without waiting for it: what the
    refresh raises is not raised in the handler. *)
Definition startRefresh (pg : Page) : Page :=
  snd (loadTrafficForCurrentSlider pg).

(** Modelled from the spec: the slider element itself is not in the
    source.  The spec has it as a scrub slider, "integer-valued, bounded
    [0,max]", and [map.js] uses it as the range input of the page (its
    [value], its [max], its [input] event).  A number stored in
    [slider.value] is kept as the integer nearest to it, halves up, no
    less than 0 and no more than the maximum; what is not a finite
    number is replaced by the middle of the range, the default of the
    input. *)
Definition storeSliderValue (v : num) (pg : Page) : Page :=
  let x := if Num.isFinite v then v else Num.div (sliderMax pg) (Num.ofZ 2) in
  set_sliderValue
    (Num.max (Num.ofZ 0) (Num.min (Num.floor (sliderMax pg)) (Num.round x))) pg.

(** Lines 657-664. *)
Definition btnPrevClick (pg : Page) : Page :=
  if negb (chkTraffic pg) then pg
  else
    let current := sliderValue pg in
    let pg := storeSliderValue (Num.max (Num.ofZ 0) (Num.sub current (Num.ofZ 20))) pg in
    startRefresh (updateLiveTimeLabel (paintSliderFill pg)).

(** Lines 666-674. *)
Definition btnNextClick (pg : Page) : Page :=
  if negb (chkTraffic pg) then pg
  else
    let current := sliderValue pg in
    let max := sliderMax pg in
    let pg := storeSliderValue (Num.min max (Num.add current (Num.ofZ 20))) pg in
    startRefresh (updateLiveTimeLabel (paintSliderFill pg)).

(** Lines 695-708: one tick of the playback timer. *)
Definition playTick (pg : Page) : Page :=
  let current := sliderValue pg in
  let max := sliderMax pg in
  let pg :=
    if Num.geb current max then storeSliderValue (Num.ofZ 0) pg
    else storeSliderValue (Num.add current (Num.ofZ 2)) pg in
  startRefresh (updateLiveTimeLabel (paintSliderFill pg)).

End Timeline.

(* ================================================================= *)
(** ** A host to evaluate the code with *)

(** Integers are printed and read in decimal, square roots are taken of
    squares of rationals (and rounded down on the numerator and
    denominator otherwise); the other operations are trivial.  The
    theorems below hold for every host; this one only serves to run the
    code on concrete inputs. *)
Definition decimalHost : Host := {|
  StringToNumber s :=
    if String.eqb s "" then Num.ofZ 0
    else match NilZero.uint_of_string s with
         | Some d => Num.ofZ (Z.of_N (N.of_uint d))
         | None => NaN
         end;
  NumberToString n :=
    match n with
    | NaN => "NaN"
    | PInf => "Infinity"
    | NInf => "-Infinity"
    | Fin q => NilZero.string_of_int (Z.to_int (Qfloor q))
    end;
  DateParse _ := NaN;
  Math_sqrt n :=
    match n with
    | Fin q =>
        if Num.Qcltb q 0%Qc then NaN
        else Num.ofQ (Z.sqrt (Qnum q) # Pos.sqrt (Qden q))
    | NInf => NaN
    | _ => n
    end;
  encodeURIComponent s := s;
  toLocaleDateString _ := "";
  toLocaleTimeString _ := ""
|}.

(* ================================================================= *)
(** ** Vocabulary of the statements

    Values, pages and predicates the theorems below are stated with,
    and the parts of the functions above that their proofs name. *)

Local Open Scope list_scope.

(** Two computed rationals are equal when their reduced fractions are. *)
Ltac qc_eq := apply Qc_is_canon; vm_compute; reflexivity.

(** Equality of two closed values, number by number. *)
Ltac js_eq := vm_compute; repeat first [ reflexivity | qc_eq | f_equal ].

Section Vocabulary.
Context {host : Host}.

(** A coordinate pair and a coordinate sequence with finite
    coordinates, as values. *)
Definition position (p : Qc * Qc) : JsVal :=
  JArr [JNum (Fin (fst p)); JNum (Fin (snd p))].

Definition lineString (pts : list (Qc * Qc)) : JsVal :=
  JArr (map position pts).

Definition midpoint (a b : Qc) : Qc := ((a + b) / Q2Qc (inject_Z 2))%Qc.

(** An array of at least two elements. *)
Definition isLongArray (v : JsVal) : bool :=
  match v with
  | JArr items => (2 <=? List.length items)%nat
  | _ => false
  end.

Definition pt (x y : Z) : Qc * Qc := (Q2Qc (inject_Z x), Q2Qc (inject_Z y)).

(** An object whose [type] is the string ['FeatureCollection'] and
    whose [features] is an array. *)
Definition isFeatureCollection (v : JsVal) : bool :=
  match v with
  | JObj props =>
      match lookup "type" props, lookup "features" props with
      | Some (JStr t), Some (JArr _) => String.eqb t "FeatureCollection"
      | _, _ => false
      end
  | _ => false
  end.

(** The page as the script leaves it before the time range is loaded:
    [timeMin] and [timeMax] are [null], nothing is drawn and nothing has
    been fetched.  The slider runs from 0 to 1000 here. *)
Definition blankPage : Page := {|
  timeMin := JNull;
  timeMax := JNull;
  sliderValue := Num.ofZ 0;
  sliderMax := Num.ofZ 1000;
  chkTraffic := true;
  chkValues := false;
  classSelect := "all";
  metricSelect := "count";
  legendMinLabel := "min";
  legendMaxLabel := "max";
  timeStartLabel := "";
  played := "";
  currentStats := defaultStats;
  trafficData := emptyFeatureCollection;
  peakData := JArr [];
  valuesData := JArr [];
  fetched := []
|}.

Definition set_timeRange (lo hi : JsVal) (pg : Page) : Page :=
  mkPage lo hi (sliderValue pg) (sliderMax pg) (chkTraffic pg)
    (chkValues pg) (classSelect pg) (metricSelect pg) (legendMinLabel pg)
    (legendMaxLabel pg) (timeStartLabel pg) (played pg) (currentStats pg)
    (trafficData pg) (peakData pg) (valuesData pg) (fetched pg).

(** The value of [v.k] where the read cannot raise. *)
Definition prop (v : JsVal) (k : string) : JsVal :=
  match get v k with
  | Normal x => x
  | Throw _ => JUndefined
  end.

(** The finite number the scan reads off a feature, if any: the
    feature and its [properties] are truthy and [Number] of the
    [value] property is finite. *)
Definition candidateValue (feature : JsVal) : option Qc :=
  if truthy feature && truthy (prop feature "properties") then
    match ToNumber (prop (prop feature "properties") "value") with
    | Fin q => Some q
    | _ => None
    end
  else None.

Definition isCandidate (feature : JsVal) : bool :=
  match candidateValue feature with
  | Some _ => true
  | None => false
  end.

(** The geometry of a feature is a truthy value whose [type] is the
    string ['LineString']. *)
Definition isLineString (feature : JsVal) : bool :=
  truthy (prop feature "geometry")
  && isString (prop (prop feature "geometry") "type") "LineString".

Definition coordinatesOf (feature : JsVal) : JsVal :=
  prop (prop feature "geometry") "coordinates".

Definition vehiclesOf (feature : JsVal) : num :=
  ToNumber (js_or (prop (prop feature "properties") "vehicles") (JNum (Num.ofZ 0))).

(** The bounds of lines 154-155 as values. *)
Definition peakMinOf (stats : JsVal) : JsVal :=
  if truthy stats && Number_isFinite (prop stats "min")
  then prop stats "min" else JNum (Num.ofZ 0).

Definition peakMaxOf (stats : JsVal) : JsVal :=
  if truthy stats && Number_isFinite (prop stats "max")
  then prop stats "max" else JNum (Num.ofZ 1).

(** [f] is the first of the features of greatest value: the features
    before it have a smaller value or none, those after it have no
    greater value. *)
Definition allBelow (q : Qc) (l : list JsVal) : Prop :=
  forall g w, In g l -> candidateValue g = Some w -> (w < q)%Qc.

Definition noneAbove (q : Qc) (l : list JsVal) : Prop :=
  forall g w, In g l -> candidateValue g = Some w -> (w <= q)%Qc.

Definition firstMaximum (items : list JsVal) (f : JsVal) (q : Qc) : Prop :=
  exists pre post,
    items = pre ++ f :: post
    /\ candidateValue f = Some q
    /\ allBelow q pre
    /\ noneAbove q post.

(** The marker built for the feature the scan chose. *)
Definition marker (middle : JsVal) (f : JsVal) (q : Qc) (stats : JsVal) : JsVal :=
  JObj [("position", middle);
        ("color", peakColor (encodeRatio (Fin q) (peakMinOf stats) (peakMaxOf stats)));
        ("size", JNum (markerSize (vehiclesOf f)));
        ("icon", JStr "marker");
        ("value", JNum (Fin q))].

(** One step of the scan, as a function of the candidate value. *)
Definition scanStep (best : JsVal * num) (feature : JsVal) : JsVal * num :=
  match candidateValue feature with
  | Some q => if Num.gtb (Fin q) (snd best) then (feature, Fin q) else best
  | None => best
  end.

(** A line feature with the given [value] property, and a
    FeatureCollection of given features. *)
Definition lineFeature (value : JsVal) (pts : list (Qc * Qc)) : JsVal :=
  JObj [("type", JStr "Feature");
        ("properties", JObj [("value", value)]);
        ("geometry", JObj [("type", JStr "LineString");
                           ("coordinates", lineString pts)])].

Definition featureCollection (items : list JsVal) : JsVal :=
  JObj [("type", JStr "FeatureCollection"); ("features", JArr items)].

Definition pointFeature (value : JsVal) (p : Qc * Qc) : JsVal :=
  JObj [("type", JStr "Feature");
        ("properties", JObj [("value", value)]);
        ("geometry", JObj [("type", JStr "Point"); ("coordinates", position p)])].


(** The stats the refresh stores, and the text of a legend label. *)
Definition statsOf (response : JsVal) : JsVal :=
  js_or (prop response "stats") defaultStats.

Definition legendText (bound : JsVal) (placeholder : string) : string :=
  if Number_isFinite bound then toFixed2 (ToNumber bound) else placeholder.

(** The page once the legend is written (line 529). *)
Definition withLegend (response : JsVal) (pg : Page) : Page :=
  set_legendMaxLabel (legendText (prop (statsOf response) "max") "max")
    (set_legendMinLabel (legendText (prop (statsOf response) "min") "min")
       (set_currentStats (statsOf response) pg)).

(** The URL a refresh fetches. *)
Definition refreshUrl (pg : Page) : string :=
  let (fromEpoch, toEpoch) :=
    getWindowFromEpoch (ToNumber (getSliderEpoch pg)) (Num.ofZ 5) in
  trafficUrl fromEpoch toEpoch (classSelect pg) (metricSelect pg).

(** The slider holds an integer position between 0 and its maximum. *)
Definition inRange (pg : Page) : Prop :=
  exists z m : Z,
    sliderValue pg = Num.ofZ z /\ sliderMax pg = Num.ofZ m /\ (0 <= z <= m)%Z.

(** A page whose time range is loaded: from second 1000 to second 2000,
    the slider at 0 of 1000. *)
Definition readyPage : Page :=
  set_timeRange (JNum (Num.ofZ 1000)) (JNum (Num.ofZ 2000)) blankPage.

Definition readyUrl : string :=
  "/api/map/traffic?fr=700&to=1300&veh_class=all&metric=count".

Definition withStats (stats : JsVal) (items : list JsVal) : JsVal :=
  JObj [("type", JStr "FeatureCollection");
        ("features", JArr items);
        ("stats", stats)].

Definition stats_0_10 : JsVal :=
  JObj [("min", JNum (Num.ofZ 0)); ("max", JNum (Num.ofZ 10))].

End Vocabulary.

(* ================================================================= *)
(** ** The rest of map.js: bounds, layer accessors, meta and controls *)

(** Lines 67-68: the running bounds of the scan. *)
Record Bounds : Type := mkBounds {
  minX : num;
  minY : num;
  maxX : num;
  maxY : num;
  hasData : bool
}.

Definition noBounds : Bounds := mkBounds PInf PInf NInf NInf false.

(** Lines 77-81. *)
Definition addPoint (x y : num) (b : Bounds) : Bounds :=
  mkBounds (Num.min (minX b) x) (Num.min (minY b) y)
           (Num.max (maxX b) x) (Num.max (maxY b) y) true.

(** Lines 70-88: an array that starts with two numbers is a coordinate
    pair, and counts when both are finite; any other array is scanned
    element by element; anything else is passed over. *)
Fixpoint scanCoordinates (coords : JsVal) (b : Bounds) : Bounds :=
  match coords with
  | JArr (JNum x :: JNum y :: _) =>
      if Num.isFinite x && Num.isFinite y then addPoint x y b else b
  | JArr items =>
      (fix scanItems (l : list JsVal) (b : Bounds) : Bounds :=
         match l with
         | [] => b
         | item :: rest => scanItems rest (scanCoordinates item b)
         end) items b
  | _ => b
  end.

(** Lines 90-94: the body of the loop over the features. *)
Definition boundsStep (b : Bounds) (feature : JsVal) : completion Bounds :=
  if truthy feature then
    geometry <- get feature "geometry" ;;
    if truthy geometry then
      coordinates <- get geometry "coordinates" ;;
      if truthy coordinates then Normal (scanCoordinates coordinates b)
      else Normal b
    else Normal b
  else Normal b.

(** Lines 64-101. *)
Definition getFeatureCollectionBounds (fc : JsVal) : completion JsVal :=
  if negb (truthy fc) then Normal JNull
  else
    features <- get fc "features" ;;
    if negb (truthy features) then Normal JNull
    else
      items <- iterate features ;;
      b <- forOf boundsStep items noBounds ;;
      if negb (hasData b) then Normal JNull
      else Normal (JArr [JArr [JNum (minX b); JNum (minY b)];
                         JArr [JNum (maxX b); JNum (maxY b)]]).

Section Accessors.
Context {host : Host}.

(** Line 254: [getElevation] of the buildings layer. *)
Definition getElevation (f : JsVal) : completion num :=
  properties <- get f "properties" ;;
  height <- getOpt properties "HEIGHT" ;;
  let h := ToNumber (js_coalesce height (JNum (Num.ofZ 0))) in
  Normal (if Num.truthy h then h else Num.ofZ 0).

(** Lines 282-285: [getLineWidth] of the traffic layer. *)
Definition getLineWidth (feature : JsVal) : completion num :=
  properties <- get feature "properties" ;;
  v <- getOpt properties "vehicles" ;;
  let vehicles := ToNumber (js_or v (JNum (Num.ofZ 0))) in
  Normal (Num.max (Num.ofZ 3)
            (Num.min (Num.ofZ 9)
               (Num.div (Math_sqrt vehicles) (Num.ofQ (16 # 10))))).

(** Lines 757-760: one bound of the time range in the meta answer. *)
Definition metaBound (meta : JsVal) (key alternate : string) : completion JsVal :=
  traffic <- getOpt meta "traffic" ;;
  first <- getOpt traffic key ;;
  if nullish first then
    range <- getOpt meta "traffic_time_range" ;;
    getOpt range alternate
  else Normal first.

(** Lines 757-763: the time range the page takes from the meta
    answer. *)
Definition loadTimeRange (meta : JsVal) (pg : Page) : completion Page :=
  rawMin <- metaBound meta "time_min" "min" ;;
  rawMax <- metaBound meta "time_max" "max" ;;
  Normal (set_timeRange (JNum (toEpochSeconds rawMin))
                        (JNum (toEpochSeconds rawMax)) pg).

End Accessors.

(** The controls of the timeline: the [disabled] flags of the slider
    and of the three buttons, the handle of the playback timer ([null]
    or the number [setInterval] gave), the timers the host is running
    and the number it gives next, the classes [fa-pause] and [fa-play]
    of the play icon, the
    check boxes, and the [hidden] and [disabled-overlay] classes of the
    cards and of the no-data message. *)
Record Controls : Type := mkControls {
  sliderDisabled : bool;
  btnPrevDisabled : bool;
  btnPlayDisabled : bool;
  btnNextDisabled : bool;
  playInterval : option nat;
  runningTimers : list nat;
  nextTimer : nat;
  iconPause : bool;
  iconPlay : bool;
  trafficChecked : bool;
  rumoreChecked : bool;
  timelineHidden : bool;
  timelineOverlay : bool;
  legendHidden : bool;
  noDataHidden : bool
}.

(** A timer handle is truthy when it is a number other than 0. *)
Definition handleTruthy (h : option nat) : bool :=
  match h with
  | Some id => negb (Nat.eqb id 0)
  | None => false
  end.

(** [clearInterval(h)]: a handle that is [null] or not running stops
    nothing. *)
Definition clearInterval (h : option nat) (timers : list nat) : list nat :=
  match h with
  | Some id => filter (fun t => negb (Nat.eqb t id)) timers
  | None => timers
  end.

(** Lines 394-408. *)
Definition setTimelineEnabled (isEnabled : bool) (c : Controls) : Controls :=
  let c :=
    mkControls (negb isEnabled) (negb isEnabled) (negb isEnabled) (negb isEnabled)
      (playInterval c) (runningTimers c) (nextTimer c) (iconPause c) (iconPlay c)
      (trafficChecked c) (rumoreChecked c) (timelineHidden c) (timelineOverlay c)
      (legendHidden c) (noDataHidden c) in
  if negb isEnabled && handleTruthy (playInterval c) then
    mkControls (sliderDisabled c) (btnPrevDisabled c) (btnPlayDisabled c)
      (btnNextDisabled c)
      None (clearInterval (playInterval c) (runningTimers c)) (nextTimer c)
      false true
      (trafficChecked c) (rumoreChecked c) (timelineHidden c) (timelineOverlay c)
      (legendHidden c) (noDataHidden c)
  else c.

Definition set_cards (timeline overlay legend noData : bool) (c : Controls)
  : Controls :=
  mkControls (sliderDisabled c) (btnPrevDisabled c) (btnPlayDisabled c)
    (btnNextDisabled c) (playInterval c) (runningTimers c) (nextTimer c)
    (iconPause c) (iconPlay c) (trafficChecked c) (rumoreChecked c)
    timeline overlay legend noData.

(** Lines 415-442. *)
Definition updateTimelineAndLegendVisibility (c : Controls) : Controls :=
  let showTraffic := trafficChecked c in
  let showRumore := rumoreChecked c in
  if showTraffic || showRumore then
    let c := set_cards false (timelineOverlay c) (legendHidden c) (noDataHidden c) c in
    let c :=
      if showTraffic then
        let c := setTimelineEnabled true c in
        set_cards (timelineHidden c) false (legendHidden c) true c
      else
        let c := setTimelineEnabled false c in
        set_cards (timelineHidden c) true (legendHidden c) false c in
    if showTraffic
    then set_cards (timelineHidden c) (timelineOverlay c) false (noDataHidden c) c
    else set_cards (timelineHidden c) (timelineOverlay c) true (noDataHidden c) c
  else
    set_cards true (timelineOverlay c) true (noDataHidden c) c.

(** Lines 677-709: a click on the play button, without the body of the
    timer ([playTick]). *)
Definition btnPlayClick (c : Controls) : Controls :=
  if negb (trafficChecked c) then c
  else
    let isPlaying := iconPause c in
    if isPlaying then
      mkControls (sliderDisabled c) (btnPrevDisabled c) (btnPlayDisabled c)
        (btnNextDisabled c)
        None (clearInterval (playInterval c) (runningTimers c)) (nextTimer c)
        false true
        (trafficChecked c) (rumoreChecked c) (timelineHidden c) (timelineOverlay c)
        (legendHidden c) (noDataHidden c)
    else
      mkControls (sliderDisabled c) (btnPrevDisabled c) (btnPlayDisabled c)
        (btnNextDisabled c)
        (Some (nextTimer c)) (nextTimer c :: runningTimers c) (S (nextTimer c))
        true false
        (trafficChecked c) (rumoreChecked c) (timelineHidden c) (timelineOverlay c)
        (legendHidden c) (noDataHidden c).

(** The check boxes as the browser sets them before the [change]
    event. *)
Definition set_trafficChecked (checked : bool) (c : Controls) : Controls :=
  mkControls (sliderDisabled c) (btnPrevDisabled c) (btnPlayDisabled c)
    (btnNextDisabled c) (playInterval c) (runningTimers c) (nextTimer c)
    (iconPause c) (iconPlay c) checked (rumoreChecked c)
    (timelineHidden c) (timelineOverlay c) (legendHidden c) (noDataHidden c).

Definition set_rumoreChecked (checked : bool) (c : Controls) : Controls :=
  mkControls (sliderDisabled c) (btnPrevDisabled c) (btnPlayDisabled c)
    (btnNextDisabled c) (playInterval c) (runningTimers c) (nextTimer c)
    (iconPause c) (iconPlay c) (trafficChecked c) checked
    (timelineHidden c) (timelineOverlay c) (legendHidden c) (noDataHidden c).

(** Lines 614-626 and 629-632: the [change] handlers of the two check
    boxes, on the controls.  The refresh the first one starts when the
    box is checked is [loadTrafficForCurrentSlider]. *)
Definition chkTrafficChange (checked : bool) (c : Controls) : Controls :=
  updateTimelineAndLegendVisibility (set_trafficChecked checked c).

Definition chkRumoreChange (checked : bool) (c : Controls) : Controls :=
  updateTimelineAndLegendVisibility (set_rumoreChecked checked c).

(* ================================================================= *)
(** ** Vocabulary for the rest of the code *)

Section MoreVocabulary.
Context {host : Host}.

(** The finite coordinate pairs the scan of the bounds counts, in the
    order it meets them. *)
Fixpoint finitePairs (coords : JsVal) : list (Qc * Qc) :=
  match coords with
  | JArr (JNum x :: JNum y :: _) =>
      match x, y with
      | Fin a, Fin b => [(a, b)]
      | _, _ => []
      end
  | JArr items =>
      (fix pairsOf (l : list JsVal) : list (Qc * Qc) :=
         match l with
         | [] => []
         | item :: rest => finitePairs item ++ pairsOf rest
         end) items
  | _ => []
  end.

Definition featurePairs (feature : JsVal) : list (Qc * Qc) :=
  if truthy feature && truthy (prop feature "geometry")
     && truthy (coordinatesOf feature)
  then finitePairs (coordinatesOf feature)
  else [].

Definition addPair (b : Bounds) (p : Qc * Qc) : Bounds :=
  addPoint (Fin (fst p)) (Fin (snd p)) b.

(** The smaller and the greater of two rationals, as [Math.min] and
    [Math.max] choose them. *)
Definition qmin (a b : Qc) : Qc := if Num.Qcltb b a then b else a.
Definition qmax (a b : Qc) : Qc := if Num.Qcltb a b then b else a.

(** [[x0, y0], [x1, y1]] is the bounding box of the pairs [l]: every
    pair lies in it and each side touches one. *)
Definition isBox (x0 y0 x1 y1 : Qc) (l : list (Qc * Qc)) : Prop :=
  (forall p, In p l ->
             (x0 <= fst p)%Qc /\ (fst p <= x1)%Qc
             /\ (y0 <= snd p)%Qc /\ (snd p <= y1)%Qc)
  /\ (exists p, In p l /\ fst p = x0)
  /\ (exists p, In p l /\ snd p = y0)
  /\ (exists p, In p l /\ fst p = x1)
  /\ (exists p, In p l /\ snd p = y1).

Definition boxValue (x0 y0 x1 y1 : Qc) : JsVal :=
  JArr [position (x0, y0); position (x1, y1)].

(** A polygon feature: its coordinates are a list of rings. *)
Definition polygonFeature (rings : list (list (Qc * Qc))) : JsVal :=
  JObj [("type", JStr "Feature");
        ("properties", JObj []);
        ("geometry", JObj [("type", JStr "Polygon");
                           ("coordinates", JArr (map lineString rings))])].

(** The value of [v[i]] where the read cannot raise. *)
Definition elem (v : JsVal) (i : nat) : JsVal :=
  match getIndex v i with
  | Normal x => x
  | Throw _ => JUndefined
  end.

(** The value of [v?.k]. *)
Definition optProp (v : JsVal) (k : string) : JsVal :=
  if nullish v then JUndefined else prop v k.

(** The epoch of the slider position [v] of [m] in the time range from
    [a] to [b], all integers: [a + v / m * (b - a)] rounded to the
    nearest integer, halves up. *)
Definition epochOf (a b v m : Z) : Z :=
  (a + (2 * v * (b - a) + m) / (2 * m))%Z.

(** The URL of the frame around the second [e]: five minutes to
    each side. *)
Definition windowUrl (e : Z) (vehicleClass metric : string) : string :=
  ("/api/map/traffic?fr=" ++ NumberToString (Num.ofZ (e - 300)) ++
   "&to=" ++ NumberToString (Num.ofZ (e + 300)) ++
   "&veh_class=" ++ encodeURIComponent vehicleClass ++
   "&metric=" ++ encodeURIComponent metric)%string.

(** A road whose first point is [null], and a page like [readyPage]
    that shows the value labels. *)
Definition brokenRoad : JsVal :=
  JObj [("type", JStr "Feature");
        ("properties", JObj [("value", JNum (Num.ofZ 5))]);
        ("geometry", JObj [("type", JStr "LineString");
                           ("coordinates", JArr [JNull; position (pt 1 2)])])].

Definition labelledPage : Page :=
  mkPage (JNum (Num.ofZ 1000)) (JNum (Num.ofZ 2000))
         (Num.ofZ 0) (Num.ofZ 1000) true true "all" "count"
         "min" "max" "" "" defaultStats emptyFeatureCollection
         (JArr []) (JArr []) [].

(** A road of an answer: a line with its [value] and its points, or a
    point, and the feature it is sent as. *)
Inductive road : Type :=
| Line (value : JsVal) (pts : list (Qc * Qc))
| Point (value : JsVal) (p : Qc * Qc).

Definition roadFeature (r : road) : JsVal :=
  match r with
  | Line value pts => lineFeature value pts
  | Point value p => pointFeature value p
  end.

(** A value label, the text written for a [value] property, and the
    labels of a road: one for a line of two points or more, at the
    midpoint of its ends. *)
Definition label (middle : Qc * Qc) (text : string) : JsVal :=
  JObj [("position", position middle); ("text", JStr text)].

Definition valueText (value : JsVal) : string :=
  match ToNumber value with
  | Fin q => toFixed2 (Fin q)
  | _ => ""
  end.

Definition roadLabels (r : road) : list JsVal :=
  match r with
  | Line value (p :: q :: rest) =>
      let pN := last rest q in
      [label (midpoint (fst p) (fst pN), midpoint (snd p) (snd pN))
             (valueText value)]
  | _ => []
  end.

(** The red, green and blue parts of a colour. *)
Definition rgbOf (color : JsVal) : list JsVal :=
  match color with
  | JArr items => firstn 3 items
  | _ => []
  end.

(** [lo <= x <= hi] on numbers. *)
Definition between (lo hi : Z) (x : num) : Prop :=
  Num.leb (Num.ofZ lo) x = true /\ Num.leb x (Num.ofZ hi) = true.

(** What the user does to the controls, and the handler each event
    runs. *)
Inductive ControlEvent : Type :=
| PlayClick
| TrafficChange (checked : bool)
| RumoreChange (checked : bool).

Definition controlStep (c : Controls) (ev : ControlEvent) : Controls :=
  match ev with
  | PlayClick => btnPlayClick c
  | TrafficChange checked => chkTrafficChange checked c
  | RumoreChange checked => chkRumoreChange checked c
  end.

(** The play icon, the timer handle and the timers that run agree:
    either no timer runs, the handle is [null] and the icon is the
    play icon, or exactly the timer of the handle runs and the icon is
    the pause icon. *)
Definition playbackConsistent (c : Controls) : Prop :=
  iconPlay c = negb (iconPause c)
  /\ match playInterval c with
     | Some id =>
         iconPause c = true /\ runningTimers c = [id]
         /\ (0 < id < nextTimer c)%nat
     | None =>
         iconPause c = false /\ runningTimers c = []
         /\ (0 < nextTimer c)%nat
     end.

(** Controls on which nothing plays, with the traffic box checked and
    the other box unchecked. *)
Definition idleControls : Controls :=
  mkControls false false false false None [] 1 false true
             true false false false false true.

(** What moves the slider without a drag, and the slider at an even
    position of an even maximum. *)
Inductive TimelineEvent : Type := Prev | Next | Tick.

Definition timelineStep (fetchJson : string -> completion JsVal)
           (pg : Page) (ev : TimelineEvent) : Page :=
  match ev with
  | Prev => btnPrevClick fetchJson pg
  | Next => btnNextClick fetchJson pg
  | Tick => playTick fetchJson pg
  end.

Definition evenInRange (pg : Page) : Prop :=
  exists z m : Z,
    sliderValue pg = Num.ofZ (2 * z) /\ sliderMax pg = Num.ofZ (2 * m)
    /\ (0 <= z <= m)%Z.

(** The seconds [toEpochSeconds] gives for the integer [z]. *)
Definition secondsOf (z : Z) : Z :=
  if (z <? 10000000000)%Z then z else (z / 1000)%Z.

End MoreVocabulary.

(** A host whose date strings are decimal numbers of milliseconds; in
    everything else it is the decimal host. *)
Definition millisHost : Host := {|
  StringToNumber := StringToNumber (Host := decimalHost);
  NumberToString := NumberToString (Host := decimalHost);
  DateParse s :=
    match NilZero.uint_of_string s with
    | Some d => Num.ofZ (Z.of_N (N.of_uint d))
    | None => NaN
    end;
  Math_sqrt := Math_sqrt (Host := decimalHost);
  encodeURIComponent := encodeURIComponent (Host := decimalHost);
  toLocaleDateString := toLocaleDateString (Host := decimalHost);
  toLocaleTimeString := toLocaleTimeString (Host := decimalHost)
|}.

(* ================================================================= *)
(** ** Facts about numbers *)

Lemma Qcltb_iff (a b : Qc) : Num.Qcltb a b = true <-> (a < b)%Qc.
Proof.
  unfold Num.Qcltb. rewrite Qclt_alt.
  destruct (a ?= b)%Qc; split; congruence.
Qed.

Lemma Qcleb_iff (a b : Qc) : Num.Qcleb a b = true <-> (a <= b)%Qc.
Proof.
  unfold Num.Qcleb. rewrite Qcle_alt.
  destruct (a ?= b)%Qc; split; congruence.
Qed.

Lemma Qceqb_iff (a b : Qc) : Num.Qceqb a b = true <-> a = b.
Proof.
  unfold Num.Qceqb. rewrite Qceq_alt.
  destruct (a ?= b)%Qc; split; congruence.
Qed.

Lemma Qcltb_false_iff (a b : Qc) : Num.Qcltb a b = false <-> (b <= a)%Qc.
Proof.
  split; intro H.
  - apply Qcnot_lt_le. intro L. apply Qcltb_iff in L. congruence.
  - destruct (Num.Qcltb a b) eqn:E; [|reflexivity].
    apply Qcltb_iff in E. exfalso. exact (Qcle_not_lt _ _ H E).
Qed.

Lemma Qcleb_false_iff (a b : Qc) : Num.Qcleb a b = false <-> (b < a)%Qc.
Proof.
  split; intro H.
  - apply Qcnot_le_lt. intro L. apply Qcleb_iff in L. congruence.
  - destruct (Num.Qcleb a b) eqn:E; [|reflexivity].
    apply Qcleb_iff in E. exfalso. exact (Qclt_not_le _ _ H E).
Qed.

Lemma Qceqb_false_iff (a b : Qc) : Num.Qceqb a b = false <-> a <> b.
Proof.
  split; intro H.
  - intro E. apply Qceqb_iff in E. congruence.
  - destruct (Num.Qceqb a b) eqn:E; [|reflexivity].
    apply Qceqb_iff in E. contradiction.
Qed.

Lemma leb_ltb_false (x y : num) : Num.leb x y = true -> Num.ltb y x = false.
Proof.
  destruct x as [| | |a], y as [| | |b]; simpl; try congruence.
  intro H. apply Qcleb_iff in H. now apply Qcltb_false_iff.
Qed.

Lemma ltb_leb (x y : num) : Num.ltb x y = true -> Num.leb x y = true.
Proof.
  destruct x as [| | |a], y as [| | |b]; simpl; try congruence.
  intro H. apply Qcltb_iff in H. apply Qcleb_iff. now apply Qclt_le_weak.
Qed.

Lemma ofZ_inj (x y : Z) : Num.ofZ x = Num.ofZ y -> x = y.
Proof.
  unfold Num.ofZ. intro H.
  apply (f_equal (fun n => match n with Fin q => q | _ => 0%Qc end)) in H.
  cbv beta iota in H.
  apply Q2Qc_eq_iff in H. unfold Qeq in H. simpl in H. lia.
Qed.

Lemma Qfloor_div_Z (z d : Z) :
  (0 < d)%Z ->
  Qfloor (Q2Qc (inject_Z z) / Q2Qc (inject_Z d))%Qc = (z / d)%Z.
Proof.
  intro Hd.
  assert (E : ((Q2Qc (inject_Z z) / Q2Qc (inject_Z d))%Qc : Q) == z # Z.to_pos d).
  { unfold Qcdiv, Qcmult, Qcinv. cbn [this Q2Qc].
    rewrite !Qred_correct.
    unfold Qeq, Qmult, Qinv, inject_Z; simpl.
    destruct d as [|p|p]; try lia. simpl. lia. }
  rewrite (Qfloor_comp _ _ E). unfold Qfloor.
  rewrite Z2Pos.id by lia. reflexivity.
Qed.

Lemma nth_last_snoc {A : Type} (l : list A) (x d : A) :
  nth (List.length (l ++ [x]) - 1) (l ++ [x]) d = x.
Proof.
  rewrite length_app. simpl.
  replace (List.length l + 1 - 1)%nat with (List.length l) by lia.
  rewrite app_nth2 by lia. now rewrite Nat.sub_diag.
Qed.

(* ================================================================= *)
(** ** Line midpoint *)

Section MidpointFacts.
Context {host : Host}.

Lemma midpoint_coordinate (a b : Qc) :
  js_div (js_add (JNum (Fin a)) (JNum (Fin b))) (JNum (Num.ofZ 2))
  = Fin (midpoint a b).
Proof. reflexivity. Qed.

Lemma getLineMiddlePoint_ends (p q : Qc * Qc) (mid : list JsVal) :
  getLineMiddlePoint (JArr (position p :: mid ++ [position q]))
  = Normal (position (midpoint (fst p) (fst q), midpoint (snd p) (snd q))).
Proof.
  unfold getLineMiddlePoint.
  assert (L : (List.length (position p :: mid ++ [position q]) <? 2)%nat = false).
  { apply Nat.ltb_ge. simpl. rewrite length_app. simpl. lia. }
  rewrite L.
  unfold getIndex at 1 2.
  change (position p :: mid ++ [position q])
    with ((position p :: mid) ++ [position q]).
  rewrite nth_last_snoc. simpl.
  rewrite !midpoint_coordinate. reflexivity.
Qed.

Lemma getLineMiddlePoint_lineString (p q : Qc * Qc) (interior : list (Qc * Qc)) :
  getLineMiddlePoint (lineString (p :: interior ++ [q]))
  = Normal (position (midpoint (fst p) (fst q), midpoint (snd p) (snd q))).
Proof.
  unfold lineString. simpl map. rewrite map_app. simpl map.
  apply getLineMiddlePoint_ends.
Qed.

Lemma getLineMiddlePoint_three_points :
  getLineMiddlePoint (lineString [pt 0 0; pt 4 2; pt 10 10])
  = Normal (position (pt 5 5)).
Proof.
  etransitivity;
    [ exact (getLineMiddlePoint_ends (pt 0 0) (pt 10 10) [position (pt 4 2)]) | ].
  unfold position. simpl fst. simpl snd.
  repeat f_equal; qc_eq.
Qed.

Lemma getLineMiddlePoint_short (v : JsVal) :
  isLongArray v = false -> getLineMiddlePoint v = Normal JNull.
Proof.
  destruct v; try reflexivity.
  unfold isLongArray, getLineMiddlePoint. intro H.
  apply Nat.leb_gt in H.
  assert (L : (List.length items <? 2)%nat = true) by now apply Nat.ltb_lt.
  now rewrite L.
Qed.

(** C8.  For a coordinate sequence of at least two points (a first
    point, any interior points, a last point) the line midpoint is the
    arithmetic midpoint of the first and the last point, whatever the
    interior points are; for [[0,0],[4,2],[10,10]] it is [5,5]; for a
    value that is not an array of at least two elements it is
    [null]. *)
Theorem getLineMiddlePoint_spec :
  (forall (p q : Qc * Qc) (interior : list (Qc * Qc)),
      getLineMiddlePoint (lineString (p :: interior ++ [q]))
      = Normal (position (midpoint (fst p) (fst q), midpoint (snd p) (snd q))))
  /\ (forall a b : Qc, (midpoint a b + midpoint a b = a + b)%Qc)
  /\ getLineMiddlePoint (lineString [pt 0 0; pt 4 2; pt 10 10])
     = Normal (position (pt 5 5))
  /\ (forall v : JsVal,
         isLongArray v = false -> getLineMiddlePoint v = Normal JNull).
Proof.
  split; [|split; [|split]].
  - exact getLineMiddlePoint_lineString.
  - intros a b. apply Qc_is_canon.
    unfold midpoint, Qcdiv, Qcmult, Qcinv, Qcplus. cbn [this Q2Qc].
    rewrite !Qred_correct. unfold inject_Z. field.
  - exact getLineMiddlePoint_three_points.
  - exact getLineMiddlePoint_short.
Qed.

End MidpointFacts.

(** The last part of C8 at the values [null], [[]] and a one-point
    array. *)
Lemma getLineMiddlePoint_spec_witness :
  getLineMiddlePoint (host := decimalHost) JNull = Normal JNull
  /\ getLineMiddlePoint (host := decimalHost) (JArr []) = Normal JNull
  /\ getLineMiddlePoint (host := decimalHost) (lineString [pt 1 2]) = Normal JNull.
Proof.
  destruct (getLineMiddlePoint_spec (host := decimalHost)) as (_ & _ & _ & H).
  split; [|split]; apply H; reflexivity.
Defined.

(* ================================================================= *)
(** ** Normalising a FeatureCollection *)

Section NormalizeFacts.
Context {host : Host}.

Lemma normalizeFeatureCollection_eq (fc : JsVal) :
  normalizeFeatureCollection fc
  = Normal (if isFeatureCollection fc then fc else emptyFeatureCollection).
Proof.
  destruct fc as [| |b|n|s|items|props]; try reflexivity.
  - destruct b; reflexivity.
  - unfold normalizeFeatureCollection. destruct (truthy (JNum n)); reflexivity.
  - unfold normalizeFeatureCollection. destruct (truthy (JStr s)); reflexivity.
  - unfold normalizeFeatureCollection, isFeatureCollection, get, bind.
    cbn [truthy].
    destruct (lookup "type" props) as [[| |b|n|s|items|props']|];
      cbn [isString]; try reflexivity.
    destruct (String.eqb s "FeatureCollection");
      destruct (lookup "features" props) as [[| |b|n|s'|items|props']|];
      reflexivity.
Qed.

(** C10.  For every input the normaliser returns (it never raises),
    and what it returns is a FeatureCollection: the input itself when
    the input is one, the empty FeatureCollection otherwise; applied
    to its own result it returns that result. *)
Theorem normalizeFeatureCollection_idempotent (fc : JsVal) :
  exists out : JsVal,
    normalizeFeatureCollection fc = Normal out
    /\ isFeatureCollection out = true
    /\ out = (if isFeatureCollection fc then fc else emptyFeatureCollection)
    /\ normalizeFeatureCollection out = Normal out.
Proof.
  exists (if isFeatureCollection fc then fc else emptyFeatureCollection).
  assert (W : isFeatureCollection
                (if isFeatureCollection fc then fc else emptyFeatureCollection)
              = true).
  { destruct (isFeatureCollection fc) eqn:E; [exact E | reflexivity]. }
  repeat split.
  - apply normalizeFeatureCollection_eq.
  - exact W.
  - rewrite normalizeFeatureCollection_eq, W. reflexivity.
Qed.

End NormalizeFacts.

(* ================================================================= *)
(** ** Epoch seconds *)

Section EpochFacts.
Context {host : Host}.

(** C7.  A number below [1e10] is returned as it is; a number from
    [1e10] upwards is divided by 1000 and rounded down (for an integer
    [t] this is the integer quotient [t / 1000]); a string whose date
    has no finite time value gives [NaN]. *)
Theorem toEpochSeconds_spec :
  (forall t : num,
      Num.ltb t (Num.ofZ 10000000000) = true ->
      toEpochSeconds (JNum t) = t)
  /\ (forall t : num,
         Num.geb t (Num.ofZ 10000000000) = true ->
         toEpochSeconds (JNum t) = Num.floor (Num.div t (Num.ofZ 1000)))
  /\ (forall t : Z,
         (10000000000 <= t)%Z ->
         toEpochSeconds (JNum (Num.ofZ t)) = Num.ofZ (t / 1000))
  /\ (forall s : string,
         Num.isFinite (DateParse s) = false ->
         toEpochSeconds (JStr s) = NaN
         /\ Num.isFinite (toEpochSeconds (JStr s)) = false).
Proof.
  assert (G : forall t : num,
             Num.geb t (Num.ofZ 10000000000) = true ->
             toEpochSeconds (JNum t) = Num.floor (Num.div t (Num.ofZ 1000))).
  { intros t H. unfold toEpochSeconds.
    now rewrite (leb_ltb_false _ _ H). }
  split; [|split; [exact G|split]].
  - intros t H. unfold toEpochSeconds. now rewrite H.
  - intros t H. rewrite G.
    + unfold Num.div, Num.ofZ, Num.floor.
      replace (Num.Qceqb (Q2Qc (inject_Z 1000)) 0%Qc) with false by reflexivity.
      unfold Num.ofZ. now rewrite Qfloor_div_Z by lia.
    + unfold Num.geb, Num.leb, Num.ofZ. apply Qcleb_iff.
      unfold Qcle. cbn [this Q2Qc]. rewrite !Qred_correct.
      unfold Qle. simpl. lia.
  - intros s H. unfold toEpochSeconds, Date_getTime. cbn [ToPrimitive].
    rewrite H. split; reflexivity.
Qed.

End EpochFacts.

(** C7 at the seconds value 1700000000, the milliseconds value
    1700000000999 and the string ["soon"], which the decimal host gives
    no date. *)
Lemma toEpochSeconds_spec_witness :
  toEpochSeconds (host := decimalHost) (JNum (Num.ofZ 1700000000))
  = Num.ofZ 1700000000
  /\ toEpochSeconds (host := decimalHost) (JNum (Num.ofZ 1700000000999))
     = Num.floor (Num.div (Num.ofZ 1700000000999) (Num.ofZ 1000))
  /\ toEpochSeconds (host := decimalHost) (JNum (Num.ofZ 1700000000999))
     = Num.ofZ 1700000000
  /\ toEpochSeconds (host := decimalHost) (JStr "soon") = NaN.
Proof.
  destruct (toEpochSeconds_spec (host := decimalHost)) as (A & B & C & D).
  split; [|split; [|split]].
  - apply A. reflexivity.
  - apply B. reflexivity.
  - exact (C 1700000000999%Z ltac:(lia)).
  - apply D. reflexivity.
Defined.

(* ================================================================= *)
(** ** Colour stops *)





(* ================================================================= *)
(** ** Refresh without a time range *)

Section NoTimeRange.
Context {host : Host}.
Variable fetchJson : string -> completion JsVal.

(** C6.  When the bounds of the time range are not both finite
    numbers, the slider has no epoch ([null]) and a refresh returns
    without raising and leaves the whole page as it was: no URL is
    fetched, and the data of the layers and the text of the legend
    are unchanged. *)
Theorem refresh_without_time_range (pg : Page) :
  Number_isFinite (timeMin pg) && Number_isFinite (timeMax pg) = false ->
  getSliderEpoch pg = JNull
  /\ loadTrafficForCurrentSlider fetchJson pg = (Normal tt, pg)
  /\ fetched (snd (loadTrafficForCurrentSlider fetchJson pg)) = fetched pg.
Proof.
  intro H.
  assert (E : getSliderEpoch pg = JNull).
  { unfold getSliderEpoch.
    destruct (Number_isFinite (timeMin pg)), (Number_isFinite (timeMax pg));
      simpl in *; congruence. }
  assert (L : loadTrafficForCurrentSlider fetchJson pg = (Normal tt, pg)).
  { unfold loadTrafficForCurrentSlider, abind, read, aret.
    destruct (chkTraffic pg); simpl; [|reflexivity].
    rewrite E. reflexivity. }
  split; [exact E|split; [exact L|]].
  now rewrite L.
Qed.

End NoTimeRange.

(** C6 on the blank page, and on a page whose upper bound is [NaN],
    whatever the service would answer. *)
Lemma refresh_without_time_range_witness :
  (getSliderEpoch (host := decimalHost) blankPage = JNull
   /\ loadTrafficForCurrentSlider (host := decimalHost)
        (fun _ => Normal emptyFeatureCollection) blankPage
      = (Normal tt, blankPage))
  /\ loadTrafficForCurrentSlider (host := decimalHost)
       (fun _ => Normal JNull)
       (set_timeRange (JNum (Num.ofZ 1000)) (JNum NaN) blankPage)
     = (Normal tt, set_timeRange (JNum (Num.ofZ 1000)) (JNum NaN) blankPage).
Proof.
  split.
  - destruct (refresh_without_time_range (host := decimalHost)
                (fun _ => Normal emptyFeatureCollection) blankPage eq_refl)
      as (A & B & _).
    split; assumption.
  - destruct (refresh_without_time_range (host := decimalHost)
                (fun _ => Normal JNull)
                (set_timeRange (JNum (Num.ofZ 1000)) (JNum NaN) blankPage) eq_refl)
      as (_ & B & _).
    exact B.
Defined.

(* ================================================================= *)
(** ** The bounds the peak marker is coloured with *)

Lemma get_truthy (v : JsVal) (k : string) :
  truthy v = true -> get v k = Normal (prop v k).
Proof.
  unfold prop. destruct v; simpl; try discriminate; intros _.
  - reflexivity.
  - reflexivity.
  - destruct (String.eqb k "length"); reflexivity.
  - destruct (String.eqb k "length"); reflexivity.
  - destruct (lookup k props); reflexivity.
Qed.

Section RatioFacts.
Context {host : Host}.

Lemma peakMin_eq (stats : JsVal) : peakMin stats = Normal (peakMinOf stats).
Proof.
  unfold peakMin, peakMinOf.
  destruct (truthy stats) eqn:T; [|reflexivity].
  rewrite (get_truthy _ _ T). cbn [bind andb].
  destruct (Number_isFinite (prop stats "min")); reflexivity.
Qed.

Lemma peakMax_eq (stats : JsVal) : peakMax stats = Normal (peakMaxOf stats).
Proof.
  unfold peakMax, peakMaxOf.
  destruct (truthy stats) eqn:T; [|reflexivity].
  rewrite (get_truthy _ _ T). cbn [bind andb].
  destruct (Number_isFinite (prop stats "max")); reflexivity.
Qed.

End RatioFacts.

(** C2.  [getLineColor] misses the guard of its sibling.  The stats
    [{min: -Infinity, max: 10}] (the JSON text [-1e999] is read as
    [-Infinity]) have [max > min]; for a road of value 5 the ratio of
    [getLineColor], computed from the bounds as they are stored, is
    [Infinity / Infinity], that is [NaN]: not a number between 0 and
    1, and below no threshold, so the road is drawn in the last
    colour.  [getPeakPoint] first replaces a bound that is not finite
    by 0 or 1 (lines 154-155): for the same stats and the same road
    its ratio is 1/2 and its marker has the second colour. *)
Theorem getLineColor_unguarded_min :
  let stats := JObj [("min", JNum NInf); ("max", JNum (Num.ofZ 10))] in
  let road := lineFeature (JNum (Num.ofZ 5)) [pt 0 0; pt 2 2] in
  js_gt (host := decimalHost) (prop stats "max") (prop stats "min") = true
  /\ encodeRatio (host := decimalHost) (Num.ofZ 5) (prop stats "min") (prop stats "max")
     = NaN
  /\ Num.leb (Num.ofZ 0)
       (encodeRatio (host := decimalHost) (Num.ofZ 5)
          (prop stats "min") (prop stats "max")) = false
  /\ getLineColor (host := decimalHost) stats road = Normal (rgba 255 59 59 220)
  /\ peakMin stats = Normal (JNum (Num.ofZ 0))
  /\ peakMax stats = Normal (JNum (Num.ofZ 10))
  /\ encodeRatio (host := decimalHost) (Num.ofZ 5) (JNum (Num.ofZ 0)) (JNum (Num.ofZ 10))
     = Num.ofQ (1 # 2)
  /\ exists peak : JsVal,
       getPeakPoint (host := decimalHost) (featureCollection [road]) stats
       = Normal peak
       /\ prop peak "color" = rgba 39 209 124 255.
Proof.
  cbv zeta. repeat split; try solve [js_eq].
  eexists. split; [reflexivity|js_eq].
Qed.

(* ================================================================= *)
(** ** The peak marker *)

Lemma truthy_length (n : nat) :
  truthy (JNum (Num.ofZ (Z.of_nat n))) = negb (Nat.eqb n 0).
Proof.
  unfold truthy, Num.truthy, Num.ofZ. f_equal.
  destruct n as [|n].
  - reflexivity.
  - change (Nat.eqb (S n) 0) with false. apply Qceqb_false_iff.
    intro E. apply Q2Qc_eq_iff in E. unfold Qeq in E. simpl in E. lia.
Qed.

Lemma app_cons_split {A : Type} (pre pre' : list A) (f f' : A) (post post' : list A) :
  pre ++ f :: post = pre' ++ f' :: post' ->
  (f = f' /\ pre = pre' /\ post = post')
  \/ (In f pre' /\ In f' post)
  \/ (In f' pre /\ In f post').
Proof.
  revert pre'. induction pre as [|a r IH]; intros [|a' r'] E; simpl in E.
  - injection E as -> ->. left. repeat split.
  - injection E as -> ->. right. left. split.
    + now left.
    + apply in_or_app. right. now left.
  - injection E as -> <-. right. right. split.
    + now left.
    + apply in_or_app. right. now left.
  - injection E as -> E.
    destruct (IH _ E) as [(-> & -> & ->)|[(I & J)|(I & J)]].
    + left. repeat split.
    + right. left. split; [now right|exact J].
    + right. right. split; [now right|exact J].
Qed.

Section PeakFacts.
Context {host : Host}.

Lemma peakStep_eq (best : JsVal * num) (feature : JsVal) :
  peakStep best feature = Normal (scanStep best feature).
Proof.
  unfold peakStep, scanStep, candidateValue.
  destruct (truthy feature) eqn:T; cbn [negb andb]; [|reflexivity].
  rewrite (get_truthy _ _ T). cbn [bind].
  destruct (truthy (prop feature "properties")) eqn:P; cbn [negb]; [|reflexivity].
  rewrite (get_truthy _ _ P). cbn [bind].
  destruct (ToNumber (prop (prop feature "properties") "value"));
    try reflexivity.
  cbn [Num.isFinite negb]. destruct (Num.gtb (Fin q) (snd best)); reflexivity.
Qed.

Lemma forOf_peakStep (items : list JsVal) (best : JsVal * num) :
  forOf peakStep items best = Normal (fold_left scanStep items best).
Proof.
  revert best. induction items as [|x rest IH]; intro best.
  - reflexivity.
  - cbn [forOf fold_left]. rewrite peakStep_eq. cbn [bind]. apply IH.
Qed.

Lemma scan_ignores (items : list JsVal) (best : JsVal * num) :
  fold_left scanStep (filter isCandidate items) best
  = fold_left scanStep items best.
Proof.
  revert best. induction items as [|x rest IH]; intro best.
  - reflexivity.
  - cbn [filter]. unfold isCandidate at 1.
    destruct (candidateValue x) eqn:C.
    + cbn [fold_left]. apply IH.
    + cbn [fold_left].
      assert (E : scanStep best x = best) by (unfold scanStep; now rewrite C).
      rewrite E. apply IH.
Qed.

(** What the scan returns, started from a best value [b]: the start
    when no feature is above [b], the first maximum otherwise. *)
Lemma scan_from (items : list JsVal) (bf : JsVal) (b : Qc) :
  (fold_left scanStep items (bf, Fin b) = (bf, Fin b) /\ noneAbove b items)
  \/ (exists f q, fold_left scanStep items (bf, Fin b) = (f, Fin q)
                  /\ (b < q)%Qc /\ firstMaximum items f q).
Proof.
  revert bf b. induction items as [|x rest IH]; intros bf b.
  - left. split; [reflexivity|]. intros g w [].
  - cbn [fold_left].
    destruct (candidateValue x) as [q|] eqn:C.
    + destruct (Num.Qcltb b q) eqn:L.
      * (* [x] is the best so far *)
        assert (S0 : scanStep (bf, Fin b) x = (x, Fin q))
          by (unfold scanStep; rewrite C; cbn; now rewrite L).
        rewrite S0.
        apply Qcltb_iff in L. right.
        destruct (IH x q) as [[E N]|(f & q' & E & Lq & pre & post & S & Cf & B & A)].
        -- exists x, q. split; [exact E|split; [exact L|]].
           exists [], rest. repeat split; try assumption.
           intros g w [].
        -- exists f, q'. split; [exact E|split].
           ++ exact (Qclt_trans _ _ _ L Lq).
           ++ exists (x :: pre), post. subst rest. repeat split; try assumption.
              intros g w [G|G] Cg.
              ** subst g. rewrite C in Cg. injection Cg as <-. exact Lq.
              ** exact (B g w G Cg).
      * (* [x] is not above the best so far *)
        assert (S0 : scanStep (bf, Fin b) x = (bf, Fin b))
          by (unfold scanStep; rewrite C; cbn; now rewrite L).
        rewrite S0.
        apply Qcltb_false_iff in L.
        destruct (IH bf b) as [[E N]|(f & q' & E & Lq & pre & post & S & Cf & B & A)].
        -- left. split; [exact E|].
           intros g w [G|G] Cg.
           ++ subst g. rewrite C in Cg. injection Cg as <-. exact L.
           ++ exact (N g w G Cg).
        -- right. exists f, q'. split; [exact E|split; [exact Lq|]].
           exists (x :: pre), post. subst rest. repeat split; try assumption.
           intros g w [G|G] Cg.
           ++ subst g. rewrite C in Cg. injection Cg as <-.
              exact (Qcle_lt_trans _ _ _ L Lq).
           ++ exact (B g w G Cg).
    + assert (S0 : scanStep (bf, Fin b) x = (bf, Fin b))
        by (unfold scanStep; now rewrite C).
      rewrite S0.
      destruct (IH bf b) as [[E N]|(f & q' & E & Lq & pre & post & S & Cf & B & A)].
      * left. split; [exact E|].
        intros g w [G|G] Cg.
        -- subst g. congruence.
        -- exact (N g w G Cg).
      * right. exists f, q'. split; [exact E|split; [exact Lq|]].
        exists (x :: pre), post. subst rest. repeat split; try assumption.
        intros g w [G|G] Cg.
        -- subst g. congruence.
        -- exact (B g w G Cg).
Qed.

(** The scan of the code starts from no feature and [-Infinity]. *)
Lemma scan_start (items : list JsVal) :
  (fold_left scanStep items (JNull, NInf) = (JNull, NInf)
   /\ forall g, In g items -> candidateValue g = None)
  \/ (exists f q, fold_left scanStep items (JNull, NInf) = (f, Fin q)
                  /\ firstMaximum items f q).
Proof.
  induction items as [|x rest IH].
  - left. split; [reflexivity|]. intros g [].
  - cbn [fold_left].
    destruct (candidateValue x) as [q|] eqn:C.
    + assert (S0 : scanStep (JNull, NInf) x = (x, Fin q))
        by (unfold scanStep; now rewrite C).
      rewrite S0. right.
      destruct (scan_from rest x q) as [[E N]|(f & q' & E & Lq & pre & post & S & Cf & B & A)].
      * exists x, q. split; [exact E|].
        exists [], rest. repeat split; try assumption. intros g w [].
      * exists f, q'. split; [exact E|].
        exists (x :: pre), post. subst rest. repeat split; try assumption.
        intros g w [G|G] Cg.
        -- subst g. rewrite C in Cg. injection Cg as <-. exact Lq.
        -- exact (B g w G Cg).
    + assert (S0 : scanStep (JNull, NInf) x = (JNull, NInf))
        by (unfold scanStep; now rewrite C).
      rewrite S0.
      destruct IH as [[E N]|(f & q' & E & pre & post & S & Cf & B & A)].
      * left. split; [exact E|].
        intros g [G|G]; [now subst g | exact (N g G)].
      * right. exists f, q'. split; [exact E|].
        exists (x :: pre), post. subst rest. repeat split; try assumption.
        intros g w [G|G] Cg.
        -- subst g. congruence.
        -- exact (B g w G Cg).
Qed.

(** The first maximum is determined by the features. *)
Lemma firstMaximum_unique (items : list JsVal) (f g : JsVal) (p q : Qc) :
  firstMaximum items f p -> firstMaximum items g q -> f = g /\ p = q.
Proof.
  intros (pre & post & S & C & B & A) (pre' & post' & S' & C' & B' & A').
  rewrite S in S'.
  destruct (app_cons_split _ _ _ _ _ _ S') as [(E & _ & _)|[(I & J)|(I & J)]].
  - subst g. split; [reflexivity|congruence].
  - exfalso. pose proof (B' f p I C) as L. pose proof (A g q J C') as U.
    exact (Qclt_not_le _ _ L U).
  - exfalso. pose proof (B g q I C') as L. pose proof (A' f p J C) as U.
    exact (Qclt_not_le _ _ L U).
Qed.

Lemma scan_result (items : list JsVal) (f : JsVal) (q : Qc) :
  firstMaximum items f q ->
  fold_left scanStep items (JNull, NInf) = (f, Fin q).
Proof.
  intro M.
  destruct (scan_start items) as [[_ N]|(g & p & E & M')].
  - destruct M as (pre & post & S & C & _).
    rewrite N in C; [discriminate|]. subst items.
    apply in_or_app. right. now left.
  - destruct (firstMaximum_unique _ _ _ _ _ M' M) as [-> ->]. exact E.
Qed.

Lemma getPeakPoint_features (props : list (string * JsVal))
      (items : list JsVal) (stats : JsVal) :
  lookup "features" props = Some (JArr items) ->
  getPeakPoint (JObj props) stats
  = match items with
    | [] => Normal JNull
    | _ :: _ =>
        peakMarker (fst (fold_left scanStep items (JNull, NInf)))
                   (snd (fold_left scanStep items (JNull, NInf))) stats
    end.
Proof.
  intro F. unfold getPeakPoint.
  cbn [truthy negb get]. rewrite F. cbn [bind truthy negb].
  change (get (JArr items) "length")
    with (Normal (JNum (Num.ofZ (Z.of_nat (List.length items))))).
  cbn [bind]. rewrite truthy_length.
  destruct items as [|x rest]; [reflexivity|].
  cbn [List.length Nat.eqb negb iterate bind].
  rewrite forOf_peakStep. reflexivity.
Qed.

Lemma candidate_truthy (f : JsVal) (q : Qc) :
  candidateValue f = Some q ->
  truthy f = true /\ truthy (prop f "properties") = true.
Proof.
  unfold candidateValue.
  destruct (truthy f), (truthy (prop f "properties")); cbn [andb];
    try discriminate. now split.
Qed.

Lemma peakMarker_not_line (f : JsVal) (v : num) (stats : JsVal) :
  isLineString f = false -> peakMarker f v stats = Normal JNull.
Proof.
  unfold isLineString, peakMarker. intro H.
  destruct (truthy f) eqn:T; cbn [negb]; [|reflexivity].
  rewrite (get_truthy _ _ T). cbn [bind].
  destruct (truthy (prop f "geometry")) eqn:G; cbn [negb andb] in *;
    [|reflexivity].
  rewrite (get_truthy _ _ G). cbn [bind]. now rewrite H.
Qed.

Lemma peakMarker_line (f : JsVal) (q : Qc) (stats middle : JsVal) :
  candidateValue f = Some q ->
  isLineString f = true ->
  getLineMiddlePoint (coordinatesOf f) = Normal middle ->
  truthy middle = true ->
  peakMarker f (Fin q) stats = Normal (marker middle f q stats).
Proof.
  intros C L M T.
  destruct (candidate_truthy _ _ C) as [Tf Tp].
  unfold isLineString in L. apply andb_prop in L. destruct L as [G S].
  unfold peakMarker, coordinatesOf in *.
  rewrite Tf. cbn [negb]. rewrite (get_truthy _ _ Tf). cbn [bind].
  rewrite G. cbn [negb]. rewrite !(get_truthy _ _ G). cbn [bind].
  rewrite S. cbn [negb]. rewrite M. cbn [bind]. rewrite T. cbn [negb].
  rewrite peakMin_eq, peakMax_eq. cbn [bind].
  rewrite (get_truthy _ _ Tf). cbn [bind].
  rewrite (get_truthy _ _ Tp). cbn [bind]. reflexivity.
Qed.

Lemma peakMarker_no_middle (f : JsVal) (v : num) (stats : JsVal) :
  isLineString f = true ->
  getLineMiddlePoint (coordinatesOf f) = Normal JNull ->
  peakMarker f v stats = Normal JNull.
Proof.
  intros L M.
  unfold isLineString in L. apply andb_prop in L. destruct L as [G S].
  unfold peakMarker, coordinatesOf in *.
  destruct (truthy f) eqn:Tf; cbn [negb]; [|reflexivity].
  rewrite (get_truthy _ _ Tf). cbn [bind].
  rewrite G. cbn [negb]. rewrite !(get_truthy _ _ G). cbn [bind].
  rewrite S. cbn [negb]. rewrite M. reflexivity.
Qed.

Lemma getPeakPoint_ignores (props : list (string * JsVal))
      (items : list JsVal) (stats : JsVal) :
  lookup "features" props = Some (JArr items) ->
  getPeakPoint (JObj props) stats
  = getPeakPoint (JObj [("features", JArr (filter isCandidate items))]) stats.
Proof.
  intro F.
  rewrite (getPeakPoint_features props items stats F).
  rewrite (getPeakPoint_features
             [("features", JArr (filter isCandidate items))]
             (filter isCandidate items) stats eq_refl).
  rewrite scan_ignores.
  destruct items as [|x rest]; [reflexivity|].
  destruct (filter isCandidate (x :: rest)) as [|y l] eqn:E; [|reflexivity].
  (* nothing left after the filter: the scan found no feature *)
  rewrite <- scan_ignores, E. reflexivity.
Qed.

Lemma getPeakPoint_no_candidate (props : list (string * JsVal))
      (items : list JsVal) (stats : JsVal) :
  lookup "features" props = Some (JArr items) ->
  (forall g, In g items -> isCandidate g = false) ->
  getPeakPoint (JObj props) stats = Normal JNull.
Proof.
  intros F N. rewrite (getPeakPoint_features props items stats F).
  destruct items as [|x rest]; [reflexivity|].
  destruct (scan_start (x :: rest)) as [[E _]|(f & q & _ & pre & post & S & C & _)].
  - rewrite E. reflexivity.
  - exfalso. assert (I : In f (x :: rest)).
    { rewrite S. apply in_or_app. right. now left. }
    specialize (N f I). unfold isCandidate in N. now rewrite C in N.
Qed.

Lemma firstMaximum_exists (items : list JsVal) (g : JsVal) :
  In g items -> isCandidate g = true -> exists f q, firstMaximum items f q.
Proof.
  intros I C.
  destruct (scan_start items) as [[_ N]|(f & q & _ & M)].
  - unfold isCandidate in C. now rewrite (N g I) in C.
  - now exists f, q.
Qed.

Lemma getPeakPoint_first_maximum (props : list (string * JsVal))
      (items : list JsVal) (stats f : JsVal) (q : Qc) :
  lookup "features" props = Some (JArr items) ->
  firstMaximum items f q ->
  getPeakPoint (JObj props) stats = peakMarker f (Fin q) stats.
Proof.
  intros F M. rewrite (getPeakPoint_features props items stats F).
  rewrite (scan_result _ _ _ M).
  destruct M as (pre & post & S & _). destruct items; [|reflexivity].
  destruct pre; discriminate S.
Qed.

(** C1, with "a finite numeric value" read as the code reads it: a
    feature counts when [Number] of its [value] property is finite
    ([candidateValue]).  For a FeatureCollection with the features
    [items]: the features that do not count are ignored (the result
    is that of the collection without them); when no feature counts
    the result is [null]; when some feature counts there is a first
    feature of greatest value, and the result is [null] when the
    geometry of that feature is not a ['LineString'], and the marker
    of that feature, with its value and at the midpoint of its
    coordinates, when it is one.  For two line features of values 3
    and 7 the marker has the value 7 and lies at the midpoint of the
    end points of the second. *)
Theorem getPeakPoint_spec :
  (forall (props : list (string * JsVal)) (items : list JsVal) (stats : JsVal),
      lookup "features" props = Some (JArr items) ->
      getPeakPoint (JObj props) stats
      = getPeakPoint (JObj [("features", JArr (filter isCandidate items))]) stats
      /\ ((forall g, In g items -> isCandidate g = false) ->
          getPeakPoint (JObj props) stats = Normal JNull)
      /\ (forall g, In g items -> isCandidate g = true ->
                    exists f q, firstMaximum items f q)
      /\ (forall (f : JsVal) (q : Qc),
             firstMaximum items f q ->
             (isLineString f = false ->
              getPeakPoint (JObj props) stats = Normal JNull)
             /\ (forall middle : JsVal,
                    isLineString f = true ->
                    getLineMiddlePoint (coordinatesOf f) = Normal middle ->
                    truthy middle = true ->
                    getPeakPoint (JObj props) stats
                    = Normal (marker middle f q stats))))
  /\ (forall (pts interior : list (Qc * Qc)) (p pN : Qc * Qc) (stats : JsVal),
         getPeakPoint
           (featureCollection
              [lineFeature (JNum (Num.ofZ 3)) pts;
               lineFeature (JNum (Num.ofZ 7)) (p :: interior ++ [pN])])
           stats
         = Normal (marker
                     (position (midpoint (fst p) (fst pN),
                                midpoint (snd p) (snd pN)))
                     (lineFeature (JNum (Num.ofZ 7)) (p :: interior ++ [pN]))
                     (Q2Qc (inject_Z 7)) stats)).
Proof.
  assert (G : forall props items stats f q middle,
             lookup "features" props = Some (JArr items) ->
             firstMaximum items f q ->
             isLineString f = true ->
             getLineMiddlePoint (coordinatesOf f) = Normal middle ->
             truthy middle = true ->
             getPeakPoint (JObj props) stats = Normal (marker middle f q stats)).
  { intros props items stats f q middle F M L Mid T.
    rewrite (getPeakPoint_first_maximum props items stats f q F M).
    destruct M as (pre & post & _ & C & _).
    now apply peakMarker_line. }
  split.
  - intros props items stats F.
    split; [exact (getPeakPoint_ignores props items stats F)|].
    split; [exact (getPeakPoint_no_candidate props items stats F)|].
    split; [apply firstMaximum_exists|].
    intros f q M. split.
    + intro L. rewrite (getPeakPoint_first_maximum props items stats f q F M).
      now apply peakMarker_not_line.
    + intros middle. now apply (G props items).
  - intros pts interior p pN stats.
    apply (G _ [lineFeature (JNum (Num.ofZ 3)) pts;
                lineFeature (JNum (Num.ofZ 7)) (p :: interior ++ [pN])]).
    + reflexivity.
    + exists [lineFeature (JNum (Num.ofZ 3)) pts], [].
      repeat split.
      * intros g w [<-|[]] C. injection C as <-.
        apply Qcltb_iff. reflexivity.
      * intros g w [].
    + reflexivity.
    + apply getLineMiddlePoint_lineString.
    + reflexivity.
Qed.

End PeakFacts.

(** C1 on three collections: one whose features have no value or a
    value that is no number; one whose greatest value, 9, belongs to a
    point; one with the values 3, 7 and 7, where the first feature of
    value 7 is marked. *)
Lemma getPeakPoint_spec_witness :
  getPeakPoint (host := decimalHost)
    (featureCollection [JObj []; lineFeature (JStr "n/a") [pt 0 0; pt 1 1]])
    defaultStats
  = Normal JNull
  /\ getPeakPoint (host := decimalHost)
       (featureCollection [lineFeature (JNum (Num.ofZ 7)) [pt 0 0; pt 4 2];
                           pointFeature (JNum (Num.ofZ 9)) (pt 1 1)])
       defaultStats
     = Normal JNull
  /\ getPeakPoint (host := decimalHost)
       (featureCollection [lineFeature (JNum (Num.ofZ 3)) [pt 0 0; pt 2 2];
                           lineFeature (JNum (Num.ofZ 7)) [pt 0 0; pt 4 2; pt 10 10];
                           lineFeature (JNum (Num.ofZ 7)) [pt 1 1; pt 3 3]])
       defaultStats
     = Normal (marker (host := decimalHost) (position (pt 5 5))
                 (lineFeature (JNum (Num.ofZ 7)) [pt 0 0; pt 4 2; pt 10 10])
                 (Q2Qc (inject_Z 7)) defaultStats).
Proof.
  destruct (getPeakPoint_spec (host := decimalHost)) as [G _].
  assert (G' : forall items : list JsVal,
             lookup "features"
               [("type", JStr "FeatureCollection"); ("features", JArr items)]
             = Some (JArr items)) by reflexivity.
  split; [|split].
  - destruct (G _ _ defaultStats
                (G' [JObj []; lineFeature (JStr "n/a") [pt 0 0; pt 1 1]]))
      as (_ & N & _).
    apply N. intros g [<-|[<-|[]]]; reflexivity.
  - destruct (G _ _ defaultStats
                (G' [lineFeature (JNum (Num.ofZ 7)) [pt 0 0; pt 4 2];
                     pointFeature (JNum (Num.ofZ 9)) (pt 1 1)]))
      as (_ & _ & _ & M).
    apply (M (pointFeature (JNum (Num.ofZ 9)) (pt 1 1)) (Q2Qc (inject_Z 9))).
    + exists [lineFeature (JNum (Num.ofZ 7)) [pt 0 0; pt 4 2]], [].
      repeat split.
      * intros g w [<-|[]] C. injection C as <-. apply Qcltb_iff. reflexivity.
      * intros g w [].
    + reflexivity.
  - destruct (G _ _ defaultStats
                (G' [lineFeature (JNum (Num.ofZ 3)) [pt 0 0; pt 2 2];
                     lineFeature (JNum (Num.ofZ 7)) [pt 0 0; pt 4 2; pt 10 10];
                     lineFeature (JNum (Num.ofZ 7)) [pt 1 1; pt 3 3]]))
      as (_ & _ & _ & M).
    apply (M (lineFeature (JNum (Num.ofZ 7)) [pt 0 0; pt 4 2; pt 10 10])
             (Q2Qc (inject_Z 7))).
    + exists [lineFeature (JNum (Num.ofZ 3)) [pt 0 0; pt 2 2]],
             [lineFeature (JNum (Num.ofZ 7)) [pt 1 1; pt 3 3]].
      repeat split.
      * intros g w [<-|[]] C. injection C as <-. apply Qcltb_iff. reflexivity.
      * intros g w [<-|[]] C. injection C as <-. apply Qcleb_iff. reflexivity.
    + reflexivity.
    + exact (getLineMiddlePoint_three_points (host := decimalHost)).
    + reflexivity.
Defined.

(** C1 as stated fails on a feature whose [value] is [null]: it has no
    finite numeric value and yet is not ignored, because [Number(null)]
    is 0.  A collection of one such line feature gets a marker of value
    0, not [null]. *)
Lemma getPeakPoint_null_value :
  Number_isFinite JNull = false
  /\ getPeakPoint (host := decimalHost)
       (featureCollection [lineFeature JNull [pt 0 0; pt 2 2]]) defaultStats
     = Normal (JObj [("position", position (pt 1 1));
                     ("color", rgba 46 127 255 255);
                     ("size", JNum (Num.ofZ 22));
                     ("icon", JStr "marker");
                     ("value", JNum (Num.ofZ 0))]).
Proof. split; [reflexivity|]. js_eq. Qed.

(* ================================================================= *)
(** ** The refresh: stats, legend and failures *)

Lemma get_not_nullish (v : JsVal) (k : string) :
  nullish v = false -> get v k = Normal (prop v k).
Proof.
  unfold prop. destruct v; simpl; try discriminate; intros _;
    try reflexivity.
  - destruct (String.eqb k "length"); reflexivity.
  - destruct (String.eqb k "length"); reflexivity.
  - destruct (lookup k props); reflexivity.
Qed.





Section RefreshFacts.
Context {host : Host}.


Lemma toFixed2_examples :
  toFixed2 (Num.ofZ 0) = "0.00"
  /\ toFixed2 (Num.ofZ 10) = "10.00"
  /\ toFixed2 (Num.ofQ (1234567 # 1000)) = "1234.57"
  /\ toFixed2 (Num.ofQ (-5 # 1000)) = "-0.01".
Proof. repeat split. Qed.

Lemma statsOf_truthy (response : JsVal) : truthy (statsOf response) = true.
Proof.
  unfold statsOf, js_or.
  destruct (truthy (prop response "stats")) eqn:T; [exact T|reflexivity].
Qed.

Lemma showTraffic_steps (response : JsVal) (pg : Page) :
  nullish response = false ->
  showTraffic response pg
  = drawLayers (if isFeatureCollection response then response
                else emptyFeatureCollection)
               (withLegend response pg).
Proof.
  intro N. unfold showTraffic.
  unfold abind at 1. unfold lift at 1.
  rewrite normalizeFeatureCollection_eq.
  unfold abind at 1. unfold lift at 1.
  rewrite (get_not_nullish _ _ N).
  unfold abind at 1. unfold modify at 1.
  unfold abind at 1. unfold read at 1.
  unfold abind at 1. unfold lift at 1.
  change (currentStats (set_currentStats (js_or (prop response "stats") defaultStats) pg))
    with (statsOf response).
  rewrite (get_truthy _ "min" (statsOf_truthy response)).
  unfold abind at 1.
  assert (E1 : forall p,
             (if Number_isFinite (prop (statsOf response) "min")
              then modify (set_legendMinLabel
                             (toFixed2 (ToNumber (prop (statsOf response) "min"))))
              else modify (set_legendMinLabel "min")) p
             = (Normal tt,
                set_legendMinLabel
                  (legendText (prop (statsOf response) "min") "min") p)).
  { intro p. unfold legendText.
    destruct (Number_isFinite (prop (statsOf response) "min")); reflexivity. }
  rewrite E1.
  unfold abind at 1. unfold read at 1.
  unfold abind at 1. unfold lift at 1.
  change (currentStats
            (set_legendMinLabel (legendText (prop (statsOf response) "min") "min")
               (set_currentStats (js_or (prop response "stats") defaultStats) pg)))
    with (statsOf response).
  rewrite (get_truthy _ "max" (statsOf_truthy response)).
  unfold abind at 1.
  assert (E2 : forall p,
             (if Number_isFinite (prop (statsOf response) "max")
              then modify (set_legendMaxLabel
                             (toFixed2 (ToNumber (prop (statsOf response) "max"))))
              else modify (set_legendMaxLabel "max")) p
             = (Normal tt,
                set_legendMaxLabel
                  (legendText (prop (statsOf response) "max") "max") p)).
  { intro p. unfold legendText.
    destruct (Number_isFinite (prop (statsOf response) "max")); reflexivity. }
  rewrite E2.
  reflexivity.
Qed.

(** What drawing the layers leaves untouched, whether it raises or
    not. *)
Lemma drawLayers_frame (fc : JsVal) (pg : Page) :
  let pg' := snd (drawLayers fc pg) in
  currentStats pg' = currentStats pg
  /\ legendMinLabel pg' = legendMinLabel pg
  /\ legendMaxLabel pg' = legendMaxLabel pg
  /\ trafficData pg' = fc
  /\ sliderValue pg' = sliderValue pg
  /\ sliderMax pg' = sliderMax pg
  /\ fetched pg' = fetched pg.
Proof.
  unfold drawLayers, abind, modify, read, lift.
  cbn [currentStats set_trafficData].
  destruct (getPeakPoint fc (currentStats pg)) as [peak|e];
    [|cbn; repeat split].
  cbn [chkValues set_peakData set_trafficData].
  destruct (chkValues pg); [|cbn; repeat split].
  destruct (buildValuesLabels fc) as [labels|e]; cbn; repeat split.
Qed.

Variable fetchJson : string -> completion JsVal.

Lemma loadTraffic_runs (pg : Page) :
  chkTraffic pg = true ->
  nullish (getSliderEpoch pg) = false ->
  loadTrafficForCurrentSlider fetchJson pg
  = match fetchJson (refreshUrl pg) with
    | Normal response => showTraffic response (log_fetch (refreshUrl pg) pg)
    | Throw e => (Throw e, log_fetch (refreshUrl pg) pg)
    end.
Proof.
  intros T E. unfold loadTrafficForCurrentSlider, refreshUrl.
  unfold abind at 1. unfold read at 1. rewrite T. cbn [negb].
  unfold abind at 1. unfold read at 1. rewrite E.
  destruct (getWindowFromEpoch (ToNumber (getSliderEpoch pg)) (Num.ofZ 5))
    as [fromEpoch toEpoch].
  unfold abind, read, modify, lift.
  cbn [classSelect metricSelect log_fetch].
  destruct (fetchJson (trafficUrl fromEpoch toEpoch (classSelect pg) (metricSelect pg)));
    reflexivity.
Qed.


End RefreshFacts.

(* ================================================================= *)
(** ** The slider position *)

Lemma ofZ_add (a b : Z) : Num.add (Num.ofZ a) (Num.ofZ b) = Num.ofZ (a + b).
Proof.
  unfold Num.add, Num.ofZ. f_equal. apply Qc_is_canon.
  unfold Qcplus. cbn [this Q2Qc]. rewrite !Qred_correct.
  unfold Qeq, Qplus, inject_Z. simpl. lia.
Qed.

Lemma ofZ_sub (a b : Z) : Num.sub (Num.ofZ a) (Num.ofZ b) = Num.ofZ (a - b).
Proof.
  unfold Num.sub, Num.opp, Num.add, Num.ofZ. f_equal. apply Qc_is_canon.
  unfold Qcplus, Qcopp. cbn [this Q2Qc]. rewrite !Qred_correct.
  unfold Qeq, Qplus, Qopp, inject_Z. simpl. lia.
Qed.

Lemma ofZ_ltb (a b : Z) : Num.ltb (Num.ofZ a) (Num.ofZ b) = (a <? b)%Z.
Proof.
  unfold Num.ltb, Num.ofZ.
  destruct (a <? b)%Z eqn:E.
  - apply Qcltb_iff. unfold Qclt. cbn [this Q2Qc]. rewrite !Qred_correct.
    rewrite <- Zlt_Qlt. now apply Z.ltb_lt.
  - apply Qcltb_false_iff. unfold Qcle. cbn [this Q2Qc]. rewrite !Qred_correct.
    rewrite <- Zle_Qle. now apply Z.ltb_ge.
Qed.

Lemma ofZ_leb (a b : Z) : Num.leb (Num.ofZ a) (Num.ofZ b) = (a <=? b)%Z.
Proof.
  unfold Num.leb, Num.ofZ.
  destruct (a <=? b)%Z eqn:E.
  - apply Qcleb_iff. unfold Qcle. cbn [this Q2Qc]. rewrite !Qred_correct.
    rewrite <- Zle_Qle. now apply Z.leb_le.
  - apply Qcleb_false_iff. unfold Qclt. cbn [this Q2Qc]. rewrite !Qred_correct.
    rewrite <- Zlt_Qlt. now apply Z.leb_gt.
Qed.

Lemma ofZ_max (a b : Z) : Num.max (Num.ofZ a) (Num.ofZ b) = Num.ofZ (Z.max a b).
Proof.
  unfold Num.max. change (Num.ofZ a) with (Fin (Q2Qc (inject_Z a))) at 1.
  change (Num.ofZ b) with (Fin (Q2Qc (inject_Z b))) at 1. cbv iota.
  change (Fin (Q2Qc (inject_Z a))) with (Num.ofZ a).
  change (Fin (Q2Qc (inject_Z b))) with (Num.ofZ b).
  rewrite ofZ_ltb. destruct (a <? b)%Z eqn:E.
  - apply Z.ltb_lt in E. now rewrite Z.max_r by lia.
  - apply Z.ltb_ge in E. now rewrite Z.max_l by lia.
Qed.

Lemma ofZ_min (a b : Z) : Num.min (Num.ofZ a) (Num.ofZ b) = Num.ofZ (Z.min a b).
Proof.
  unfold Num.min. change (Num.ofZ a) with (Fin (Q2Qc (inject_Z a))) at 1.
  change (Num.ofZ b) with (Fin (Q2Qc (inject_Z b))) at 1. cbv iota.
  change (Fin (Q2Qc (inject_Z a))) with (Num.ofZ a).
  change (Fin (Q2Qc (inject_Z b))) with (Num.ofZ b).
  rewrite ofZ_ltb. destruct (b <? a)%Z eqn:E.
  - apply Z.ltb_lt in E. now rewrite Z.min_r by lia.
  - apply Z.ltb_ge in E. now rewrite Z.min_l by lia.
Qed.

Lemma floor_ofZ (z : Z) : Num.floor (Num.ofZ z) = Num.ofZ z.
Proof.
  unfold Num.floor, Num.ofZ at 1. f_equal.
  assert (E : (Q2Qc (inject_Z z) : Q) == inject_Z z)
    by (cbn [this Q2Qc]; apply Qred_correct).
  rewrite (Qfloor_comp _ _ E). apply Qfloor_Z.
Qed.

Lemma round_ofZ (z : Z) : Num.round (Num.ofZ z) = Num.ofZ z.
Proof.
  unfold Num.round, Num.ofZ at 1. f_equal.
  assert (E : ((Q2Qc (inject_Z z) + Q2Qc (1 # 2))%Qc : Q) == (2 * z + 1) # 2).
  { unfold Qcplus. cbn [this Q2Qc]. rewrite !Qred_correct.
    unfold Qeq, Qplus, inject_Z. cbn [Qnum Qden]. lia. }
  rewrite (Qfloor_comp _ _ E). unfold Qfloor.
  change (Z.pos 2) with 2%Z.
  replace (2 * z + 1)%Z with (1 + z * 2)%Z by ring.
  rewrite Z.div_add by lia. reflexivity.
Qed.

Section SliderFacts.
Context {host : Host}.
Variable fetchJson : string -> completion JsVal.

Lemma showTraffic_slider (response : JsVal) (pg : Page) :
  sliderValue (snd (showTraffic response pg)) = sliderValue pg
  /\ sliderMax (snd (showTraffic response pg)) = sliderMax pg.
Proof.
  destruct (nullish response) eqn:N.
  - unfold showTraffic, abind, lift. rewrite normalizeFeatureCollection_eq.
    destruct response; try discriminate N; split; reflexivity.
  - rewrite (showTraffic_steps _ _ N).
    destruct (drawLayers_frame
                (if isFeatureCollection response then response
                 else emptyFeatureCollection)
                (withLegend response pg)) as (_ & _ & _ & _ & V & M & _).
    rewrite V, M. split; reflexivity.
Qed.

Lemma loadTraffic_idle (pg : Page) :
  chkTraffic pg = false \/ nullish (getSliderEpoch pg) = true ->
  loadTrafficForCurrentSlider fetchJson pg = (Normal tt, pg).
Proof.
  intro H. unfold loadTrafficForCurrentSlider, abind, read, aret.
  destruct (chkTraffic pg); simpl; [|reflexivity].
  destruct H as [H|H]; [discriminate|]. now rewrite H.
Qed.

Lemma startRefresh_slider (pg : Page) :
  sliderValue (startRefresh fetchJson pg) = sliderValue pg
  /\ sliderMax (startRefresh fetchJson pg) = sliderMax pg.
Proof.
  unfold startRefresh.
  destruct (chkTraffic pg) eqn:T;
    [|rewrite (loadTraffic_idle pg (or_introl T)); split; reflexivity].
  destruct (nullish (getSliderEpoch pg)) eqn:E;
    [rewrite (loadTraffic_idle pg (or_intror E)); split; reflexivity|].
  rewrite (loadTraffic_runs fetchJson pg T E).
  destruct (fetchJson (refreshUrl pg)) as [response|e]; [|split; reflexivity].
  destruct (showTraffic_slider response (log_fetch (refreshUrl pg) pg)) as [V M].
  rewrite V, M. split; reflexivity.
Qed.

Lemma label_and_fill_slider (pg : Page) :
  sliderValue (updateLiveTimeLabel (paintSliderFill pg)) = sliderValue pg
  /\ sliderMax (updateLiveTimeLabel (paintSliderFill pg)) = sliderMax pg.
Proof.
  unfold updateLiveTimeLabel.
  destruct (nullish (getSliderEpoch (paintSliderFill pg))); split; reflexivity.
Qed.

Lemma after_move (v : num) (pg : Page) :
  sliderValue (startRefresh fetchJson
                 (updateLiveTimeLabel (paintSliderFill (storeSliderValue v pg))))
  = sliderValue (storeSliderValue v pg)
  /\ sliderMax (startRefresh fetchJson
                  (updateLiveTimeLabel (paintSliderFill (storeSliderValue v pg))))
     = sliderMax pg.
Proof.
  destruct (startRefresh_slider
              (updateLiveTimeLabel (paintSliderFill (storeSliderValue v pg))))
    as [V M].
  destruct (label_and_fill_slider (storeSliderValue v pg)) as [V' M'].
  rewrite V, M, V', M'. split; reflexivity.
Qed.

(** An integer stored in the slider is brought into its range. *)
Lemma storeSliderValue_integer (z m : Z) (pg : Page) :
  sliderMax pg = Num.ofZ m ->
  sliderValue (storeSliderValue (Num.ofZ z) pg) = Num.ofZ (Z.max 0 (Z.min m z)).
Proof.
  intro M. unfold storeSliderValue. cbn [Num.isFinite Num.ofZ sliderValue set_sliderValue].
  change (Fin (Q2Qc (inject_Z z))) with (Num.ofZ z).
  rewrite M, floor_ofZ, round_ofZ, ofZ_min, ofZ_max. reflexivity.
Qed.

(** The position each handler leaves, on integers. *)
Lemma btnPrevClick_position (pg : Page) (z m : Z) :
  chkTraffic pg = true ->
  sliderValue pg = Num.ofZ z -> sliderMax pg = Num.ofZ m ->
  sliderValue (btnPrevClick fetchJson pg)
  = Num.ofZ (Z.max 0 (Z.min m (Z.max 0 (z - 20))))
  /\ sliderMax (btnPrevClick fetchJson pg) = Num.ofZ m.
Proof.
  intros T V M. unfold btnPrevClick. rewrite T. cbn [negb]. cbv zeta.
  destruct (after_move (Num.max (Num.ofZ 0) (Num.sub (sliderValue pg) (Num.ofZ 20))) pg)
    as [Va Ma].
  rewrite Va, Ma, V, ofZ_sub, ofZ_max.
  split; [now apply storeSliderValue_integer|exact M].
Qed.

Lemma btnNextClick_position (pg : Page) (z m : Z) :
  chkTraffic pg = true ->
  sliderValue pg = Num.ofZ z -> sliderMax pg = Num.ofZ m ->
  sliderValue (btnNextClick fetchJson pg)
  = Num.ofZ (Z.max 0 (Z.min m (Z.min m (z + 20))))
  /\ sliderMax (btnNextClick fetchJson pg) = Num.ofZ m.
Proof.
  intros T V M. unfold btnNextClick. rewrite T. cbn [negb]. cbv zeta.
  destruct (after_move (Num.min (sliderMax pg) (Num.add (sliderValue pg) (Num.ofZ 20))) pg)
    as [Va Ma].
  rewrite Va, Ma, V, M, ofZ_add, ofZ_min.
  split; [now apply storeSliderValue_integer|reflexivity].
Qed.

(** A tick from the position [z] with the maximum [m]: 0 is assigned
    from [m] on and [z + 2] otherwise, which the slider keeps in its
    range. *)
Lemma playTick_position (pg : Page) (z m : Z) :
  sliderValue pg = Num.ofZ z -> sliderMax pg = Num.ofZ m ->
  sliderValue (playTick fetchJson pg)
  = Num.ofZ (Z.max 0 (Z.min m (if (m <=? z)%Z then 0 else z + 2)))
  /\ sliderMax (playTick fetchJson pg) = Num.ofZ m.
Proof.
  intros V M. unfold playTick. cbv zeta.
  rewrite V, M. unfold Num.geb. rewrite ofZ_leb, ofZ_add.
  destruct (m <=? z)%Z.
  - destruct (after_move (Num.ofZ 0) pg) as [Va Ma]. rewrite Va, Ma.
    split; [now apply storeSliderValue_integer|exact M].
  - destruct (after_move (Num.ofZ (z + 2)) pg) as [Va Ma]. rewrite Va, Ma.
    split; [now apply storeSliderValue_integer|exact M].
Qed.



End SliderFacts.

(* ================================================================= *)
(** ** The refresh and the tick on concrete pages *)



(** C4 at the answer [null], which is a JSON text: the refresh raises
    a [TypeError] when it reads [response.stats], on every page and
    with every host; nothing is drawn.  The refresh also raises for the
    answer [{type: 'FeatureCollection', features: [null]}] when the
    value labels are shown, because [buildValuesLabels] reads
    [feature.geometry] of [null]. *)
Theorem refresh_raises_on_null :
  (forall (host : Host) (pg : Page),
      showTraffic JNull pg
      = (Throw (TypeError "Cannot read properties of null or undefined: stats"), pg))
  /\ loadTrafficForCurrentSlider (host := decimalHost)
       (fun _ => Normal JNull) readyPage
     = (Throw (TypeError "Cannot read properties of null or undefined: stats"),
        log_fetch readyUrl readyPage)
  /\ fst (loadTrafficForCurrentSlider (host := decimalHost)
            (fun _ => Normal (featureCollection [JNull]))
            (mkPage (JNum (Num.ofZ 1000)) (JNum (Num.ofZ 2000))
                    (Num.ofZ 0) (Num.ofZ 1000) true true "all" "count"
                    "min" "max" "" "" defaultStats emptyFeatureCollection
                    (JArr []) (JArr []) []))
     = Throw (TypeError "Cannot read properties of null or undefined: geometry").
Proof.
  split; [|split].
  - intros host pg. reflexivity.
  - reflexivity.
  - reflexivity.
Qed.


(* ================================================================= *)
(** ** Bounds of a FeatureCollection *)

Lemma JsVal_array_ind (P : JsVal -> Prop) :
  P JUndefined -> P JNull -> (forall b, P (JBool b)) -> (forall n, P (JNum n)) ->
  (forall s, P (JStr s)) ->
  (forall items, Forall P items -> P (JArr items)) ->
  (forall props, P (JObj props)) ->
  forall v, P v.
Proof.
  intros HU HN HB HNum HS HA HO.
  fix IH 1. intros [| |b|n|s|items|props].
  - exact HU.
  - exact HN.
  - apply HB.
  - apply HNum.
  - apply HS.
  - apply HA. induction items as [|x rest IHl].
    + constructor.
    + constructor; [apply IH|exact IHl].
  - apply HO.
Qed.

Lemma fold_addPair_app (l1 l2 : list (Qc * Qc)) (b : Bounds) :
  fold_left addPair (l1 ++ l2) b = fold_left addPair l2 (fold_left addPair l1 b).
Proof. apply fold_left_app. Qed.

Lemma scanItems_pairs (items : list JsVal) :
  Forall (fun v => forall b, scanCoordinates v b
                             = fold_left addPair (finitePairs v) b) items ->
  forall b,
    (fix scanItems (l : list JsVal) (b : Bounds) : Bounds :=
       match l with
       | [] => b
       | item :: rest => scanItems rest (scanCoordinates item b)
       end) items b
    = fold_left addPair
        ((fix pairsOf (l : list JsVal) : list (Qc * Qc) :=
            match l with
            | [] => []
            | item :: rest => finitePairs item ++ pairsOf rest
            end) items) b.
Proof.
  induction 1 as [|x rest Hx _ IH]; intro b.
  - reflexivity.
  - rewrite fold_addPair_app, <- Hx. apply IH.
Qed.

Lemma scan_pairs (coords : JsVal) (b : Bounds) :
  scanCoordinates coords b = fold_left addPair (finitePairs coords) b.
Proof.
  revert b. induction coords as [| |c|n|s|items IH|props] using JsVal_array_ind;
    intro b; try reflexivity.
  destruct items as [|x rest]; [reflexivity|].
  destruct x as [| |c|n|s|items'|props'];
    try (exact (scanItems_pairs _ IH b)).
  destruct rest as [|y rest']; [exact (scanItems_pairs _ IH b)|].
  destruct y as [| |c|m|s|items'|props'];
    try (exact (scanItems_pairs _ IH b)).
  (* a coordinate pair *)
  cbn [scanCoordinates finitePairs].
  destruct n as [| | |a], m as [| | |d]; reflexivity.
Qed.


Lemma qmin_spec (a b : Qc) :
  (qmin a b <= a)%Qc /\ (qmin a b <= b)%Qc /\ (qmin a b = a \/ qmin a b = b).
Proof.
  unfold qmin. destruct (Num.Qcltb b a) eqn:E.
  - apply Qcltb_iff in E. repeat split.
    + now apply Qclt_le_weak.
    + apply Qcle_refl.
    + now right.
  - apply Qcltb_false_iff in E. repeat split.
    + apply Qcle_refl.
    + exact E.
    + now left.
Qed.

Lemma qmax_spec (a b : Qc) :
  (a <= qmax a b)%Qc /\ (b <= qmax a b)%Qc /\ (qmax a b = a \/ qmax a b = b).
Proof.
  unfold qmax. destruct (Num.Qcltb a b) eqn:E.
  - apply Qcltb_iff in E. repeat split.
    + now apply Qclt_le_weak.
    + apply Qcle_refl.
    + now right.
  - apply Qcltb_false_iff in E. repeat split.
    + apply Qcle_refl.
    + exact E.
    + now left.
Qed.

Lemma addPair_first (p : Qc * Qc) :
  addPair noBounds p
  = mkBounds (Fin (fst p)) (Fin (snd p)) (Fin (fst p)) (Fin (snd p)) true.
Proof. reflexivity. Qed.

Lemma addPair_next (x0 y0 x1 y1 : Qc) (p : Qc * Qc) :
  addPair (mkBounds (Fin x0) (Fin y0) (Fin x1) (Fin y1) true) p
  = mkBounds (Fin (qmin x0 (fst p))) (Fin (qmin y0 (snd p)))
             (Fin (qmax x1 (fst p))) (Fin (qmax y1 (snd p))) true.
Proof.
  unfold addPair, addPoint, qmin, qmax. cbn [minX minY maxX maxY Num.min Num.max Num.ltb].
  destruct (Num.Qcltb (fst p) x0), (Num.Qcltb (snd p) y0),
    (Num.Qcltb x1 (fst p)), (Num.Qcltb y1 (snd p)); reflexivity.
Qed.

Lemma isBox_single (p : Qc * Qc) : isBox (fst p) (snd p) (fst p) (snd p) [p].
Proof.
  unfold isBox. repeat split.
  1-4: destruct H as [<-|[]]; apply Qcle_refl.
  all: exists p; split; [now left|reflexivity].
Qed.

Lemma isBox_snoc (x0 y0 x1 y1 : Qc) (seen : list (Qc * Qc)) (p : Qc * Qc) :
  isBox x0 y0 x1 y1 seen ->
  isBox (qmin x0 (fst p)) (qmin y0 (snd p)) (qmax x1 (fst p)) (qmax y1 (snd p))
        (seen ++ [p]).
Proof.
  intros (I & (a & Ia & Ea) & (b & Ib & Eb) & (c & Ic & Ec) & (d & Id & Ed)).
  destruct (qmin_spec x0 (fst p)) as (mx1 & mx2 & mx3).
  destruct (qmin_spec y0 (snd p)) as (my1 & my2 & my3).
  destruct (qmax_spec x1 (fst p)) as (Mx1 & Mx2 & Mx3).
  destruct (qmax_spec y1 (snd p)) as (My1 & My2 & My3).
  assert (In p (seen ++ [p])) as Ip by (apply in_or_app; right; now left).
  split; [|split; [|split; [|split]]].
  - intros r Hr. apply in_app_or in Hr. destruct Hr as [Hr|[<-|[]]].
    + destruct (I r Hr) as (i1 & i2 & i3 & i4).
      repeat split; eauto using Qcle_trans.
    + repeat split; assumption.
  - destruct mx3 as [E|E]; rewrite E.
    + exists a. split; [apply in_or_app; now left|exact Ea].
    + now exists p.
  - destruct my3 as [E|E]; rewrite E.
    + exists b. split; [apply in_or_app; now left|exact Eb].
    + now exists p.
  - destruct Mx3 as [E|E]; rewrite E.
    + exists c. split; [apply in_or_app; now left|exact Ec].
    + now exists p.
  - destruct My3 as [E|E]; rewrite E.
    + exists d. split; [apply in_or_app; now left|exact Ed].
    + now exists p.
Qed.

Lemma fold_box (l seen : list (Qc * Qc)) (x0 y0 x1 y1 : Qc) :
  isBox x0 y0 x1 y1 seen ->
  exists x0' y0' x1' y1' : Qc,
    fold_left addPair l (mkBounds (Fin x0) (Fin y0) (Fin x1) (Fin y1) true)
    = mkBounds (Fin x0') (Fin y0') (Fin x1') (Fin y1') true
    /\ isBox x0' y0' x1' y1' (seen ++ l).
Proof.
  revert seen x0 y0 x1 y1. induction l as [|p l IH]; intros seen x0 y0 x1 y1 B.
  - exists x0, y0, x1, y1. rewrite app_nil_r. now split.
  - cbn [fold_left]. rewrite addPair_next.
    destruct (IH (seen ++ [p]) _ _ _ _ (isBox_snoc _ _ _ _ _ p B))
      as (a & b & c & d & E & B').
    exists a, b, c, d. split; [exact E|].
    now rewrite <- app_assoc in B'.
Qed.

Lemma fold_from_nothing (l : list (Qc * Qc)) :
  l <> [] ->
  exists x0 y0 x1 y1 : Qc,
    fold_left addPair l noBounds
    = mkBounds (Fin x0) (Fin y0) (Fin x1) (Fin y1) true
    /\ isBox x0 y0 x1 y1 l.
Proof.
  destruct l as [|p l]; [congruence|]. intros _.
  cbn [fold_left]. rewrite addPair_first.
  exact (fold_box l [p] _ _ _ _ (isBox_single p)).
Qed.

Section BoundsFacts.
Context {host : Host}.

Lemma boundsStep_eq (b : Bounds) (feature : JsVal) :
  boundsStep b feature = Normal (fold_left addPair (featurePairs feature) b).
Proof.
  unfold boundsStep, featurePairs, coordinatesOf.
  destruct (truthy feature) eqn:T; [|reflexivity].
  rewrite (get_truthy _ _ T). cbn [bind andb].
  destruct (truthy (prop feature "geometry")) eqn:G; [|reflexivity].
  rewrite (get_truthy _ _ G). cbn [bind andb].
  destruct (truthy (prop (prop feature "geometry") "coordinates")); [|reflexivity].
  now rewrite scan_pairs.
Qed.

Lemma forOf_boundsStep (items : list JsVal) (b : Bounds) :
  forOf boundsStep items b
  = Normal (fold_left addPair (flat_map featurePairs items) b).
Proof.
  revert b. induction items as [|x rest IH]; intro b.
  - reflexivity.
  - cbn [forOf flat_map]. rewrite boundsStep_eq. cbn [bind].
    rewrite IH, fold_addPair_app. reflexivity.
Qed.

Lemma finitePairs_position (p : Qc * Qc) : finitePairs (position p) = [p].
Proof. destruct p. reflexivity. Qed.

Lemma finitePairs_lineString (pts : list (Qc * Qc)) :
  finitePairs (lineString pts) = pts.
Proof.
  unfold lineString.
  assert (E : forall l : list (Qc * Qc),
             (fix pairsOf (l : list JsVal) : list (Qc * Qc) :=
                match l with
                | [] => []
                | item :: rest => finitePairs item ++ pairsOf rest
                end) (map position l) = l).
  { induction l as [|p l IH]; [reflexivity|].
    cbn [map]. rewrite finitePairs_position, IH. reflexivity. }
  destruct pts as [|p rest]; [reflexivity|].
  exact (E (p :: rest)).
Qed.

Lemma finitePairs_rings (rings : list (list (Qc * Qc))) :
  finitePairs (JArr (map lineString rings)) = List.concat rings.
Proof.
  assert (E : forall l : list (list (Qc * Qc)),
             (fix pairsOf (l : list JsVal) : list (Qc * Qc) :=
                match l with
                | [] => []
                | item :: rest => finitePairs item ++ pairsOf rest
                end) (map lineString l) = List.concat l).
  { induction l as [|r l IH]; [reflexivity|].
    cbn [map List.concat]. rewrite finitePairs_lineString, IH. reflexivity. }
  destruct rings as [|r rest]; [reflexivity|].
  exact (E (r :: rest)).
Qed.

(** X1.  The bounds of a FeatureCollection with the features [items]: [null]
    when the features hold no finite coordinate pair (in particular
    when there is no feature); otherwise the bounding box of the finite
    pairs, at any depth of nesting: every pair lies in it and each of
    its four sides is the coordinate of some pair.  The pairs of a line
    feature are its points, those of a point feature its point, those
    of a polygon feature the points of its rings. *)
Theorem getFeatureCollectionBounds_box :
  (forall (props : list (string * JsVal)) (items : list JsVal),
      lookup "features" props = Some (JArr items) ->
      (flat_map featurePairs items = [] ->
       getFeatureCollectionBounds (JObj props) = Normal JNull)
      /\ (flat_map featurePairs items <> [] ->
          exists x0 y0 x1 y1 : Qc,
            getFeatureCollectionBounds (JObj props)
            = Normal (boxValue x0 y0 x1 y1)
            /\ isBox x0 y0 x1 y1 (flat_map featurePairs items)))
  /\ (forall (v : JsVal) (pts : list (Qc * Qc)),
         featurePairs (lineFeature v pts) = pts)
  /\ (forall (v : JsVal) (p : Qc * Qc), featurePairs (pointFeature v p) = [p])
  /\ (forall rings : list (list (Qc * Qc)),
         featurePairs (polygonFeature rings) = List.concat rings).
Proof.
  split; [|split; [|split]].
  - intros props items F.
    assert (E : getFeatureCollectionBounds (JObj props)
                = (let b := fold_left addPair (flat_map featurePairs items) noBounds in
                   if negb (hasData b) then Normal JNull
                   else Normal (JArr [JArr [JNum (minX b); JNum (minY b)];
                                      JArr [JNum (maxX b); JNum (maxY b)]]))).
    { unfold getFeatureCollectionBounds. cbn [truthy negb get]. rewrite F.
      cbn [bind truthy negb iterate]. rewrite forOf_boundsStep. reflexivity. }
    split.
    + intro N. rewrite E, N. reflexivity.
    + intro N. destruct (fold_from_nothing _ N) as (x0 & y0 & x1 & y1 & Fd & B).
      exists x0, y0, x1, y1. split; [|exact B].
      rewrite E. cbv zeta. rewrite Fd. reflexivity.
  - intros v pts. unfold featurePairs.
    change (coordinatesOf (lineFeature v pts)) with (lineString pts).
    replace (truthy (lineFeature v pts) && truthy (prop (lineFeature v pts) "geometry")
             && truthy (lineString pts)) with true by reflexivity.
    apply finitePairs_lineString.
  - intros v p. destruct p. reflexivity.
  - intro rings. unfold featurePairs.
    change (coordinatesOf (polygonFeature rings)) with (JArr (map lineString rings)).
    replace (truthy (polygonFeature rings)
             && truthy (prop (polygonFeature rings) "geometry")
             && truthy (JArr (map lineString rings))) with true by reflexivity.
    apply finitePairs_rings.
Qed.

End BoundsFacts.

(* ================================================================= *)
(** ** Line midpoint: what the end points decide *)

Lemma getIndex_not_nullish (v : JsVal) (i : nat) :
  nullish v = false -> getIndex v i = Normal (elem v i).
Proof.
  unfold elem. destruct v; simpl; try discriminate; intros _; try reflexivity.
  destruct (lookup (natToString i) props); reflexivity.
Qed.

Lemma getIndex_nullish (v : JsVal) (i : nat) :
  nullish v = true -> exists e, getIndex v i = Throw e.
Proof.
  destruct v; simpl; try discriminate; intros _; eexists; reflexivity.
Qed.

Section EndPointFacts.
Context {host : Host}.

Lemma getLineMiddlePoint_reads_ends (first last : JsVal) (mid : list JsVal) :
  getLineMiddlePoint (JArr (first :: mid ++ [last]))
  = (first0 <- getIndex first 0 ;;
     last0 <- getIndex last 0 ;;
     first1 <- getIndex first 1 ;;
     last1 <- getIndex last 1 ;;
     Normal (JArr [JNum (js_div (js_add first0 last0) (JNum (Num.ofZ 2)));
                   JNum (js_div (js_add first1 last1) (JNum (Num.ofZ 2)))])).
Proof.
  unfold getLineMiddlePoint.
  assert (L : (List.length (first :: mid ++ [last]) <? 2)%nat = false).
  { apply Nat.ltb_ge. simpl. rewrite length_app. simpl. lia. }
  rewrite L. unfold getIndex at 1 2.
  change (first :: mid ++ [last]) with ((first :: mid) ++ [last]).
  rewrite nth_last_snoc. reflexivity.
Qed.

(** X2.  For an array of at least two elements the line midpoint reads
    only the first and the last one.  It raises when one of them is
    [null] or [undefined]; otherwise it returns an array of two
    numbers, never [null], and the same one as for the two ends alone.
    When the ends are numbers, as in a flat list of coordinates, both
    numbers are [NaN]. *)
Theorem getLineMiddlePoint_reads_only_ends (first last : JsVal) (mid : list JsVal) :
  (nullish first || nullish last = true ->
   exists e, getLineMiddlePoint (JArr (first :: mid ++ [last])) = Throw e)
  /\ (nullish first || nullish last = false ->
      exists x y : num,
        getLineMiddlePoint (JArr (first :: mid ++ [last]))
        = Normal (JArr [JNum x; JNum y])
        /\ getLineMiddlePoint (JArr [first; last]) = Normal (JArr [JNum x; JNum y]))
  /\ (forall a b : num,
         first = JNum a -> last = JNum b ->
         getLineMiddlePoint (JArr (first :: mid ++ [last]))
         = Normal (JArr [JNum NaN; JNum NaN])).
Proof.
  rewrite getLineMiddlePoint_reads_ends.
  split; [|split].
  - intro N. destruct (nullish first) eqn:F.
    + destruct (getIndex_nullish first 0 F) as [e ->]. now exists e.
    + cbn [orb] in N. rewrite (getIndex_not_nullish first 0 F). cbn [bind].
      destruct (getIndex_nullish last 0 N) as [e ->]. now exists e.
  - intro N. apply orb_false_elim in N. destruct N as [F L].
    change [first; last] with (first :: [] ++ [last]).
    rewrite getLineMiddlePoint_reads_ends.
    rewrite !(getIndex_not_nullish first _ F), !(getIndex_not_nullish last _ L).
    cbn [bind]. eexists. eexists. split; reflexivity.
  - intros a b -> ->. reflexivity.
Qed.

End EndPointFacts.

(** The midpoint at an array that ends in [null], at two strings (whose
    characters are read as coordinates) and at a flat list of
    numbers. *)
Lemma getLineMiddlePoint_reads_only_ends_witness :
  (exists e, getLineMiddlePoint (host := decimalHost)
               (JArr [position (pt 0 0); position (pt 1 1); JNull]) = Throw e)
  /\ (exists x y : num,
         getLineMiddlePoint (host := decimalHost)
           (JArr [JStr "12"; JNull; JStr "34"]) = Normal (JArr [JNum x; JNum y]))
  /\ getLineMiddlePoint (host := decimalHost)
       (JArr [JNum (Num.ofZ 0); JNum (Num.ofZ 0); JNum (Num.ofZ 4); JNum (Num.ofZ 2)])
     = Normal (JArr [JNum NaN; JNum NaN]).
Proof.
  split; [|split].
  - destruct (getLineMiddlePoint_reads_only_ends (host := decimalHost)
                (position (pt 0 0)) JNull [position (pt 1 1)]) as (R & _).
    apply R. reflexivity.
  - destruct (getLineMiddlePoint_reads_only_ends (host := decimalHost)
                (JStr "12") (JStr "34") [JNull]) as (_ & R & _).
    destruct (R eq_refl) as (x & y & E & _). now exists x, y.
  - destruct (getLineMiddlePoint_reads_only_ends (host := decimalHost)
                (JNum (Num.ofZ 0)) (JNum (Num.ofZ 2))
                [JNum (Num.ofZ 0); JNum (Num.ofZ 4)]) as (_ & _ & R).
    exact (R _ _ eq_refl eq_refl).
Defined.

(* ================================================================= *)
(** ** Epoch seconds of integers and of date strings *)

Lemma floor_div_1000 (z : Z) :
  Num.floor (Num.div (Num.ofZ z) (Num.ofZ 1000)) = Num.ofZ (z / 1000).
Proof.
  unfold Num.div, Num.ofZ, Num.floor.
  replace (Num.Qceqb (Q2Qc (inject_Z 1000)) 0%Qc) with false by reflexivity.
  unfold Num.ofZ. now rewrite Qfloor_div_Z by lia.
Qed.

Section EpochIntegerFacts.
Context {host : Host}.

Lemma toEpochSeconds_integer (z : Z) :
  toEpochSeconds (JNum (Num.ofZ z)) = Num.ofZ (secondsOf z).
Proof.
  unfold toEpochSeconds, secondsOf. rewrite ofZ_ltb.
  destruct (z <? 10000000000)%Z; [reflexivity|apply floor_div_1000].
Qed.

(** X3.  On integers, converting twice is converting once exactly below
    [1e13]: seconds, and milliseconds up to the year 2286, come out as
    seconds and stay; a negative number is always left as it is (read
    as seconds).  From [1e13] on the result is itself read as
    milliseconds and divided again. *)
Theorem toEpochSeconds_twice (z : Z) :
  ((z < 10000000000000)%Z ->
   toEpochSeconds (JNum (toEpochSeconds (JNum (Num.ofZ z))))
   = toEpochSeconds (JNum (Num.ofZ z)))
  /\ ((z < 0)%Z -> toEpochSeconds (JNum (Num.ofZ z)) = Num.ofZ z)
  /\ ((10000000000000 <= z)%Z ->
      toEpochSeconds (JNum (toEpochSeconds (JNum (Num.ofZ z))))
      = Num.ofZ (z / 1000 / 1000)
      /\ toEpochSeconds (JNum (toEpochSeconds (JNum (Num.ofZ z))))
         <> toEpochSeconds (JNum (Num.ofZ z))).
Proof.
  rewrite !toEpochSeconds_integer.
  unfold secondsOf. split; [|split].
  - intro H. destruct (z <? 10000000000)%Z eqn:E.
    + now rewrite E.
    + apply Z.ltb_ge in E.
      assert (L : (z / 1000 < 10000000000)%Z)
        by (apply Z.div_lt_upper_bound; lia).
      apply Z.ltb_lt in L. now rewrite L.
  - intro H. assert (L : (z <? 10000000000)%Z = true) by (apply Z.ltb_lt; lia).
    now rewrite L.
  - intro H.
    assert (L : (z <? 10000000000)%Z = false) by (apply Z.ltb_ge; lia).
    rewrite L.
    assert (G : (10000000000 <= z / 1000)%Z)
      by (apply Z.div_le_lower_bound; lia).
    assert (L' : (z / 1000 <? 10000000000)%Z = false) by (apply Z.ltb_ge; lia).
    rewrite L'. split; [reflexivity|].
    intro E. apply ofZ_inj in E.
    assert ((z / 1000 / 1000 < z / 1000)%Z) by (apply Z.div_lt; lia).
    lia.
Qed.

(** X4.  A date string is always converted from milliseconds: when its time
    value is the integer [z], the result is [z / 1000] rounded down,
    also for a [z] below [1e10] or below zero, where the number [z]
    itself would be left as it is. *)
Theorem toEpochSeconds_of_date (s : string) (z : Z) :
  DateParse s = Num.ofZ z ->
  toEpochSeconds (JStr s) = Num.ofZ (z / 1000)
  /\ ((10000000000 <= z)%Z ->
      toEpochSeconds (JStr s) = toEpochSeconds (JNum (Num.ofZ z)))
  /\ ((1000 <= z < 10000000000)%Z ->
      toEpochSeconds (JStr s) <> toEpochSeconds (JNum (Num.ofZ z))).
Proof.
  intro D.
  assert (E : toEpochSeconds (JStr s) = Num.ofZ (z / 1000)).
  { unfold toEpochSeconds, Date_getTime. cbn [ToPrimitive]. rewrite D.
    cbn [Num.isFinite Num.ofZ negb]. apply floor_div_1000. }
  rewrite toEpochSeconds_integer. unfold secondsOf.
  split; [exact E|split].
  - intro H. assert (L : (z <? 10000000000)%Z = false) by (apply Z.ltb_ge; lia).
    now rewrite L.
  - intro H. assert (L : (z <? 10000000000)%Z = true) by (apply Z.ltb_lt; lia).
    rewrite L, E. intro Q. apply ofZ_inj in Q.
    assert ((z / 1000 < z)%Z) by (apply Z.div_lt; lia). lia.
Qed.

End EpochIntegerFacts.

(** The seconds value 1700000000 and the milliseconds value
    1700000000000 convert to the same seconds and stay; -5 stays; the
    value [2e13] is divided twice. *)
Lemma toEpochSeconds_twice_witness :
  toEpochSeconds (host := decimalHost)
    (JNum (toEpochSeconds (host := decimalHost) (JNum (Num.ofZ 1700000000000))))
  = toEpochSeconds (host := decimalHost) (JNum (Num.ofZ 1700000000000))
  /\ toEpochSeconds (host := decimalHost) (JNum (Num.ofZ (-5))) = Num.ofZ (-5)
  /\ toEpochSeconds (host := decimalHost)
       (JNum (toEpochSeconds (host := decimalHost) (JNum (Num.ofZ 20000000000000))))
     = Num.ofZ (20000000000000 / 1000 / 1000).
Proof.
  split; [|split].
  - destruct (toEpochSeconds_twice (host := decimalHost) 1700000000000) as (R & _).
    apply R. lia.
  - destruct (toEpochSeconds_twice (host := decimalHost) (-5)) as (_ & R & _).
    apply R. lia.
  - destruct (toEpochSeconds_twice (host := decimalHost) 20000000000000) as (_ & _ & R).
    apply R. lia.
Defined.

(** With dates written as milliseconds: the date ["5000"] gives 5
    seconds, the number 5000 gives 5000. *)
Lemma toEpochSeconds_of_date_witness :
  toEpochSeconds (host := millisHost) (JStr "5000") = Num.ofZ (5000 / 1000)
  /\ toEpochSeconds (host := millisHost) (JStr "5000")
     <> toEpochSeconds (host := millisHost) (JNum (Num.ofZ 5000)).
Proof.
  destruct (toEpochSeconds_of_date (host := millisHost) "5000" 5000 eq_refl)
    as (A & _ & B).
  split; [exact A|apply B; lia].
Defined.

(* ================================================================= *)
(** ** The time range of the meta answer *)

Lemma getOpt_eq (v : JsVal) (k : string) : getOpt v k = Normal (optProp v k).
Proof.
  unfold getOpt, optProp. destruct (nullish v) eqn:N; [reflexivity|].
  now apply get_not_nullish.
Qed.

Section MetaFacts.
Context {host : Host}.

Lemma metaBound_eq (meta : JsVal) (key alternate : string) :
  metaBound meta key alternate
  = Normal (if nullish (optProp (optProp meta "traffic") key)
            then optProp (optProp meta "traffic_time_range") alternate
            else optProp (optProp meta "traffic") key).
Proof.
  unfold metaBound. rewrite (getOpt_eq meta "traffic"). cbn [bind].
  rewrite getOpt_eq. cbn [bind].
  destruct (nullish (optProp (optProp meta "traffic") key)); [|reflexivity].
  rewrite (getOpt_eq meta). cbn [bind]. apply getOpt_eq.
Qed.


Variable fetchJson : string -> completion JsVal.

(** X6.  When the meta answer is [null], or an object with neither
    [traffic] nor [traffic_time_range], both bounds of the time range
    are [NaN], and a refresh of the page so loaded does nothing.  A
    bound that is [null] under [traffic_time_range] is not missing: it
    is read as second 0. *)
Theorem loadTimeRange_missing (meta : JsVal) (pg : Page) :
  (optProp meta "traffic" = JUndefined ->
   optProp meta "traffic_time_range" = JUndefined ->
   loadTimeRange meta pg = Normal (set_timeRange (JNum NaN) (JNum NaN) pg)
   /\ loadTrafficForCurrentSlider fetchJson
        (set_timeRange (JNum NaN) (JNum NaN) pg)
      = (Normal tt, set_timeRange (JNum NaN) (JNum NaN) pg))
  /\ (optProp meta "traffic" = JUndefined ->
      optProp (optProp meta "traffic_time_range") "min" = JNull ->
      optProp (optProp meta "traffic_time_range") "max" = JNull ->
      loadTimeRange meta pg
      = Normal (set_timeRange (JNum (Num.ofZ 0)) (JNum (Num.ofZ 0)) pg)).
Proof.
  unfold loadTimeRange. rewrite !metaBound_eq. cbn [bind].
  split.
  - intros T R. rewrite T, R. split; [reflexivity|].
    apply loadTraffic_idle. right. reflexivity.
  - intros T A B. rewrite T, A, B. reflexivity.
Qed.

End MetaFacts.


(** The meta answers [null], [{}] and
    [{traffic_time_range: {min: null, max: null}}]. *)
Lemma loadTimeRange_missing_witness :
  loadTimeRange (host := decimalHost) JNull blankPage
  = Normal (set_timeRange (JNum NaN) (JNum NaN) blankPage)
  /\ loadTimeRange (host := decimalHost) (JObj []) blankPage
     = Normal (set_timeRange (JNum NaN) (JNum NaN) blankPage)
  /\ loadTimeRange (host := decimalHost)
       (JObj [("traffic_time_range", JObj [("min", JNull); ("max", JNull)])])
       blankPage
     = Normal (set_timeRange (JNum (Num.ofZ 0)) (JNum (Num.ofZ 0)) blankPage).
Proof.
  split; [|split].
  - destruct (loadTimeRange_missing (host := decimalHost)
                (fun _ => Normal JNull) JNull blankPage) as (R & _).
    destruct (R eq_refl eq_refl) as [E _]. exact E.
  - destruct (loadTimeRange_missing (host := decimalHost)
                (fun _ => Normal JNull) (JObj []) blankPage) as (R & _).
    destruct (R eq_refl eq_refl) as [E _]. exact E.
  - destruct (loadTimeRange_missing (host := decimalHost)
                (fun _ => Normal JNull)
                (JObj [("traffic_time_range", JObj [("min", JNull); ("max", JNull)])])
                blankPage) as (_ & R).
    exact (R eq_refl eq_refl eq_refl).
Defined.

(* ================================================================= *)
(** ** The epoch of a slider position *)

Lemma round_position (a b v m : Z) :
  (0 < m)%Z ->
  Qfloor (Q2Qc (inject_Z a)
          + Q2Qc (inject_Z v) / Q2Qc (inject_Z m) * Q2Qc (inject_Z (b - a))
          + Q2Qc (1 # 2))%Qc
  = epochOf a b v m.
Proof.
  intro Hm.
  assert (E : ((Q2Qc (inject_Z a)
                + Q2Qc (inject_Z v) / Q2Qc (inject_Z m) * Q2Qc (inject_Z (b - a))
                + Q2Qc (1 # 2))%Qc : Q)
              == (2 * m * a + (2 * v * (b - a) + m)) # Z.to_pos (2 * m)).
  { unfold Qcplus, Qcdiv, Qcmult, Qcinv. cbn [this Q2Qc].
    rewrite !Qred_correct.
    destruct m as [|p|p]; try lia.
    set (N := (2 * Z.pos p * a + (2 * v * (b - a) + Z.pos p))%Z).
    set (D := Z.to_pos (2 * Z.pos p)).
    unfold Qeq, Qplus, Qmult, Qinv, inject_Z. cbn [Qnum Qden].
    assert (ED : Z.pos D = (2 * Z.pos p)%Z) by (subst D; apply Z2Pos.id; lia).
    rewrite ?Pos2Z.inj_mul, ED. subst N. ring. }
  rewrite (Qfloor_comp _ _ E). unfold Qfloor, epochOf.
  rewrite Z2Pos.id by lia.
  rewrite (Z.mul_comm (2 * m) a), Z.div_add_l by lia. reflexivity.
Qed.

Lemma ofZ_not_zero (m : Z) :
  (0 < m)%Z -> Num.Qceqb (Q2Qc (inject_Z m)) 0%Qc = false.
Proof.
  intro Hm. apply Qceqb_false_iff. intro E.
  apply (f_equal (fun q : Qc => this q)) in E.
  cbn [this Q2Qc] in E.
  assert (Q : inject_Z m == 0) by (rewrite <- (Qred_correct (inject_Z m)), E; reflexivity).
  unfold Qeq, inject_Z in Q. simpl in Q. lia.
Qed.

Lemma epochOf_bounds (a b v m : Z) :
  (0 < m)%Z -> (a <= b)%Z -> (0 <= v <= m)%Z ->
  (a <= epochOf a b v m <= b)%Z.
Proof.
  intros Hm Hab Hv. unfold epochOf.
  assert (0 <= (2 * v * (b - a) + m) / (2 * m))%Z
    by (apply Z.div_pos; nia).
  assert ((2 * v * (b - a) + m) / (2 * m) <= b - a)%Z.
  { apply Z.lt_succ_r. apply Z.div_lt_upper_bound; nia. }
  lia.
Qed.

Lemma epochOf_monotone (a b v v' m : Z) :
  (0 < m)%Z -> (a <= b)%Z -> (v <= v')%Z ->
  (epochOf a b v m <= epochOf a b v' m)%Z.
Proof.
  intros Hm Hab Hv. unfold epochOf.
  apply Z.add_le_mono_l. apply Z.div_le_mono; nia.
Qed.

Lemma epochOf_ends (a b m : Z) :
  (0 < m)%Z -> epochOf a b 0 m = a /\ epochOf a b m m = b.
Proof.
  intro Hm. unfold epochOf. split.
  - replace (2 * 0 * (b - a) + m)%Z with m by ring.
    rewrite Z.div_small by lia. lia.
  - replace (2 * m * (b - a) + m)%Z with ((b - a) * (2 * m) + m)%Z by ring.
    rewrite Z.div_add_l by lia. rewrite Z.div_small by lia. lia.
Qed.

Section SliderEpochFacts.
Context {host : Host}.

Lemma getSliderEpoch_integer (pg : Page) (a b v m : Z) :
  timeMin pg = JNum (Num.ofZ a) -> timeMax pg = JNum (Num.ofZ b) ->
  sliderValue pg = Num.ofZ v -> sliderMax pg = Num.ofZ m ->
  (0 < m)%Z ->
  getSliderEpoch pg = JNum (Num.ofZ (epochOf a b v m)).
Proof.
  intros A B V M Hm. unfold getSliderEpoch. rewrite A, B, V, M.
  cbn [Number_isFinite Num.isFinite Num.ofZ negb orb].
  unfold js_sub. cbn [ToNumber].
  change (Fin (Q2Qc (inject_Z b))) with (Num.ofZ b).
  change (Fin (Q2Qc (inject_Z a))) with (Num.ofZ a).
  rewrite ofZ_sub.
  unfold Num.div, Num.ofZ. rewrite (ofZ_not_zero m Hm).
  cbn [Num.mul js_add ToPrimitive ToNumber Num.add Num.round].
  rewrite round_position by exact Hm. reflexivity.
Qed.

(** X7.  With a time range from second [a] to second [b >= a] and the slider
    at the integer [v] of [m > 0], [getSliderEpoch] gives an integer
    second inside the time range: [a] at position 0, [b] at position
    [m], and a position further right never gives an earlier second. *)
Theorem getSliderEpoch_in_time_range (pg : Page) (a b v m : Z) :
  timeMin pg = JNum (Num.ofZ a) -> timeMax pg = JNum (Num.ofZ b) ->
  sliderValue pg = Num.ofZ v -> sliderMax pg = Num.ofZ m ->
  (0 < m)%Z -> (a <= b)%Z -> (0 <= v <= m)%Z ->
  (exists e : Z,
      getSliderEpoch pg = JNum (Num.ofZ e) /\ (a <= e <= b)%Z
      /\ (forall (v' : Z),
             (v <= v' <= m)%Z ->
             exists e' : Z,
               getSliderEpoch (set_sliderValue (Num.ofZ v') pg) = JNum (Num.ofZ e')
               /\ (e <= e' <= b)%Z))
  /\ getSliderEpoch (set_sliderValue (Num.ofZ 0) pg) = JNum (Num.ofZ a)
  /\ getSliderEpoch (set_sliderValue (Num.ofZ m) pg) = JNum (Num.ofZ b).
Proof.
  intros A B V M Hm Hab Hv.
  assert (S : forall v' : Z,
             getSliderEpoch (set_sliderValue (Num.ofZ v') pg)
             = JNum (Num.ofZ (epochOf a b v' m))).
  { intro v'. apply getSliderEpoch_integer; try assumption. reflexivity. }
  destruct (epochOf_ends a b m Hm) as [E0 Em].
  split; [|split].
  - exists (epochOf a b v m). split; [|split].
    + now apply getSliderEpoch_integer.
    + now apply epochOf_bounds.
    + intros v' Hv'. exists (epochOf a b v' m). split; [apply S|]. split.
      * apply epochOf_monotone; lia.
      * apply epochOf_bounds; lia.
  - rewrite S, E0. reflexivity.
  - rewrite S, Em. reflexivity.
Qed.

End SliderEpochFacts.

(** The slider at 250 of 1000 between second 1000 and second 2000. *)
Lemma getSliderEpoch_in_time_range_witness :
  (exists e : Z,
      getSliderEpoch (host := decimalHost)
        (set_sliderValue (Num.ofZ 250) readyPage) = JNum (Num.ofZ e)
      /\ (1000 <= e <= 2000)%Z
      /\ (forall (v' : Z),
             (250 <= v' <= 1000)%Z ->
             exists e' : Z,
               getSliderEpoch (host := decimalHost)
                 (set_sliderValue (Num.ofZ v')
                    (set_sliderValue (Num.ofZ 250) readyPage))
               = JNum (Num.ofZ e')
               /\ (e <= e' <= 2000)%Z))
  /\ getSliderEpoch (host := decimalHost)
       (set_sliderValue (Num.ofZ 0) (set_sliderValue (Num.ofZ 250) readyPage))
     = JNum (Num.ofZ 1000)
  /\ getSliderEpoch (host := decimalHost)
       (set_sliderValue (Num.ofZ 1000) (set_sliderValue (Num.ofZ 250) readyPage))
     = JNum (Num.ofZ 2000).
Proof.
  apply (getSliderEpoch_in_time_range (host := decimalHost)
           (set_sliderValue (Num.ofZ 250) readyPage) 1000 2000 250 1000);
    solve [reflexivity | lia].
Defined.

(* ================================================================= *)
(** ** What a refresh requests and what it leaves on the page *)

Lemma ofZ_mul (a b : Z) : Num.mul (Num.ofZ a) (Num.ofZ b) = Num.ofZ (a * b).
Proof.
  unfold Num.mul, Num.ofZ. f_equal. apply Qc_is_canon.
  unfold Qcmult. cbn [this Q2Qc]. rewrite !Qred_correct.
  unfold Qeq, Qmult, inject_Z. simpl. lia.
Qed.

Section RequestFacts.
Context {host : Host}.
Variable fetchJson : string -> completion JsVal.

Lemma refreshUrl_integer (pg : Page) (e : Z) :
  getSliderEpoch pg = JNum (Num.ofZ e) ->
  refreshUrl pg = windowUrl e (classSelect pg) (metricSelect pg).
Proof.
  intro E. unfold refreshUrl, windowUrl, getWindowFromEpoch. rewrite E.
  cbn [ToNumber]. rewrite ofZ_mul, ofZ_sub, ofZ_add. reflexivity.
Qed.

Lemma showTraffic_fetched (response : JsVal) (pg : Page) :
  fetched (snd (showTraffic response pg)) = fetched pg.
Proof.
  destruct (nullish response) eqn:N.
  - unfold showTraffic, abind, lift. rewrite normalizeFeatureCollection_eq.
    destruct response; try discriminate N; reflexivity.
  - rewrite (showTraffic_steps _ _ N).
    destruct (drawLayers_frame
                (if isFeatureCollection response then response
                 else emptyFeatureCollection)
                (withLegend response pg)) as (_ & _ & _ & _ & _ & _ & F).
    rewrite F. reflexivity.
Qed.

(** X8.  With the traffic box checked, when [getSliderEpoch] gives the
    integer second [e] (one that stays a safe integer 300 seconds to
    each side, where the subtraction and the addition of the page are
    exact), a refresh sends exactly one request, whatever the service
    answers: for the frame from [e - 300] to [e + 300], the five
    minutes before and after that second, with the selected class and
    metric.  When the request is rejected the refresh is rejected with
    the same error and the page is as before but for the request. *)
Theorem refresh_request (pg : Page) (e : Z) :
  chkTraffic pg = true ->
  getSliderEpoch pg = JNum (Num.ofZ e) ->
  (Z.abs e + 300 <= 2 ^ 53)%Z ->
  let url := windowUrl e (classSelect pg) (metricSelect pg) in
  fetched (snd (loadTrafficForCurrentSlider fetchJson pg)) = url :: fetched pg
  /\ (forall err : JsError,
         fetchJson url = Throw err ->
         loadTrafficForCurrentSlider fetchJson pg = (Throw err, log_fetch url pg)).
Proof.
  intros T E _ url.
  assert (N : nullish (getSliderEpoch pg) = false) by now rewrite E.
  assert (U : refreshUrl pg = url) by now apply refreshUrl_integer.
  rewrite (loadTraffic_runs fetchJson pg T N), U.
  split.
  - destruct (fetchJson url) as [response|err]; [|reflexivity].
    rewrite showTraffic_fetched. reflexivity.
  - intros err F. rewrite F. reflexivity.
Qed.

Lemma getPeakPoint_empty (stats : JsVal) :
  getPeakPoint emptyFeatureCollection stats = Normal JNull.
Proof. reflexivity. Qed.

Lemma buildValuesLabels_empty :
  buildValuesLabels emptyFeatureCollection = Normal (JArr []).
Proof. reflexivity. Qed.

(** X9.  An answer that is not [null] and not a well-formed
    FeatureCollection (a number, a string, an array, an object of
    another shape) never makes the refresh raise: the traffic layer
    is given the empty FeatureCollection, the peak layer and the value
    label layer are given no data, whether the value labels are shown
    or not. *)
Theorem refresh_malformed_answer (pg : Page) (response : JsVal) :
  chkTraffic pg = true ->
  nullish (getSliderEpoch pg) = false ->
  fetchJson (refreshUrl pg) = Normal response ->
  nullish response = false ->
  isFeatureCollection response = false ->
  let r := loadTrafficForCurrentSlider fetchJson pg in
  fst r = Normal tt
  /\ trafficData (snd r) = emptyFeatureCollection
  /\ peakData (snd r) = JArr []
  /\ valuesData (snd r) = JArr [].
Proof.
  intros T E F N W r. subst r.
  rewrite (loadTraffic_runs fetchJson pg T E), F, (showTraffic_steps _ _ N), W.
  unfold drawLayers, abind, modify, read, lift.
  rewrite getPeakPoint_empty. cbn [truthy chkValues set_peakData set_trafficData].
  destruct (chkValues (withLegend response (log_fetch (refreshUrl pg) pg)));
    [rewrite buildValuesLabels_empty|]; repeat split.
Qed.

(** X10.  A refresh is not all or nothing.  When building the peak marker
    raises, the refresh raises with the stats, the legend and the
    roads of the new answer already on the page, and the peak marker
    and the value labels of the frame before.  When only building the
    value labels raises, the peak marker is the new one as well and
    the value labels are those of the frame before. *)
Theorem refresh_partial_on_error (pg : Page) (response : JsVal) (e : JsError) :
  chkTraffic pg = true ->
  nullish (getSliderEpoch pg) = false ->
  fetchJson (refreshUrl pg) = Normal response ->
  isFeatureCollection response = true ->
  let r := loadTrafficForCurrentSlider fetchJson pg in
  (getPeakPoint response (statsOf response) = Throw e ->
   fst r = Throw e
   /\ currentStats (snd r) = statsOf response
   /\ legendMinLabel (snd r) = legendText (prop (statsOf response) "min") "min"
   /\ legendMaxLabel (snd r) = legendText (prop (statsOf response) "max") "max"
   /\ trafficData (snd r) = response
   /\ peakData (snd r) = peakData pg
   /\ valuesData (snd r) = valuesData pg)
  /\ (forall peak : JsVal,
         getPeakPoint response (statsOf response) = Normal peak ->
         chkValues pg = true ->
         buildValuesLabels response = Throw e ->
         fst r = Throw e
         /\ trafficData (snd r) = response
         /\ peakData (snd r) = (if truthy peak then JArr [peak] else JArr [])
         /\ valuesData (snd r) = valuesData pg).
Proof.
  intros T E F W r. subst r.
  assert (N : nullish response = false)
    by (destruct response; try discriminate W; reflexivity).
  rewrite (loadTraffic_runs fetchJson pg T E), F, (showTraffic_steps _ _ N), W.
  unfold drawLayers, abind, modify, read, lift.
  change (currentStats
            (set_trafficData response
               (withLegend response (log_fetch (refreshUrl pg) pg))))
    with (statsOf response).
  split.
  - intro P. rewrite P. repeat split.
  - intros peak P V L. rewrite P.
    cbn [chkValues set_peakData set_trafficData withLegend set_legendMaxLabel
         set_legendMinLabel set_currentStats log_fetch].
    rewrite V, L. repeat split.
Qed.

End RequestFacts.

(** The page whose time range runs from second 1000 to second 2000,
    the slider at 0, and a service that does not answer. *)
Lemma refresh_request_witness :
  fetched (snd (loadTrafficForCurrentSlider (host := decimalHost)
                  (fun _ => Throw (Rejected "no answer")) readyPage))
  = [readyUrl]
  /\ loadTrafficForCurrentSlider (host := decimalHost)
       (fun _ => Throw (Rejected "no answer")) readyPage
     = (Throw (Rejected "no answer"), log_fetch readyUrl readyPage).
Proof.
  assert (E : getSliderEpoch (host := decimalHost) readyPage = JNum (Num.ofZ 1000))
    by exact (getSliderEpoch_integer (host := decimalHost) readyPage
                1000 2000 0 1000 eq_refl eq_refl eq_refl eq_refl eq_refl).
  assert (S : (Z.abs 1000 + 300 <= 2 ^ 53)%Z) by (intro C; discriminate C).
  destruct (refresh_request (host := decimalHost)
              (fun _ => Throw (Rejected "no answer")) readyPage 1000 eq_refl E S)
    as [F R].
  split; [exact F | exact (R _ eq_refl)].
Defined.

(** The answer [{detail: 'not found'}]. *)
Lemma refresh_malformed_answer_witness :
  let r := loadTrafficForCurrentSlider (host := decimalHost)
             (fun _ => Normal (JObj [("detail", JStr "not found")])) labelledPage in
  fst r = Normal tt
  /\ trafficData (snd r) = emptyFeatureCollection
  /\ peakData (snd r) = JArr []
  /\ valuesData (snd r) = JArr [].
Proof.
  exact (refresh_malformed_answer (host := decimalHost)
           (fun _ => Normal (JObj [("detail", JStr "not found")])) labelledPage
           (JObj [("detail", JStr "not found")])
           eq_refl eq_refl eq_refl eq_refl eq_refl).
Defined.

(** An answer with a road whose first point is [null], and an answer
    whose only feature is [null]. *)
Lemma refresh_partial_on_error_witness :
  (let r := loadTrafficForCurrentSlider (host := decimalHost)
              (fun _ => Normal (withStats stats_0_10 [brokenRoad])) labelledPage in
   fst r = Throw (TypeError "Cannot read properties of null or undefined: 0")
   /\ currentStats (snd r) = stats_0_10
   /\ trafficData (snd r) = withStats stats_0_10 [brokenRoad]
   /\ peakData (snd r) = JArr []
   /\ valuesData (snd r) = JArr [])
  /\ (let r := loadTrafficForCurrentSlider (host := decimalHost)
                 (fun _ => Normal (featureCollection [JNull])) labelledPage in
      fst r = Throw (TypeError "Cannot read properties of null or undefined: geometry")
      /\ trafficData (snd r) = featureCollection [JNull]
      /\ peakData (snd r) = JArr []
      /\ valuesData (snd r) = JArr []).
Proof.
  split.
  - destruct (refresh_partial_on_error (host := decimalHost)
                (fun _ => Normal (withStats stats_0_10 [brokenRoad])) labelledPage
                (withStats stats_0_10 [brokenRoad])
                (TypeError "Cannot read properties of null or undefined: 0")
                eq_refl eq_refl eq_refl eq_refl) as [P _].
    destruct (P eq_refl) as (R & S & _ & _ & D & K & V).
    cbv zeta. repeat split; assumption.
  - destruct (refresh_partial_on_error (host := decimalHost)
                (fun _ => Normal (featureCollection [JNull])) labelledPage
                (featureCollection [JNull])
                (TypeError "Cannot read properties of null or undefined: geometry")
                eq_refl eq_refl eq_refl eq_refl) as [_ L].
    destruct (L JNull eq_refl eq_refl eq_refl) as (R & D & K & V).
    cbv zeta. repeat split; assumption.
Defined.

(* ================================================================= *)
(** ** The value labels *)

Section LabelFacts.
Context {host : Host}.

Lemma last_cons {A : Type} (rest : list A) (q d : A) :
  last (q :: rest) d = last rest q.
Proof.
  revert q d. induction rest as [|r rest IH]; intros q d; [reflexivity|].
  change (last (q :: r :: rest) d) with (last (r :: rest) d).
  rewrite (IH r d), (IH r q). reflexivity.
Qed.

Lemma lineString_ends (p q : Qc * Qc) (rest : list (Qc * Qc)) :
  exists interior : list (Qc * Qc),
    p :: q :: rest = p :: interior ++ [last rest q].
Proof.
  destruct (@exists_last _ (q :: rest)) as (interior & pN & E);
    [discriminate|].
  exists interior. rewrite <- (last_cons rest q q), E, last_last. reflexivity.
Qed.

Lemma labelStep_road (results : list JsVal) (r : road) :
  labelStep results (roadFeature r) = Normal (results ++ roadLabels r).
Proof.
  destruct r as [value pts|value p].
  - destruct pts as [|p [|q rest]].
    + cbn. now rewrite app_nil_r.
    + cbn. now rewrite app_nil_r.
    + destruct (lineString_ends p q rest) as (interior & E).
      unfold roadFeature, lineFeature, labelStep.
      cbn [get lookup String.eqb Ascii.eqb Bool.eqb bind truthy negb isString].
      rewrite E at 1. rewrite getLineMiddlePoint_lineString.
      cbn [bind truthy position negb ToNumber roadLabels].
      unfold label, valueText.
      destruct (ToNumber value); reflexivity.
  - cbn. now rewrite app_nil_r.
Qed.

Lemma forOf_labelStep_roads (roads : list road) (results : list JsVal) :
  forOf labelStep (map roadFeature roads) results
  = Normal (results ++ flat_map roadLabels roads).
Proof.
  revert results. induction roads as [|r rest IH]; intro results.
  - cbn. now rewrite app_nil_r.
  - cbn [map forOf flat_map]. rewrite labelStep_road. cbn [bind].
    rewrite IH, app_assoc. reflexivity.
Qed.

(** X11.  For an answer made of lines and points, the value labels are
    those of its lines of two points or more, in the order of the
    answer, each at the midpoint of the two ends of its line, with the
    value written by [toFixed(2)] when [Number] of the value is finite
    and the empty text otherwise: so the value [null] is labelled as
    0 and a missing value is labelled with nothing.  Points and
    shorter lines get no label. *)
Theorem buildValuesLabels_roads :
  (forall roads : list road,
      buildValuesLabels (featureCollection (map roadFeature roads))
      = Normal (JArr (flat_map roadLabels roads)))
  /\ valueText JNull = toFixed2 (Num.ofZ 0)
  /\ valueText JUndefined = ""%string
  /\ (forall (value : JsVal) (p q : Qc * Qc),
         roadLabels (Point value p) = []
         /\ roadLabels (Line value [p]) = []
         /\ roadLabels (Line value [p; q])
            = [label (midpoint (fst p) (fst q), midpoint (snd p) (snd q))
                     (valueText value)]).
Proof.
  split; [|split; [|split]].
  - intro roads. unfold buildValuesLabels, featureCollection.
    cbn [truthy negb get lookup String.eqb Ascii.eqb Bool.eqb bind iterate].
    rewrite forOf_labelStep_roads. reflexivity.
  - reflexivity.
  - reflexivity.
  - intros value p q. repeat split.
Qed.

Lemma labelStep_nullish (results : list JsVal) (f : JsVal) :
  nullish f = true -> exists e, labelStep results f = Throw e.
Proof.
  destruct f; try discriminate; intros _; eexists; reflexivity.
Qed.

Lemma forOf_labelStep_raises (items : list JsVal) (results : list JsVal) :
  (exists f, In f items /\ nullish f = true) ->
  exists e, forOf labelStep items results = Throw e.
Proof.
  revert results. induction items as [|x rest IH]; intros results (f & I & N).
  - destruct I.
  - cbn [forOf].
    destruct (labelStep results x) as [results'|e] eqn:S.
    + cbn [bind]. apply IH. destruct I as [<-|I].
      * destruct (labelStep_nullish results x N) as (e & E). congruence.
      * now exists f.
    + now exists e.
Qed.

Lemma filter_candidates_present (items : list JsVal) :
  filter isCandidate (filter (fun f => negb (nullish f)) items)
  = filter isCandidate items.
Proof.
  induction items as [|x rest IH]; [reflexivity|].
  cbn [filter]. destruct (nullish x) eqn:N; cbn [negb filter].
  - assert (C : isCandidate x = false)
      by (destruct x; try discriminate N; reflexivity).
    now rewrite C.
  - destruct (isCandidate x); [f_equal|]; exact IH.
Qed.

(** X12.  A feature that is [null] or [undefined] anywhere in the answer
    makes [buildValuesLabels] raise, whatever the other features are,
    while [getPeakPoint] passes over it: its result is that of the
    answer without such features. *)
Theorem buildValuesLabels_raises_on_missing_feature
        (items : list JsVal) (stats : JsVal) :
  (exists f, In f items /\ nullish f = true) ->
  (exists e, buildValuesLabels (featureCollection items) = Throw e)
  /\ getPeakPoint (featureCollection items) stats
     = getPeakPoint
         (featureCollection (filter (fun f => negb (nullish f)) items)) stats.
Proof.
  intro H. split.
  - unfold buildValuesLabels, featureCollection.
    cbn [truthy negb get lookup String.eqb Ascii.eqb Bool.eqb bind iterate].
    destruct (forOf_labelStep_raises items [] H) as (e & E).
    exists e. now rewrite E.
  - unfold featureCollection.
    rewrite (getPeakPoint_ignores
               [("type", JStr "FeatureCollection"); ("features", JArr items)]
               items stats eq_refl).
    rewrite (getPeakPoint_ignores
               [("type", JStr "FeatureCollection");
                ("features", JArr (filter (fun f => negb (nullish f)) items))]
               (filter (fun f => negb (nullish f)) items) stats eq_refl).
    now rewrite filter_candidates_present.
Qed.

End LabelFacts.

(** A line of three points valued 12, a point, a line of one point and
    a line valued [null]. *)
Lemma buildValuesLabels_roads_witness :
  buildValuesLabels (host := decimalHost)
    (featureCollection
       (map roadFeature
          [Line (JNum (Num.ofZ 12)) [pt 0 0; pt 4 2; pt 10 10];
           Point (JNum (Num.ofZ 99)) (pt 1 1);
           Line (JNum (Num.ofZ 7)) [pt 3 3];
           Line JNull [pt 0 0; pt 2 4]]))
  = Normal (JArr [label (pt 5 5) "12.00"; label (pt 1 2) "0.00"]).
Proof.
  destruct (buildValuesLabels_roads (host := decimalHost)) as [R _].
  rewrite R. js_eq.
Defined.

(** An answer whose second feature is [null]. *)
Lemma buildValuesLabels_raises_on_missing_feature_witness :
  (exists e,
      buildValuesLabels (host := decimalHost)
        (featureCollection
           [lineFeature (JNum (Num.ofZ 3)) [pt 0 0; pt 2 2]; JNull])
      = Throw e)
  /\ getPeakPoint (host := decimalHost)
       (featureCollection
          [lineFeature (JNum (Num.ofZ 3)) [pt 0 0; pt 2 2]; JNull])
       defaultStats
     = getPeakPoint (host := decimalHost)
         (featureCollection [lineFeature (JNum (Num.ofZ 3)) [pt 0 0; pt 2 2]])
         defaultStats.
Proof.
  apply (buildValuesLabels_raises_on_missing_feature (host := decimalHost)
           [lineFeature (JNum (Num.ofZ 3)) [pt 0 0; pt 2 2]; JNull] defaultStats).
  exists JNull. split; [right; left; reflexivity | reflexivity].
Defined.

(* ================================================================= *)
(** ** Colours, sizes and widths the layers are given *)

Lemma rgb_of_stops (ratio : num) : rgbOf (lineColor ratio) = rgbOf (peakColor ratio).
Proof.
  unfold lineColor, peakColor.
  destruct (Num.ltb ratio (Num.ofQ (33 # 100))); [reflexivity|].
  destruct (Num.ltb ratio (Num.ofQ (66 # 100))); [reflexivity|].
  destruct (Num.ltb ratio (Num.ofQ (9 # 10))); reflexivity.
Qed.

Lemma clamp_between (lo hi : Z) (x : num) :
  (lo <= hi)%Z ->
  Num.max (Num.ofZ lo) (Num.min (Num.ofZ hi) x) = NaN
  \/ between lo hi (Num.max (Num.ofZ lo) (Num.min (Num.ofZ hi) x)).
Proof.
  intro H.
  assert (B : forall z, (lo <= z <= hi)%Z -> between lo hi (Num.ofZ z)).
  { intros z Hz. unfold between. rewrite !ofZ_leb. split; apply Z.leb_le; lia. }
  destruct x as [| | |q].
  - left. reflexivity.
  - right. change (Num.min (Num.ofZ hi) PInf) with (Num.ofZ hi).
    rewrite ofZ_max. apply B. lia.
  - right. change (Num.min (Num.ofZ hi) NInf) with NInf.
    change (Num.max (Num.ofZ lo) NInf) with (Num.ofZ lo). apply B. lia.
  - right. unfold Num.min. change (Num.ofZ hi) with (Fin (Q2Qc (inject_Z hi))) at 1.
    cbv iota. unfold Num.ltb at 1.
    change (Num.ofZ hi) with (Fin (Q2Qc (inject_Z hi))) at 1. cbv iota.
    destruct (Num.Qcltb q (Q2Qc (inject_Z hi))) eqn:U.
    + apply Qcltb_iff in U.
      unfold Num.max. change (Num.ofZ lo) with (Fin (Q2Qc (inject_Z lo))) at 1.
      cbv iota. unfold Num.ltb at 1.
      change (Num.ofZ lo) with (Fin (Q2Qc (inject_Z lo))) at 1. cbv iota.
      destruct (Num.Qcltb (Q2Qc (inject_Z lo)) q) eqn:L.
      * apply Qcltb_iff in L. split.
        -- apply Qcleb_iff. now apply Qclt_le_weak.
        -- apply Qcleb_iff. now apply Qclt_le_weak.
      * apply B. lia.
    + change (Fin (Q2Qc (inject_Z hi))) with (Num.ofZ hi).
      rewrite ofZ_max. apply B. lia.
Qed.

Section LayerFacts.
Context {host : Host}.

(** X13.  With stats whose bounds are finite numbers, a road is drawn in
    the colour stop of the marker [getPeakPoint] builds for it: the
    four parts of the two colours differ in the last one only, for
    every feature whose value the scan of the peak counts. *)
Theorem road_colour_matches_marker (stats f : JsVal) (q : Qc) :
  truthy stats = true ->
  Number_isFinite (prop stats "min") = true ->
  Number_isFinite (prop stats "max") = true ->
  candidateValue f = Some q ->
  exists color : JsVal,
    getLineColor stats f = Normal color
    /\ forall middle : JsVal,
         rgbOf color = rgbOf (prop (marker middle f q stats) "color").
Proof.
  intros S A B C.
  exists (lineColor (encodeRatio (Fin q) (peakMinOf stats) (peakMaxOf stats))).
  split.
  - unfold candidateValue in C.
    destruct (truthy f) eqn:F; [|discriminate C].
    destruct (truthy (prop f "properties")) eqn:P; [|discriminate C].
    cbn [andb] in C.
    unfold getLineColor.
    rewrite (get_truthy _ "properties" F). cbn [bind].
    rewrite getOpt_eq. cbn [bind]. unfold optProp.
    assert (NP : nullish (prop f "properties") = false)
      by (destruct (prop f "properties"); try discriminate P; reflexivity).
    rewrite NP.
    assert (V : ToNumber (js_coalesce (prop (prop f "properties") "value")
                                      (JNum (Num.ofZ 0))) = Fin q).
    { assert (T : ToNumber (prop (prop f "properties") "value") = Fin q).
      { destruct (ToNumber (prop (prop f "properties") "value"));
          try discriminate C. now injection C as ->. }
      destruct (prop (prop f "properties") "value");
        cbn [js_coalesce nullish]; try exact T.
      discriminate T. }
    rewrite V.
    rewrite (get_truthy _ "min" S), (get_truthy _ "max" S). cbn [bind].
    unfold peakMinOf, peakMaxOf. rewrite S, A, B. reflexivity.
  - intro middle. unfold marker, prop. cbn [get lookup String.eqb Ascii.eqb Bool.eqb].
    apply rgb_of_stops.
Qed.

(** X14.  The size of the peak marker is a number between 22 and 56 or
    [NaN], and the width of a road a number between 3 and 9 or [NaN],
    whatever the vehicle counts and the host's square root are; a
    negative vehicle count sizes the marker as 0 vehicles do; the
    elevation of a building is never [NaN], and is 0 for a building
    without [HEIGHT] or with the [HEIGHT] [null]. *)
Theorem layer_numbers :
  (forall vehicles : num,
      markerSize vehicles = NaN \/ between 22 56 (markerSize vehicles))
  /\ (forall vehicles : num,
         Num.ltb vehicles (Num.ofZ 0) = true ->
         markerSize vehicles = markerSize (Num.ofZ 0))
  /\ (forall (feature : JsVal) (w : num),
         getLineWidth feature = Normal w -> w = NaN \/ between 3 9 w)
  /\ (forall (f : JsVal) (h : num),
         getElevation f = Normal h -> Num.isNaN h = false)
  /\ (forall f : JsVal,
         nullish f = false ->
         nullish (optProp (prop f "properties") "HEIGHT") = true ->
         getElevation f = Normal (Num.ofZ 0)).
Proof.
  split; [|split; [|split; [|split]]].
  - intro vehicles. unfold markerSize. apply clamp_between. lia.
  - intros vehicles L. unfold markerSize. f_equal. f_equal. f_equal. f_equal. f_equal.
    destruct vehicles as [| | |q]; try discriminate L; [reflexivity|].
    unfold Num.max. change (Num.ofZ 0) with (Fin (Q2Qc (inject_Z 0))) at 1.
    cbv iota. now rewrite L.
  - intros feature w. unfold getLineWidth.
    destruct (get feature "properties") as [properties|e]; [|discriminate].
    cbn [bind]. rewrite getOpt_eq. cbn [bind].
    intro E. injection E as <-. apply clamp_between. lia.
  - intros f h. unfold getElevation.
    destruct (get f "properties") as [properties|e]; [|discriminate].
    cbn [bind]. rewrite getOpt_eq. cbn [bind].
    intro E. injection E as <-.
    destruct (ToNumber (js_coalesce (optProp properties "HEIGHT") (JNum (Num.ofZ 0))))
      as [| | |q]; try reflexivity.
    destruct (Num.truthy (Fin q)); reflexivity.
  - intros f N H. unfold getElevation.
    rewrite (get_not_nullish _ _ N). cbn [bind]. rewrite getOpt_eq. cbn [bind].
    unfold js_coalesce. rewrite H. reflexivity.
Qed.

End LayerFacts.

(** The stats [{min: 0, max: 10}] and a line valued 7. *)
Lemma road_colour_matches_marker_witness :
  exists color : JsVal,
    getLineColor (host := decimalHost) stats_0_10
      (lineFeature (JNum (Num.ofZ 7)) [pt 0 0; pt 2 2]) = Normal color
    /\ forall middle : JsVal,
         rgbOf color
         = rgbOf (prop (marker (host := decimalHost) middle
                          (lineFeature (JNum (Num.ofZ 7)) [pt 0 0; pt 2 2])
                          (Q2Qc (inject_Z 7)) stats_0_10) "color").
Proof.
  apply (road_colour_matches_marker (host := decimalHost) stats_0_10
           (lineFeature (JNum (Num.ofZ 7)) [pt 0 0; pt 2 2]) (Q2Qc (inject_Z 7)));
    reflexivity.
Defined.

(* ================================================================= *)
(** ** The slider under the buttons and the playback timer *)

Section TimelineFacts.
Context {host : Host}.
Variable fetchJson : string -> completion JsVal.

Lemma timelineStep_even (pg : Page) (ev : TimelineEvent) :
  evenInRange pg -> evenInRange (timelineStep fetchJson pg ev).
Proof.
  intros (z & m & V & M & R). destruct ev; cbn [timelineStep].
  - destruct (chkTraffic pg) eqn:T.
    + destruct (btnPrevClick_position fetchJson pg (2 * z) (2 * m) T V M)
        as [Vp Mp].
      exists (Z.max 0 (z - 10)), m. rewrite Vp, Mp.
      repeat split; try lia. f_equal. lia.
    + unfold btnPrevClick. rewrite T. now exists z, m.
  - destruct (chkTraffic pg) eqn:T.
    + destruct (btnNextClick_position fetchJson pg (2 * z) (2 * m) T V M)
        as [Vn Mn].
      exists (Z.min m (z + 10)), m. rewrite Vn, Mn.
      repeat split; try lia. f_equal. lia.
    + unfold btnNextClick. rewrite T. now exists z, m.
  - destruct (playTick_position fetchJson pg (2 * z) (2 * m) V M) as [Vt Mt].
    destruct (2 * m <=? 2 * z)%Z eqn:L.
    + exists 0%Z, m. rewrite Vt, Mt. repeat split; try lia. f_equal. lia.
    + apply Z.leb_gt in L. exists (z + 1)%Z, m. rewrite Vt, Mt.
      repeat split; try lia. f_equal. lia.
Qed.

(** X15.  From an even position of a slider whose maximum is even, the
    position stays an even integer between 0 and the maximum under
    every sequence of previous and next clicks and playback ticks,
    whether the traffic box is checked or not and whatever the
    service answers. *)
Theorem timeline_keeps_even_positions (events : list TimelineEvent) (pg : Page) :
  evenInRange pg ->
  evenInRange (fold_left (timelineStep fetchJson) events pg)
  /\ inRange (fold_left (timelineStep fetchJson) events pg).
Proof.
  intro E.
  assert (F : evenInRange (fold_left (timelineStep fetchJson) events pg)).
  { revert pg E. induction events as [|ev rest IH]; intros pg E; [exact E|].
    cbn [fold_left]. apply IH. now apply timelineStep_even. }
  split; [exact F|].
  destruct F as (z & m & V & M & R).
  exists (2 * z)%Z, (2 * m)%Z. repeat split; try assumption; lia.
Qed.

End TimelineFacts.

(** The slider at 980 of 1000: a next click, then twelve ticks. *)
Lemma timeline_keeps_even_positions_witness :
  evenInRange
    (fold_left (timelineStep (host := decimalHost)
                  (fun _ => Normal emptyFeatureCollection))
               (Next :: repeat Tick 12)
               (set_sliderValue (Num.ofZ 980) readyPage))
  /\ inRange
       (fold_left (timelineStep (host := decimalHost)
                     (fun _ => Normal emptyFeatureCollection))
                  (Next :: repeat Tick 12)
                  (set_sliderValue (Num.ofZ 980) readyPage)).
Proof.
  apply (timeline_keeps_even_positions (host := decimalHost)
           (fun _ => Normal emptyFeatureCollection)
           (Next :: repeat Tick 12) (set_sliderValue (Num.ofZ 980) readyPage)).
  exists 490%Z, 500%Z. repeat split; lia.
Defined.

(* ================================================================= *)
(** ** The playback timer and the cards *)

Lemma set_cards_playback (t o l n : bool) (c : Controls) :
  playbackConsistent c -> playbackConsistent (set_cards t o l n c).
Proof. intro H. exact H. Qed.

Lemma clear_single (id : nat) :
  filter (fun t => negb (Nat.eqb t id)) [id] = [].
Proof. cbn. now rewrite Nat.eqb_refl. Qed.

Lemma setTimelineEnabled_playback (isEnabled : bool) (c : Controls) :
  playbackConsistent c -> playbackConsistent (setTimelineEnabled isEnabled c).
Proof.
  intros (I & P). unfold setTimelineEnabled.
  cbn [playInterval runningTimers nextTimer iconPause iconPlay].
  destruct isEnabled; cbn [negb andb]; [split; assumption|].
  destruct (playInterval c) as [id|] eqn:H; cbn [handleTruthy].
  - destruct P as (_ & R & L).
    destruct (Nat.eqb id 0) eqn:Z; cbn [negb].
    + apply Nat.eqb_eq in Z. lia.
    + split; [reflexivity|]. cbn [playInterval iconPause runningTimers nextTimer].
      rewrite R. unfold clearInterval. rewrite clear_single.
      repeat split. lia.
  - split; [exact I|exact P].
Qed.

Lemma updateVisibility_playback (c : Controls) :
  playbackConsistent c -> playbackConsistent (updateTimelineAndLegendVisibility c).
Proof.
  intro H. unfold updateTimelineAndLegendVisibility.
  destruct (trafficChecked c), (rumoreChecked c); cbn [orb];
    repeat apply set_cards_playback;
    try apply setTimelineEnabled_playback;
    repeat apply set_cards_playback; exact H.
Qed.

Lemma btnPlayClick_playback (c : Controls) :
  playbackConsistent c -> playbackConsistent (btnPlayClick c).
Proof.
  intros (I & P). unfold btnPlayClick.
  destruct (trafficChecked c); cbn [negb]; [|split; assumption].
  destruct (playInterval c) as [id|] eqn:H.
  - destruct P as (Pa & R & L). rewrite Pa.
    split; [reflexivity|]. cbn [playInterval iconPause runningTimers nextTimer].
    rewrite R. unfold clearInterval. rewrite clear_single. repeat split. lia.
  - destruct P as (Pa & R & L). rewrite Pa.
    split; [reflexivity|]. cbn [playInterval iconPause runningTimers nextTimer].
    rewrite R. repeat split; lia.
Qed.

Lemma controlStep_playback (c : Controls) (ev : ControlEvent) :
  playbackConsistent c -> playbackConsistent (controlStep c ev).
Proof.
  intro H. destruct ev; cbn [controlStep].
  - now apply btnPlayClick_playback.
  - apply updateVisibility_playback. exact H.
  - apply updateVisibility_playback. exact H.
Qed.

(** X16.  Under every sequence of clicks on the play button and changes of
    the two check boxes, at most one playback timer runs: either none
    runs, the handle is [null] and the play icon is shown, or exactly
    the timer the handle names runs and the pause icon is shown.  No
    timer is started twice and none is lost while it runs. *)
Theorem playback_timer_consistent (events : list ControlEvent) (c : Controls) :
  playbackConsistent c ->
  playbackConsistent (fold_left controlStep events c)
  /\ (List.length (runningTimers (fold_left controlStep events c)) <= 1)%nat.
Proof.
  intro H.
  assert (F : playbackConsistent (fold_left controlStep events c)).
  { revert c H. induction events as [|ev rest IH]; intros c H; [exact H|].
    cbn [fold_left]. apply IH. now apply controlStep_playback. }
  split; [exact F|].
  destruct F as (_ & P).
  destruct (playInterval (fold_left controlStep events c)).
  - destruct P as (_ & R & _). rewrite R. cbn. lia.
  - destruct P as (_ & R & _). rewrite R. cbn. lia.
Qed.

Lemma setTimelineEnabled_eq (isEnabled : bool) (c : Controls) :
  setTimelineEnabled isEnabled c
  = if negb isEnabled && handleTruthy (playInterval c)
    then mkControls (negb isEnabled) (negb isEnabled) (negb isEnabled)
           (negb isEnabled)
           None (clearInterval (playInterval c) (runningTimers c)) (nextTimer c)
           false true
           (trafficChecked c) (rumoreChecked c) (timelineHidden c)
           (timelineOverlay c) (legendHidden c) (noDataHidden c)
    else mkControls (negb isEnabled) (negb isEnabled) (negb isEnabled)
           (negb isEnabled)
           (playInterval c) (runningTimers c) (nextTimer c)
           (iconPause c) (iconPlay c)
           (trafficChecked c) (rumoreChecked c) (timelineHidden c)
           (timelineOverlay c) (legendHidden c) (noDataHidden c).
Proof. destruct c. reflexivity. Qed.

Lemma updateVisibility_traffic (c : Controls) :
  trafficChecked c = true ->
  updateTimelineAndLegendVisibility c
  = mkControls false false false false
      (playInterval c) (runningTimers c) (nextTimer c) (iconPause c) (iconPlay c)
      true (rumoreChecked c) false false false true.
Proof.
  destruct c as [sd pd pld nd pi rt nt ip ipl tc rc th ov lh nh].
  cbn [trafficChecked]. intros ->. reflexivity.
Qed.

Lemma setTimelineEnabled_stops (c : Controls) (id : nat) :
  playInterval c = Some id -> id <> 0%nat ->
  setTimelineEnabled false c
  = mkControls true true true true
      None (filter (fun t => negb (Nat.eqb t id)) (runningTimers c)) (nextTimer c)
      false true
      (trafficChecked c) (rumoreChecked c) (timelineHidden c) (timelineOverlay c)
      (legendHidden c) (noDataHidden c).
Proof.
  intros H Z. destruct c as [sd pd pld nd pi rt nt ip ipl tc rc th ov lh nh].
  cbn [playInterval] in H. subst pi.
  unfold setTimelineEnabled.
  cbn [playInterval runningTimers nextTimer iconPause iconPlay
       sliderDisabled btnPrevDisabled btnPlayDisabled btnNextDisabled
       trafficChecked rumoreChecked timelineHidden timelineOverlay
       legendHidden noDataHidden negb andb handleTruthy clearInterval].
  apply Nat.eqb_neq in Z. rewrite Z. reflexivity.
Qed.

Lemma updateVisibility_other_only (c : Controls) :
  trafficChecked c = false -> rumoreChecked c = true ->
  updateTimelineAndLegendVisibility c
  = set_cards false true true false (setTimelineEnabled false c).
Proof.
  destruct c as [sd pd pld nd pi rt nt ip ipl tc rc th ov lh nh].
  cbn [trafficChecked rumoreChecked]. intros -> ->.
  unfold updateTimelineAndLegendVisibility, setTimelineEnabled.
  cbn [set_cards playInterval runningTimers nextTimer iconPause iconPlay
       sliderDisabled btnPrevDisabled btnPlayDisabled btnNextDisabled
       trafficChecked rumoreChecked timelineHidden timelineOverlay
       legendHidden noDataHidden orb negb andb].
  destruct (handleTruthy pi); reflexivity.
Qed.

Lemma updateVisibility_no_box (c : Controls) :
  trafficChecked c = false -> rumoreChecked c = false ->
  updateTimelineAndLegendVisibility c
  = set_cards true (timelineOverlay c) true (noDataHidden c) c.
Proof.
  intros T R. unfold updateTimelineAndLegendVisibility. rewrite T, R. reflexivity.
Qed.

(** X17.  Unchecking the traffic box while the playback runs stops the
    timer only when the other box is checked.  With the other box
    unchecked the cards are hidden and the timer goes on, with the
    pause icon; a click on the play button does not stop it then. *)
Theorem unchecking_traffic_and_playback (c : Controls) (id : nat) :
  playbackConsistent c ->
  playInterval c = Some id ->
  (rumoreChecked c = true ->
   let c' := chkTrafficChange false c in
   playInterval c' = None /\ runningTimers c' = []
   /\ iconPlay c' = true /\ timelineHidden c' = false
   /\ btnPlayDisabled c' = true)
  /\ (rumoreChecked c = false ->
      let c' := chkTrafficChange false c in
      playInterval c' = Some id /\ runningTimers c' = [id]
      /\ iconPause c' = true /\ timelineHidden c' = true
      /\ btnPlayClick c' = c').
Proof.
  intros (I & P) H. rewrite H in P. destruct P as (Pa & R & L).
  assert (Z : id <> 0%nat) by lia.
  split; intro Ru; cbv zeta; unfold chkTrafficChange.
  - rewrite updateVisibility_other_only by (reflexivity || exact Ru).
    rewrite (setTimelineEnabled_stops _ id) by (exact H || exact Z).
    cbn [set_cards set_trafficChecked playInterval runningTimers nextTimer
         iconPause iconPlay sliderDisabled btnPrevDisabled btnPlayDisabled
         btnNextDisabled trafficChecked rumoreChecked timelineHidden
         timelineOverlay legendHidden noDataHidden].
    rewrite R. cbn [filter]. rewrite Nat.eqb_refl. repeat split.
  - rewrite updateVisibility_no_box by (reflexivity || exact Ru).
    unfold btnPlayClick.
    cbn [set_cards set_trafficChecked playInterval runningTimers nextTimer
         iconPause iconPlay sliderDisabled btnPrevDisabled btnPlayDisabled
         btnNextDisabled trafficChecked rumoreChecked timelineHidden
         timelineOverlay legendHidden noDataHidden negb].
    repeat split; assumption.
Qed.

(** The playback started on idle controls, with the other box checked
    and unchecked. *)
Lemma unchecking_traffic_and_playback_witness :
  (let c' := chkTrafficChange false
               (btnPlayClick (chkRumoreChange true idleControls)) in
   playInterval c' = None /\ runningTimers c' = []
   /\ iconPlay c' = true /\ timelineHidden c' = false
   /\ btnPlayDisabled c' = true)
  /\ (let c' := chkTrafficChange false (btnPlayClick idleControls) in
      playInterval c' = Some 1%nat /\ runningTimers c' = [1%nat]
      /\ iconPause c' = true /\ timelineHidden c' = true
      /\ btnPlayClick c' = c').
Proof.
  split.
  - destruct (unchecking_traffic_and_playback
                (btnPlayClick (chkRumoreChange true idleControls)) 1) as [A _].
    + unfold playbackConsistent. cbn. repeat split; first [reflexivity | lia].
    + reflexivity.
    + exact (A eq_refl).
  - destruct (unchecking_traffic_and_playback (btnPlayClick idleControls) 1)
      as [_ B].
    + unfold playbackConsistent. cbn. repeat split; first [reflexivity | lia].
    + reflexivity.
    + exact (B eq_refl).
Defined.

(** Idle controls under play, uncheck, play, check, play. *)
Lemma playback_timer_consistent_witness :
  playbackConsistent
    (fold_left controlStep
       [PlayClick; TrafficChange false; PlayClick; TrafficChange true; PlayClick]
       idleControls)
  /\ (List.length
        (runningTimers
           (fold_left controlStep
              [PlayClick; TrafficChange false; PlayClick; TrafficChange true;
               PlayClick]
              idleControls)) <= 1)%nat.
Proof.
  apply (playback_timer_consistent
           [PlayClick; TrafficChange false; PlayClick; TrafficChange true; PlayClick]
           idleControls).
  unfold playbackConsistent. cbn. repeat split; first [reflexivity | lia].
Defined.

(** X18.  Calling [updateTimelineAndLegendVisibility] twice is calling it
    once.  After it, the timeline card is shown when one of the two
    boxes is checked and the legend card when the traffic box is; with
    the traffic box checked the slider and the three buttons are
    enabled; with only the other box checked they are disabled and the
    no-data message is shown over the card; with no box checked they
    are left as they were. *)
Theorem visibility_of_cards (c : Controls) :
  let c' := updateTimelineAndLegendVisibility c in
  updateTimelineAndLegendVisibility c' = c'
  /\ timelineHidden c' = negb (trafficChecked c || rumoreChecked c)
  /\ legendHidden c' = negb (trafficChecked c)
  /\ (trafficChecked c = true ->
      sliderDisabled c' = false /\ btnPrevDisabled c' = false
      /\ btnPlayDisabled c' = false /\ btnNextDisabled c' = false
      /\ noDataHidden c' = true /\ timelineOverlay c' = false)
  /\ (trafficChecked c = false -> rumoreChecked c = true ->
      sliderDisabled c' = true /\ btnPrevDisabled c' = true
      /\ btnPlayDisabled c' = true /\ btnNextDisabled c' = true
      /\ noDataHidden c' = false /\ timelineOverlay c' = true)
  /\ (trafficChecked c = false -> rumoreChecked c = false ->
      sliderDisabled c' = sliderDisabled c
      /\ btnPrevDisabled c' = btnPrevDisabled c
      /\ btnPlayDisabled c' = btnPlayDisabled c
      /\ btnNextDisabled c' = btnNextDisabled c
      /\ playInterval c' = playInterval c
      /\ runningTimers c' = runningTimers c).
Proof.
  intro c'.
  destruct (trafficChecked c) eqn:T; [|destruct (rumoreChecked c) eqn:R].
  - assert (E : c' = mkControls false false false false
                      (playInterval c) (runningTimers c) (nextTimer c)
                      (iconPause c) (iconPlay c)
                      true (rumoreChecked c) false false false true)
      by (subst c'; now apply updateVisibility_traffic).
    clearbody c'. subst c'.
    split; [now rewrite updateVisibility_traffic by reflexivity|].
    cbn [sliderDisabled btnPrevDisabled btnPlayDisabled btnNextDisabled
         playInterval runningTimers timelineHidden timelineOverlay
         legendHidden noDataHidden orb negb].
    repeat split; intros; try reflexivity; discriminate.
  - assert (E : c' = set_cards false true true false (setTimelineEnabled false c))
      by (subst c'; now apply updateVisibility_other_only).
    clearbody c'. rewrite setTimelineEnabled_eq in E. cbn [negb andb] in E.
    destruct (handleTruthy (playInterval c)) eqn:HT;
      cbn [set_cards sliderDisabled btnPrevDisabled btnPlayDisabled
           btnNextDisabled playInterval runningTimers nextTimer iconPause
           iconPlay trafficChecked rumoreChecked timelineHidden timelineOverlay
           legendHidden noDataHidden] in E;
      subst c';
      (split;
       [ rewrite updateVisibility_other_only by (first [exact T | exact R]);
         rewrite setTimelineEnabled_eq;
         cbn [set_cards sliderDisabled btnPrevDisabled btnPlayDisabled
              btnNextDisabled playInterval runningTimers nextTimer iconPause
              iconPlay trafficChecked rumoreChecked timelineHidden
              timelineOverlay legendHidden noDataHidden handleTruthy negb andb];
         rewrite ?HT; reflexivity
       | cbn [sliderDisabled btnPrevDisabled btnPlayDisabled btnNextDisabled
              playInterval runningTimers timelineHidden timelineOverlay
              legendHidden noDataHidden orb negb];
         repeat split; intros; try reflexivity; discriminate ]).
  - assert (E : c' = set_cards true (timelineOverlay c) true (noDataHidden c) c)
      by (subst c'; now apply updateVisibility_no_box).
    clearbody c'. subst c'.
    split; [now rewrite updateVisibility_no_box by assumption|].
    cbn [set_cards sliderDisabled btnPrevDisabled btnPlayDisabled btnNextDisabled
         playInterval runningTimers timelineHidden timelineOverlay
         legendHidden noDataHidden orb negb].
    repeat split; intros; try reflexivity; discriminate.
Qed.

(** A collection without features, and one with a line and a
    polygon. *)
Lemma getFeatureCollectionBounds_box_witness :
  getFeatureCollectionBounds (featureCollection []) = Normal JNull
  /\ exists x0 y0 x1 y1 : Qc,
       getFeatureCollectionBounds
         (featureCollection
            [lineFeature JNull [pt 1 5; pt 3 2];
             polygonFeature [[pt 0 0; pt 4 1; pt 0 3; pt 0 0]]])
       = Normal (boxValue x0 y0 x1 y1)
       /\ isBox x0 y0 x1 y1
            (flat_map featurePairs
               [lineFeature JNull [pt 1 5; pt 3 2];
                polygonFeature [[pt 0 0; pt 4 1; pt 0 3; pt 0 0]]]).
Proof.
  destruct getFeatureCollectionBounds_box as (B & _).
  split.
  - destruct (B [("type", JStr "FeatureCollection"); ("features", JArr [])]
                [] eq_refl) as [N _].
    exact (N eq_refl).
  - destruct (B [("type", JStr "FeatureCollection");
                 ("features",
                  JArr [lineFeature JNull [pt 1 5; pt 3 2];
                        polygonFeature [[pt 0 0; pt 4 1; pt 0 3; pt 0 0]]])]
                [lineFeature JNull [pt 1 5; pt 3 2];
                 polygonFeature [[pt 0 0; pt 4 1; pt 0 3; pt 0 0]]] eq_refl)
      as [_ P].
    apply P. discriminate.
Defined.

(** A marker for -4 vehicles, a road without vehicles, a building
    without [HEIGHT]. *)
Lemma layer_numbers_witness :
  markerSize (host := decimalHost) (Num.ofZ (-4))
  = markerSize (host := decimalHost) (Num.ofZ 0)
  /\ (getLineWidth (host := decimalHost) (lineFeature JNull [pt 0 0; pt 1 1])
      = Normal (Num.ofZ 3)
      /\ between 3 9 (Num.ofZ 3))
  /\ getElevation (host := decimalHost) (JObj [("properties", JObj [])])
     = Normal (Num.ofZ 0).
Proof.
  destruct (layer_numbers (host := decimalHost)) as (_ & S & W & _ & E).
  split; [|split].
  - apply S. reflexivity.
  - assert (G : getLineWidth (host := decimalHost)
                  (lineFeature JNull [pt 0 0; pt 1 1]) = Normal (Num.ofZ 3))
      by js_eq.
    split; [exact G|].
    destruct (W _ _ G) as [N|R]; [discriminate N|exact R].
  - apply E; reflexivity.
Defined.
